(** * qpdfview: the tiled rendering pipeline (rendertask.cpp, tileitem.cpp)

    A shallow embedding of the render task, the margin trimmer and the tile
    item of qpdfview, and the properties of the pipeline established on it.

    Conventions of the embedding:
    - a C++ [int] is a [Z]; where the source multiplies ints the 32-bit
      two's-complement wrap-around is written out ([int32]);
    - a [qreal] is an IEEE-754 binary64 value ([spec_float] with
      [prec = 53], [emax = 1024]); every arithmetic operation rounds to
      nearest, ties to even, as a desktop Qt build with SSE2 arithmetic does;
    - Qt classes (QImage, QPixmap, QCache, QAtomicInt, QString::sprintf) are
      modelled from their documented behaviour, only as far as the two
      source files use them;
    - signals emitted by a task are collected in a trace, in emission order. *)

From Stdlib Require Import ZArith List String Ascii Bool Lia.
From Stdlib Require Import Floats.SpecFloat.
From Stdlib Require Import DecimalString DecimalZ.
Import ListNotations.

Open Scope list_scope.
Open Scope string_scope.
Open Scope Z_scope.

(* ================================================================== *)
(** * Part I: the model *)
(* ================================================================== *)

(** ** Machine numbers *)

(** [int]: 32-bit two's complement.  [int32 z] is the value an [int]
    holds after a computation whose mathematical result is [z]. *)
Definition int32 (z : Z) : Z := (z + 2 ^ 31) mod 2 ^ 32 - 2 ^ 31.

Definition int_mul (a b : Z) : Z := int32 (a * b).

(** C++ integer division truncates towards zero. *)
Definition int_div (a b : Z) : Z := Z.quot a b.

Definition int_of_bool (b : bool) : Z := if b then 1 else 0.

(** [qreal]: binary64. *)
Definition qreal : Type := spec_float.

Definition prec : Z := 53.
Definition emax : Z := 1024.

Definition qadd : qreal -> qreal -> qreal := SFadd prec emax.
Definition qsub : qreal -> qreal -> qreal := SFsub prec emax.
Definition qmul : qreal -> qreal -> qreal := SFmul prec emax.
Definition qdiv : qreal -> qreal -> qreal := SFdiv prec emax.
Definition qeqb : qreal -> qreal -> bool := SFeqb.
Definition qltb : qreal -> qreal -> bool := SFltb.

(** [static_cast< qreal >(n)] and the implicit int-to-double conversion. *)
Definition qreal_of_int (n : Z) : qreal := binary_normalize prec emax n 0 false.

(** A decimal literal [n / 10^k] of the source text denotes the binary64
    value nearest to it, which is what the correctly rounded quotient of
    the two exactly representable integers yields. *)
Definition literal (n : Z) (pow10 : Z) : qreal :=
  qdiv (qreal_of_int n) (qreal_of_int pow10).

(** [floor] and [ceil] of <cmath> followed by the conversion to [int], on
    finite values.  The conversion of a NaN or an infinity to [int] is
    undefined in C++; the model returns 0 there. *)
Definition floor_int (v : qreal) : Z :=
  match v with
  | S754_finite s m e =>
      let n := if s then Z.neg m else Z.pos m in
      if 0 <=? e then n * 2 ^ e else n / 2 ^ (- e)
  | _ => 0
  end.

Definition ceil_int (v : qreal) : Z :=
  match v with
  | S754_finite s m e =>
      let n := if s then Z.neg m else Z.pos m in
      if 0 <=? e then n * 2 ^ e else - ((- n) / 2 ^ (- e))
  | _ => 0
  end.

(** <qmath.h> *)
Definition qFloor (v : qreal) : Z := floor_int v.
Definition qCeil (v : qreal) : Z := ceil_int v.

(** ** QString::sprintf *)

(** [%d]: optional minus sign and decimal digits. *)
Definition format_d (n : Z) : string := NilEmpty.string_of_int (Z.to_int n).

(** Rounding of the fraction [n / d] ([d > 0]) to the nearest integer,
    halves to the even neighbour. *)
Definition round_half_even (n d : Z) : Z :=
  let q := n / d in
  match Z.compare (2 * (n mod d)) d with
  | Lt => q
  | Gt => q + 1
  | Eq => if Z.even q then q else q + 1
  end.

(** The magnitude [m * 2^e] in units of [10^-6], rounded. *)
Definition micro_units (m : positive) (e : Z) : Z :=
  if 0 <=? e then Z.pos m * 10 ^ 6 * 2 ^ e
  else round_half_even (Z.pos m * 10 ^ 6) (2 ^ (- e)).

Fixpoint zeros (n : nat) : string :=
  match n with
  | O => EmptyString
  | S n' => String "0" (zeros n')
  end.

Definition pad6 (s : string) : string := zeros (6 - String.length s) ++ s.

Definition sign_text (s : bool) : string := if s then "-" else "".

(** [%f]: fixed notation with the default precision of six decimals; the
    exact binary value is rounded to the nearest multiple of [10^-6]. *)
Definition format_f (x : qreal) : string :=
  match x with
  | S754_nan => "nan"
  | S754_infinity s => sign_text s ++ "inf"
  | S754_zero s => sign_text s ++ "0.000000"
  | S754_finite s m e =>
      let u := micro_units m e in
      sign_text s ++ format_d (u / 10 ^ 6) ++ "." ++ pad6 (format_d (u mod 10 ^ 6))
  end.

(** The variadic arguments after default promotion: [bool] and enums
    arrive as [int], [qreal] as [double]. *)
Inductive printf_arg : Type :=
| ArgInt (n : Z)
| ArgDouble (x : qreal).

(** The conversions the source uses.  A directive whose argument is
    missing or of the other kind (undefined in C) prints nothing. *)
Fixpoint sprintf (cformat : string) (args : list printf_arg) : string :=
  match cformat with
  | EmptyString => EmptyString
  | String "%" (String "d" rest) =>
      match args with
      | ArgInt n :: args' => format_d n ++ sprintf rest args'
      | _ => sprintf rest (tl args)
      end
  | String "%" (String "f" rest) =>
      match args with
      | ArgDouble x :: args' => format_f x ++ sprintf rest args'
      | _ => sprintf rest (tl args)
      end
  | String c rest => String c (sprintf rest args)
  end.

(** A text without the separator of the key's fields. *)
Fixpoint no_comma (s : string) : bool :=
  match s with
  | EmptyString => true
  | String c s' => negb (Ascii.eqb c ",") && no_comma s'
  end.

(** ** Geometry and colours (QtCore, QtGui) *)

Module QRect.
Record t : Type := make { x : Z; y : Z; width : Z; height : Z }.
Definition left (r : t) : Z := x r.
Definition top (r : t) : Z := y r.
Definition eqb (a b : t) : bool :=
  (x a =? x b) && (y a =? y b) && (width a =? width b) && (height a =? height b).
Definition neq (a b : t) : bool := negb (eqb a b).
End QRect.

Module QPointF.
Record t : Type := make { x : qreal; y : qreal }.
End QPointF.

Module QRectF.
Record t : Type := make { x : qreal; y : qreal; width : qreal; height : qreal }.
(** [QRectF(const QRect&)] *)
Definition ofRect (r : QRect.t) : t :=
  make (qreal_of_int (QRect.x r)) (qreal_of_int (QRect.y r))
       (qreal_of_int (QRect.width r)) (qreal_of_int (QRect.height r)).
Definition translated (r : t) (p : QPointF.t) : t :=
  make (qadd (x r) (QPointF.x p)) (qadd (y r) (QPointF.y p)) (width r) (height r).
(** [QRectF()]: the null rectangle. *)
Definition null : t := make (S754_zero false) (S754_zero false) (S754_zero false) (S754_zero false).
End QRectF.

(** A [QRgb] is an unsigned 32-bit #AARRGGBB value. *)
Definition QRgb : Type := Z.

Module QColor.
(** An RGB colour: four channels of eight bits. *)
Record t : Type := make { alpha : Z; red : Z; green : Z; blue : Z }.
(** [QColor(QRgb)]: the alpha channel of the argument is ignored, the
    colour is opaque. *)
Definition fromRgb (p : QRgb) : t :=
  make 255 (Z.land (Z.shiftr p 16) 255) (Z.land (Z.shiftr p 8) 255) (Z.land p 255).
Definition eqb (a b : t) : bool :=
  (alpha a =? alpha b) && (red a =? red b) && (green a =? green b) && (blue a =? blue b).
(** [operator!=] *)
Definition neq (a b : t) : bool := negb (eqb a b).
(** [Qt::white] *)
Definition white : t := make 255 255 255 255.
End QColor.

Module QImage.
(** A null image, or pixel data of a given geometry and depth with the
    device pixel ratio attached to it. *)
Inductive t : Type :=
| Null
| Data (width height depth : Z) (devicePixelRatio : qreal) (pixels : Z -> Z -> QRgb).

Definition isNull (i : t) : bool := match i with Null => true | Data _ _ _ _ _ => false end.
Definition width (i : t) : Z := match i with Null => 0 | Data w _ _ _ _ => w end.
Definition height (i : t) : Z := match i with Null => 0 | Data _ h _ _ _ => h end.
Definition depth (i : t) : Z := match i with Null => 0 | Data _ _ d _ _ => d end.
Definition pixel (i : t) (x y : Z) : QRgb :=
  match i with Null => 0 | Data _ _ _ _ px => px x y end.
Definition setDevicePixelRatio (i : t) (r : qreal) : t :=
  match i with Null => Null | Data w h d _ px => Data w h d r px end.
(** [invertPixels()] in its default mode inverts the colour channels
    and keeps alpha. *)
Definition invertPixels (i : t) : t :=
  match i with
  | Null => Null
  | Data w h d r px => Data w h d r (fun x y => Z.lxor (px x y) 16777215)
  end.
End QImage.

Module QPixmap.
(** A null pixmap, or the pixel data of an image.  [fromImage] keeps the
    geometry and the depth of the image. *)
Inductive t : Type :=
| Null
| Data (width height depth : Z) (source : QImage.t).

Definition isNull (p : t) : bool := match p with Null => true | Data _ _ _ _ => false end.
Definition width (p : t) : Z := match p with Null => 0 | Data w _ _ _ => w end.
Definition height (p : t) : Z := match p with Null => 0 | Data _ h _ _ => h end.
Definition depth (p : t) : Z := match p with Null => 0 | Data _ _ d _ => d end.
Definition fromImage (i : QImage.t) : t :=
  match i with
  | QImage.Null => Null
  | QImage.Data w h d _ _ => Data w h d i
  end.
End QPixmap.

(** ** Render parameters *)

(** Modelled from the spec: the enum [Rotation] is declared in a header
    that is not among the sources; the spec gives its four cardinal
    values, numbered here in declaration order. *)
Inductive Rotation : Type := RotateBy0 | RotateBy90 | RotateBy180 | RotateBy270.

Definition int_of_Rotation (r : Rotation) : Z :=
  match r with
  | RotateBy0 => 0
  | RotateBy90 => 1
  | RotateBy180 => 2
  | RotateBy270 => 3
  end.

Definition Rotation_eqb (a b : Rotation) : bool := int_of_Rotation a =? int_of_Rotation b.

(** Modelled from the spec: the structs behind [RenderParam] are declared
    in a header that is not among the sources.  The fields are those the
    sources read: [resolution.resolutionX], [resolution.resolutionY]
    (printed with [%d]), [resolution.devicePixelRatio], [scaleFactor]
    (multiplied as [qreal]), [rotation] and [invertColors]. *)
Record RenderResolution : Type := {
  resolutionX : Z;
  resolutionY : Z;
  devicePixelRatio : qreal
}.

Record RenderParam : Type := {
  resolution : RenderResolution;
  scaleFactor : qreal;
  rotation : Rotation;
  invertColors : bool
}.

(** Modelled from the spec: [operator==] and [operator!=] of [RenderParam]
    are declared in the missing header; the spec says that equality is
    structural, all fields compare equal. *)
Definition RenderParam_eqb (a b : RenderParam) : bool :=
  (resolutionX (resolution a) =? resolutionX (resolution b))
  && (resolutionY (resolution a) =? resolutionY (resolution b))
  && qeqb (devicePixelRatio (resolution a)) (devicePixelRatio (resolution b))
  && qeqb (scaleFactor a) (scaleFactor b)
  && Rotation_eqb (rotation a) (rotation b)
  && Bool.eqb (invertColors a) (invertColors b).

Definition RenderParam_neq (a b : RenderParam) : bool := negb (RenderParam_eqb a b).

(** ** rendertask.cpp: the anonymous namespace *)

Definition NotCanceled : Z := 0.
Definition CanceledNormally : Z := 1.
Definition CanceledForcibly : Z := 2.

(** The Qt versions told apart by the [#if QT_VERSION] directives. *)
Inductive QtVersion : Type :=
| Qt4        (* before 5.0.0 *)
| Qt5_0      (* 5.0.x; 5.0.0 itself stores through the Qt 4 branch, to the same effect *)
| Qt5_1.     (* 5.1.0 and later *)

Module QAtomicInt.
(** The value held; operations return the value left behind. *)
Definition t : Type := Z.
Definition load (a : t) : Z := a.
Definition storeRelease (a : t) (v : Z) : t := v.
Definition fetchAndStoreRelease (a : t) (v : Z) : Z * t := (a, v).
Definition testAndSetRelaxed (a : t) (expected newValue : Z) : bool * t :=
  if a =? expected then (true, newValue) else (false, a).
End QAtomicInt.

Definition setCancellation (qt : QtVersion) (wasCanceled : QAtomicInt.t) (force : bool)
  : QAtomicInt.t :=
  match qt with
  | Qt4 =>
      snd (QAtomicInt.fetchAndStoreRelease wasCanceled
             (if force then CanceledForcibly else CanceledNormally))
  | _ =>
      QAtomicInt.storeRelease wasCanceled
        (if force then CanceledForcibly else CanceledNormally)
  end.

Definition resetCancellation (qt : QtVersion) (wasCanceled : QAtomicInt.t) : QAtomicInt.t :=
  match qt with
  | Qt4 => snd (QAtomicInt.fetchAndStoreRelease wasCanceled NotCanceled)
  | _ => QAtomicInt.storeRelease wasCanceled NotCanceled
  end.

(** Returns the answer and the value the atomic holds afterwards. *)
Definition testCancellation (qt : QtVersion) (wasCanceled : QAtomicInt.t) (prefetch : bool)
  : bool * QAtomicInt.t :=
  match qt with
  | Qt4 =>
      if prefetch then
        QAtomicInt.testAndSetRelaxed wasCanceled CanceledForcibly CanceledForcibly
      else
        let (r, a) := QAtomicInt.testAndSetRelaxed wasCanceled NotCanceled NotCanceled in
        (negb r, a)
  | _ =>
      (if prefetch then QAtomicInt.load wasCanceled =? CanceledForcibly
       else negb (QAtomicInt.load wasCanceled =? NotCanceled),
       wasCanceled)
  end.

Definition loadWasCanceled (wasCanceled : QAtomicInt.t) : Z := QAtomicInt.load wasCanceled.

Definition scaledResolutionX (renderParam : RenderParam) : qreal :=
  qmul (qmul (devicePixelRatio (resolution renderParam))
             (qreal_of_int (resolutionX (resolution renderParam))))
       (scaleFactor renderParam).

Definition scaledResolutionY (renderParam : RenderParam) : qreal :=
  qmul (qmul (devicePixelRatio (resolution renderParam))
             (qreal_of_int (resolutionY (resolution renderParam))))
       (scaleFactor renderParam).

Definition roundDown (value precision tolerance : qreal) : qreal :=
  qdiv (qreal_of_int
          (qFloor (qmul (qmul (qsub (qreal_of_int 1) tolerance) value) precision)))
       precision.

Definition roundUp (value precision tolerance : qreal) : qreal :=
  qdiv (qreal_of_int
          (qCeil (qmul (qmul (qadd (qreal_of_int 1) tolerance) value) precision)))
       precision.

(** [for(i = from; i < bound; ++i) if(!keep i) return false; return true].
    [fuel] bounds the number of iterations; [bound - from] suffices. *)
Fixpoint all_below (fuel : nat) (i bound : Z) (keep : Z -> bool) : bool :=
  match fuel with
  | O => true
  | S fuel' =>
      if i <? bound then
        if keep i then all_below fuel' (i + 1) bound keep else false
      else true
  end.

Definition columnHasPaperColor (x : Z) (paperColor : QColor.t) (image : QImage.t) : bool :=
  let height := QImage.height image in
  all_below (Z.to_nat height) 0 height
    (fun y => negb (QColor.neq paperColor (QColor.fromRgb (QImage.pixel image x y)))).

Definition rowHasPaperColor (y : Z) (paperColor : QColor.t) (image : QImage.t) : bool :=
  let width := QImage.width image in
  all_below (Z.to_nat width) 0 width
    (fun x => negb (QColor.neq paperColor (QColor.fromRgb (QImage.pixel image x y)))).

Definition cropBoxPrecision : qreal := qreal_of_int 100.
Definition cropBoxTolerance : qreal := literal 5 100.

(** [for(i = from; i < bound; ++i) if(!margin i) break;] yields the final [i]. *)
Fixpoint scan_up (fuel : nat) (i bound : Z) (margin : Z -> bool) : Z :=
  match fuel with
  | O => i
  | S fuel' =>
      if i <? bound then
        if margin i then scan_up fuel' (i + 1) bound margin else i
      else i
  end.

(** [for(i = from; i >= bound; --i) if(!margin i) break;] yields the final [i]. *)
Fixpoint scan_down (fuel : nat) (i bound : Z) (margin : Z -> bool) : Z :=
  match fuel with
  | O => i
  | S fuel' =>
      if i >=? bound then
        if margin i then scan_down fuel' (i - 1) bound margin else i
      else i
  end.

Definition trimMargins (paperColor : QColor.t) (image : QImage.t) : QRectF.t :=
  if QImage.isNull image then
    QRectF.make (qreal_of_int 0) (qreal_of_int 0) (qreal_of_int 1) (qreal_of_int 1)
  else
    let width := QImage.width image in
    let height := QImage.height image in
    let left :=
      scan_up (Z.to_nat width) 0 width
        (fun x => columnHasPaperColor x paperColor image) in
    let right :=
      scan_down (Z.to_nat (width - left)) (width - 1) left
        (fun x => columnHasPaperColor x paperColor image) in
    let top :=
      scan_up (Z.to_nat height) 0 height
        (fun y => rowHasPaperColor y paperColor image) in
    let bottom :=
      scan_down (Z.to_nat (height - top)) (height - 1) top
        (fun y => rowHasPaperColor y paperColor image) in
    QRectF.make
      (roundDown (qdiv (qreal_of_int left) (qreal_of_int width))
                 cropBoxPrecision cropBoxTolerance)
      (roundDown (qdiv (qreal_of_int top) (qreal_of_int height))
                 cropBoxPrecision cropBoxTolerance)
      (roundUp (qdiv (qreal_of_int (right - left + 1)) (qreal_of_int width))
               cropBoxPrecision cropBoxTolerance)
      (roundUp (qdiv (qreal_of_int (bottom - top + 1)) (qreal_of_int height))
               cropBoxPrecision cropBoxTolerance).

(** ** rendertask.cpp: RenderTask *)

Module Page.
(** [Model::Page]: the external page object; [render] rasterizes a
    region at a resolution and rotation. *)
Record t : Type := make {
  id : Z;
  render : qreal -> qreal -> Rotation -> QRect.t -> QImage.t
}.
End Page.

(** The signals of a task. *)
Inductive Signal : Type :=
| imageReady (renderParam : RenderParam) (rect : QRect.t) (prefetch : bool) (image : QImage.t)
| cropBoxReady (renderParam : RenderParam) (rect : QRect.t) (cropBox : QRectF.t)
| finished.

Definition is_imageReady (s : Signal) : bool :=
  match s with imageReady _ _ _ _ => true | _ => false end.
Definition is_cropBoxReady (s : Signal) : bool :=
  match s with cropBoxReady _ _ _ => true | _ => false end.
Definition is_finished (s : Signal) : bool :=
  match s with finished => true | _ => false end.

Module RenderTask.
Record t : Type := make {
  m_isRunning : bool;
  m_wasCanceled : QAtomicInt.t;
  m_page : Page.t;
  m_renderParam : RenderParam;
  m_rect : QRect.t;
  m_prefetch : bool
}.

Definition isRunning (task : t) : bool := m_isRunning task.

Definition wasCanceled (task : t) : bool :=
  negb (loadWasCanceled (m_wasCanceled task) =? NotCanceled).

Definition wasCanceledNormally (task : t) : bool :=
  loadWasCanceled (m_wasCanceled task) =? CanceledNormally.

Definition wasCanceledForcibly (task : t) : bool :=
  loadWasCanceled (m_wasCanceled task) =? CanceledForcibly.

Definition set_isRunning (task : t) (b : bool) : t :=
  make b (m_wasCanceled task) (m_page task) (m_renderParam task) (m_rect task)
       (m_prefetch task).

Definition set_wasCanceled (task : t) (a : QAtomicInt.t) : t :=
  make (m_isRunning task) a (m_page task) (m_renderParam task) (m_rect task)
       (m_prefetch task).

(** [finish()]: emits [finished], then clears the running flag. *)
Definition finish (task : t) (emitted : list Signal) : list Signal * t :=
  ((emitted ++ [finished])%list, set_isRunning task false).

(** Whether the crop box is computed: the literal of the condition
    [if(/* TODO: m_trimMargins */true)]. *)
Definition trimMargins_requested : bool := true.

(** [run()], executed by a worker thread.  Other threads may call
    [cancel] meanwhile: [canceledAt k] is the value the atomic
    [m_wasCanceled] holds when the run reaches its checkpoint [k]
    (0, 1, 2 in program order).  The result is the trace of the signals
    emitted, oldest first, and the task as the run leaves it. *)
Definition run (qt : QtVersion) (canceledAt : nat -> QAtomicInt.t) (task : t)
  : list Signal * t :=
  if fst (testCancellation qt (canceledAt 0%nat) (m_prefetch task)) then
    finish task []
  else
    let image :=
      Page.render (m_page task)
        (scaledResolutionX (m_renderParam task)) (scaledResolutionY (m_renderParam task))
        (rotation (m_renderParam task)) (m_rect task) in
    let image :=
      match qt with
      | Qt5_1 =>
          QImage.setDevicePixelRatio image
            (devicePixelRatio (resolution (m_renderParam task)))
      | _ => image
      end in
    if fst (testCancellation qt (canceledAt 1%nat) (m_prefetch task)) then
      finish task []
    else
      let image :=
        if invertColors (m_renderParam task) then QImage.invertPixels image else image in
      let emitted :=
        [imageReady (m_renderParam task) (m_rect task) (m_prefetch task) image] in
      if trimMargins_requested then
        if fst (testCancellation qt (canceledAt 2%nat) (m_prefetch task)) then
          finish task emitted
        else
          let cropBox := trimMargins QColor.white image in
          finish task
            (emitted ++ [cropBoxReady (m_renderParam task) (m_rect task) cropBox])%list
      else
        finish task emitted.

(** [start(...)] as tileitem.cpp calls it, with the page as first
    argument (the definition in rendertask.cpp takes the page in the
    constructor instead).  The hand-over to the global thread pool is
    recorded by the caller's world. *)
Definition start (qt : QtVersion) (task : t) (page : Page.t) (renderParam : RenderParam)
    (rect : QRect.t) (prefetch : bool) : t :=
  make true (resetCancellation qt (m_wasCanceled task)) page renderParam rect prefetch.

Definition cancel (qt : QtVersion) (task : t) (force : bool) : t :=
  set_wasCanceled task (setCancellation qt (m_wasCanceled task) force).
End RenderTask.

(** ** QCache< QPair< PageItem*, QString >, QPixmap > *)

Definition CacheKey : Type := (Z * string)%type.

Definition CacheKey_eqb (a b : CacheKey) : bool :=
  (fst a =? fst b) && String.eqb (snd a) (snd b).

Module QCache.
(** Qt's cost-bounded cache, after qcache.h of Qt 5: the nodes are kept
    in order of recency, the most recently used first; [total] is the
    running sum of their costs. *)
Record node : Type := mkNode { key : CacheKey; object_ : QPixmap.t; cost : Z }.
Record t : Type := make { mx : Z; total : Z; nodes : list node }.

(** [QCache(int maxCost = 100)] *)
Definition empty (maxCost : Z) : t := make maxCost 0 [].

Definition maxCost (c : t) : Z := mx c.
Definition totalCost (c : t) : Z := total c.

Definition has_key (k : CacheKey) (n : node) : bool := CacheKey_eqb (key n) k.

Definition contains (c : t) (k : CacheKey) : bool := existsb (has_key k) (nodes c).

(** [unlink] of the node stored under [k], if there is one. *)
Fixpoint unlink_key (k : CacheKey) (total : Z) (ns : list node) : Z * list node :=
  match ns with
  | [] => (total, [])
  | n :: rest =>
      if has_key k n then (total - cost n, rest)
      else let (t', rest') := unlink_key k total rest in (t', n :: rest')
  end.

Definition remove (c : t) (k : CacheKey) : t :=
  let (t', ns) := unlink_key k (total c) (nodes c) in make (mx c) t' ns.

(** [object(key)]: the stored object, whose node moves to the front. *)
Definition object (c : t) (k : CacheKey) : option QPixmap.t * t :=
  match find (has_key k) (nodes c) with
  | None => (None, c)
  | Some n =>
      (Some (object_ n),
       make (mx c) (total c) (n :: snd (unlink_key k (total c) (nodes c))))
  end.

(** [trim(m)]: [while(n && total > m)] unlink the least recently used
    node; the argument lists the nodes from the last one on. *)
Fixpoint trim_from_last (m : Z) (total : Z) (backwards : list node) : Z * list node :=
  match backwards with
  | [] => (total, [])
  | n :: before =>
      if total >? m then trim_from_last m (total - cost n) before
      else (total, backwards)
  end.

Definition trim (c : t) (m : Z) : t :=
  let (t', backwards) := trim_from_last m (total c) (rev (nodes c)) in
  make (mx c) t' (rev backwards).

Definition setMaxCost (c : t) (m : Z) : t := trim (make m (total c) (nodes c)) m.

(** [insert(key, object, cost)]: the answer and the cache afterwards.
    An object dearer than [mx] is deleted at once. *)
Definition insert (c : t) (k : CacheKey) (o : QPixmap.t) (acost : Z) : bool * t :=
  let c := remove c k in
  if acost >? mx c then (false, c)
  else
    let c := trim c (mx c - acost) in
    (true, make (mx c) (total c + acost) (mkNode k o acost :: nodes c)).

(** The cost actually resident. *)
Definition sum_costs (ns : list node) : Z := fold_right (fun n s => cost n + s) 0 ns.
Definition resident_cost (c : t) : Z := sum_costs (nodes c).
End QCache.

(** ** tileitem.cpp: TileItem *)

(** [int(d)]: truncation towards zero; 0 on values that are not finite. *)
Definition trunc_int (d : qreal) : Z :=
  match d with
  | S754_finite s m e =>
      let n := if s then Z.neg m else Z.pos m in
      if 0 <=? e then n * 2 ^ e else Z.quot n (2 ^ (- e))
  | _ => 0
  end.

(** <qglobal.h>:
    [d >= 0.0 ? int(d + 0.5) : int(d - double(int(d-1)) + 0.5) + int(d-1)] *)
Definition qRound (d : qreal) : Z :=
  if SFleb (qreal_of_int 0) d then trunc_int (qadd d (literal 5 10))
  else
    trunc_int (qadd (qsub d (qreal_of_int (trunc_int (qsub d (qreal_of_int 1)))))
                    (literal 5 10))
    + trunc_int (qsub d (qreal_of_int 1)).

(** [qMin(a, b)]: [(a < b) ? a : b] *)
Definition qMin (a b : qreal) : qreal := if qltb a b then a else b.

Module PageItem.
(** The parent page as the tile sees it: its address (the page identity
    of the cache key), the page object and the parameters in effect. *)
Record t : Type := make {
  address : Z;
  m_page : Page.t;
  m_renderParam : RenderParam
}.
End PageItem.

Module Settings.
(** [Settings::PageItem], as far as the tile reads it. *)
Record t : Type := make {
  cacheSize : Z;
  keepObsoletePixmaps : bool
}.
End Settings.

Inductive Icon : Type := progressIcon | errorIcon.

(** What a call of [paint] asks of the painter.  For an icon the
    rectangle recorded is [iconRect], before [toRect()]. *)
Inductive PaintOp : Type :=
| drawPixmap_at (p : QPointF.t) (pixmap : QPixmap.t)
| drawPixmap_in (target : QRectF.t) (pixmap : QPixmap.t) (source : QRectF.t)
| paintIcon (icon : Icon) (iconRect : QRectF.t).

Module TileItem.
Record t : Type := make {
  parent : PageItem.t;
  m_rect : QRect.t;
  m_pixmapError : bool;
  m_pixmap : QPixmap.t;
  m_obsoletePixmap : QPixmap.t;
  m_renderTask : RenderTask.t
}.

Definition parentPage (tile : t) : PageItem.t := parent tile.

Definition set_pixmapError (tile : t) (b : bool) : t :=
  make (parent tile) (m_rect tile) b (m_pixmap tile) (m_obsoletePixmap tile)
       (m_renderTask tile).
Definition set_pixmap (tile : t) (p : QPixmap.t) : t :=
  make (parent tile) (m_rect tile) (m_pixmapError tile) p (m_obsoletePixmap tile)
       (m_renderTask tile).
Definition set_obsoletePixmap (tile : t) (p : QPixmap.t) : t :=
  make (parent tile) (m_rect tile) (m_pixmapError tile) (m_pixmap tile) p
       (m_renderTask tile).
Definition set_renderTask (tile : t) (task : RenderTask.t) : t :=
  make (parent tile) (m_rect tile) (m_pixmapError tile) (m_pixmap tile)
       (m_obsoletePixmap tile) task.

(** The tile together with the statics of the class and the global
    thread pool: [s_cache] is shared by all tiles, [threadPool] lists the
    runnables handed to [QThreadPool::globalInstance()], oldest first. *)
Record World : Type := mkWorld {
  tile : t;
  s_cache : QCache.t;
  s_settings : Settings.t;
  threadPool : list RenderTask.t
}.

Definition with_tile (w : World) (tl : t) : World :=
  mkWorld tl (s_cache w) (s_settings w) (threadPool w).
Definition with_cache (w : World) (c : QCache.t) : World :=
  mkWorld (tile w) c (s_settings w) (threadPool w).

(** The rectangle is a [QRect]: it is handed to [RenderTask::start] and
    compared with the [QRect] of the completion event.  Its [int]
    coordinates convert to [qreal] where [qRound] expects one. *)
Definition pixmapKey (tl : t) : CacheKey :=
  let pageitem := parentPage tl in
  let keystr :=
    sprintf "%d,%d,%f,%d,%d,%d,%d,%d,%d"
      [ ArgInt (resolutionX (resolution (PageItem.m_renderParam pageitem)));
        ArgInt (resolutionY (resolution (PageItem.m_renderParam pageitem)));
        ArgDouble (scaleFactor (PageItem.m_renderParam pageitem));
        ArgInt (int_of_Rotation (rotation (PageItem.m_renderParam pageitem)));
        ArgInt (int_of_bool (invertColors (PageItem.m_renderParam pageitem)));
        ArgInt (qRound (qreal_of_int (QRect.x (m_rect tl))));
        ArgInt (qRound (qreal_of_int (QRect.y (m_rect tl))));
        ArgInt (qRound (qreal_of_int (QRect.width (m_rect tl))));
        ArgInt (qRound (qreal_of_int (QRect.height (m_rect tl)))) ] in
  (PageItem.address pageitem, keystr).

Section Build.
(** The Qt version the sources are compiled against. *)
Variable qt : QtVersion.

(** The constructor; [fresh] is the default-constructed [RenderParam]
    of the new task. *)
Definition create (parentItem : PageItem.t) (fresh : RenderParam)
    (cache : QCache.t) (settings : Settings.t) (pool : list RenderTask.t) : World :=
  mkWorld
    (make parentItem (QRect.make 0 0 0 0) false QPixmap.Null QPixmap.Null
       (RenderTask.make false NotCanceled (PageItem.m_page parentItem) fresh
          (QRect.make 0 0 0 0) false))
    (QCache.setMaxCost cache (Settings.cacheSize settings))
    settings pool.

Definition refresh (keepObsoletePixmaps : bool) (w : World) : World :=
  let w :=
    if keepObsoletePixmaps && Settings.keepObsoletePixmaps (s_settings w) then
      if QCache.contains (s_cache w) (pixmapKey (tile w)) then
        let (o, c) := QCache.object (s_cache w) (pixmapKey (tile w)) in
        match o with
        | Some p => with_cache (with_tile w (set_obsoletePixmap (tile w) p)) c
        | None => with_cache w c
        end
      else w
    else with_tile w (set_obsoletePixmap (tile w) QPixmap.Null) in
  let tl := set_renderTask (tile w) (RenderTask.cancel qt (m_renderTask (tile w)) true) in
  let tl := set_pixmapError tl false in
  let tl := set_pixmap tl QPixmap.Null in
  with_tile w tl.

Definition startRender (prefetch : bool) (w : World) : Z * World :=
  if m_pixmapError (tile w)
     || RenderTask.isRunning (m_renderTask (tile w))
     || (prefetch && QCache.contains (s_cache w) (pixmapKey (tile w)))
  then (0, w)
  else
    let task :=
      RenderTask.start qt (m_renderTask (tile w))
        (PageItem.m_page (parentPage (tile w)))
        (PageItem.m_renderParam (parentPage (tile w)))
        (m_rect (tile w)) prefetch in
    (1, mkWorld (set_renderTask (tile w) task) (s_cache w) (s_settings w)
          (threadPool w ++ [task])%list).

Definition on_renderTask_imageReady (renderParam : RenderParam) (rect : QRect.t)
    (prefetch : bool) (image : QImage.t) (w : World) : World :=
  if RenderParam_neq (PageItem.m_renderParam (parentPage (tile w))) renderParam
     || QRect.neq (m_rect (tile w)) rect
  then w
  else
    let w := with_tile w (set_obsoletePixmap (tile w) QPixmap.Null) in
    if QImage.isNull image then
      with_tile w (set_pixmapError (tile w) true)
    else if prefetch && negb (RenderTask.wasCanceledForcibly (m_renderTask (tile w))) then
      let cost :=
        int_div (int_mul (int_mul (QImage.width image) (QImage.height image))
                         (QImage.depth image)) 8 in
      with_cache w
        (snd (QCache.insert (s_cache w) (pixmapKey (tile w))
                (QPixmap.fromImage image) cost))
    else if negb (RenderTask.wasCanceled (m_renderTask (tile w))) then
      with_tile w (set_pixmap (tile w) (QPixmap.fromImage image))
    else w.

(** Returns the pixmap to paint (null if there is none yet) and the
    world it leaves. *)
Definition takePixmap (w : World) : QPixmap.t * World :=
  if QCache.contains (s_cache w) (pixmapKey (tile w)) then
    let (o, c) := QCache.object (s_cache w) (pixmapKey (tile w)) in
    (match o with Some p => p | None => QPixmap.Null end, with_cache w c)
  else if negb (QPixmap.isNull (m_pixmap (tile w))) then
    let pixmap := m_pixmap (tile w) in
    let w := with_tile w (set_pixmap (tile w) QPixmap.Null) in
    let cost :=
      int_div (int_mul (int_mul (QPixmap.width pixmap) (QPixmap.height pixmap))
                       (QPixmap.depth pixmap)) 8 in
    (pixmap,
     with_cache w (snd (QCache.insert (s_cache w) (pixmapKey (tile w)) pixmap cost)))
  else
    (* [startRender()]: the default argument, an on-demand render *)
    (QPixmap.Null, snd (startRender false w)).

Definition paint (topLeft : QPointF.t) (w : World) : list PaintOp * World :=
  let (pixmap, w) := takePixmap w in
  let m_rect := m_rect (tile w) in
  if negb (QPixmap.isNull pixmap) then
    ([drawPixmap_at
        (QPointF.make (qadd (qreal_of_int (QRect.x m_rect)) (QPointF.x topLeft))
                      (qadd (qreal_of_int (QRect.y m_rect)) (QPointF.y topLeft)))
        pixmap], w)
  else if negb (QPixmap.isNull (m_obsoletePixmap (tile w))) then
    ([drawPixmap_in (QRectF.translated (QRectF.ofRect m_rect) topLeft)
        (m_obsoletePixmap (tile w)) QRectF.null], w)
  else
    let iconExtent :=
      qMin (qmul (literal 1 10) (qreal_of_int (QRect.width m_rect)))
           (qmul (literal 1 10) (qreal_of_int (QRect.height m_rect))) in
    let iconRect :=
      QRectF.make
        (qadd (qadd (QPointF.x topLeft) (qreal_of_int (QRect.left m_rect)))
              (qmul (literal 1 100) (qreal_of_int (QRect.width m_rect))))
        (qadd (qadd (QPointF.y topLeft) (qreal_of_int (QRect.top m_rect)))
              (qmul (literal 1 100) (qreal_of_int (QRect.height m_rect))))
        iconExtent iconExtent in
    if negb (m_pixmapError (tile w)) then ([paintIcon progressIcon iconRect], w)
    else ([paintIcon errorIcon iconRect], w).

(** [cancelRender()].  [m_renderTask->cancel()] takes the default
    argument of [RenderTask::cancel], which is declared in a header that
    is not among the sources: [cancelDefault] stands for it. *)
Definition cancelRender (cancelDefault : bool) (w : World) : World :=
  let tl :=
    set_renderTask (tile w) (RenderTask.cancel qt (m_renderTask (tile w)) cancelDefault) in
  let tl := set_pixmap tl QPixmap.Null in
  let tl := set_obsoletePixmap tl QPixmap.Null in
  with_tile w tl.

(** What one call of [deleteAfterRender()] leaves: the tile is gone
    ([delete this]; the statics remain), or the slot is armed again with
    [QTimer::singleShot(0, ...)]. *)
Inductive Teardown : Type :=
| Deleted (cache : QCache.t) (pool : list RenderTask.t)
| Rearmed (w : World).

Definition deleteAfterRender (cancelDefault : bool) (w : World) : Teardown :=
  let w := cancelRender cancelDefault w in
  if negb (RenderTask.isRunning (m_renderTask (tile w))) then
    Deleted (s_cache w) (threadPool w)
  else
    Rearmed w.
End Build.
End TileItem.

(** ** Notions used in the statements *)

(** The image a run delivers: rendered, tagged with the device pixel
    ratio from Qt 5.1 on, inverted on request. *)
Definition delivered_image (qt : QtVersion) (task : RenderTask.t) : QImage.t :=
  let image :=
    Page.render (RenderTask.m_page task)
      (scaledResolutionX (RenderTask.m_renderParam task))
      (scaledResolutionY (RenderTask.m_renderParam task))
      (rotation (RenderTask.m_renderParam task)) (RenderTask.m_rect task) in
  let image :=
    match qt with
    | Qt5_1 =>
        QImage.setDevicePixelRatio image
          (devicePixelRatio (resolution (RenderTask.m_renderParam task)))
    | _ => image
    end in
  if invertColors (RenderTask.m_renderParam task) then QImage.invertPixels image else image.

(** The two result signals of a run that is not canceled. *)
Definition imageReady_of (qt : QtVersion) (task : RenderTask.t) : Signal :=
  imageReady (RenderTask.m_renderParam task) (RenderTask.m_rect task)
    (RenderTask.m_prefetch task) (delivered_image qt task).

Definition cropBoxReady_of (qt : QtVersion) (task : RenderTask.t) : Signal :=
  cropBoxReady (RenderTask.m_renderParam task) (RenderTask.m_rect task)
    (trimMargins QColor.white (delivered_image qt task)).

(** Whether checkpoint [k] of a run finds the task canceled. *)
Definition canceled_at_checkpoint (qt : QtVersion) (canceledAt : nat -> QAtomicInt.t)
    (task : RenderTask.t) (k : nat) : bool :=
  fst (testCancellation qt (canceledAt k) (RenderTask.m_prefetch task)).

(** Whether the pixel at [(x, y)] passes for paper: the negation of the
    test [paperColor != image.pixel(x, y)]. *)
Definition paper_at (paperColor : QColor.t) (image : QImage.t) (x y : Z) : bool :=
  negb (QColor.neq paperColor (QColor.fromRgb (QImage.pixel image x y))).

(** [floor (n / d)] and [ceil (n / d)] of exact fractions, [d > 0]. *)
Definition floor_frac (n d : Z) : Z := n / d.
Definition ceil_frac (n d : Z) : Z := - ((- n) / d).

(** Dimensions whose products fit an [int], so that the cost expression
    [width * height * depth / 8] does not overflow. *)
Definition fits_int (wd ht dp : Z) : Prop :=
  0 <= wd /\ 0 <= ht /\ 0 <= dp /\ wd * ht < 2 ^ 31 /\ wd * ht * dp < 2 ^ 31.

(** The state of a cache that the operations maintain: the running total
    is the sum of the resident costs, and no cost is negative. *)
Definition cache_consistent (c : QCache.t) : Prop :=
  QCache.total c = QCache.resident_cost c
  /\ Forall (fun n => 0 <= QCache.cost n) (QCache.nodes c).

(** Whether a completion event is stale: the test that opens
    [on_renderTask_imageReady]. *)
Definition event_is_stale (w : TileItem.World) (renderParam : RenderParam) (rect : QRect.t)
  : bool :=
  RenderParam_neq (PageItem.m_renderParam (TileItem.parentPage (TileItem.tile w))) renderParam
  || QRect.neq (TileItem.m_rect (TileItem.tile w)) rect.

(** The cost the tile computes for an image. *)
Definition image_cost (image : QImage.t) : Z :=
  int_div (int_mul (int_mul (QImage.width image) (QImage.height image))
                   (QImage.depth image)) 8.

(** The task [startRender] launches for the tile of [w]. *)
Definition launched_task (w : TileItem.World) (prefetch : bool) : RenderTask.t :=
  RenderTask.make true NotCanceled
    (PageItem.m_page (TileItem.parentPage (TileItem.tile w)))
    (PageItem.m_renderParam (TileItem.parentPage (TileItem.tile w)))
    (TileItem.m_rect (TileItem.tile w)) prefetch.

(** Whether [startRender] declines to start a render. *)
Definition render_declined (w : TileItem.World) (prefetch : bool) : bool :=
  TileItem.m_pixmapError (TileItem.tile w)
  || RenderTask.isRunning (TileItem.m_renderTask (TileItem.tile w))
  || (prefetch && QCache.contains (TileItem.s_cache w) (TileItem.pixmapKey (TileItem.tile w))).

(** What [paint] draws when [takePixmap] returns no pixmap. *)
Definition is_progressIcon (op : PaintOp) : bool :=
  match op with paintIcon progressIcon _ => true | _ => false end.

Definition is_obsolete_drawing (w : TileItem.World) (op : PaintOp) : Prop :=
  exists target source,
    op = drawPixmap_in target (TileItem.m_obsoletePixmap (TileItem.tile w)) source.

(** A consistent cache whose total is within its maximum. *)
Definition cache_bounded (c : QCache.t) : Prop :=
  cache_consistent c /\ 0 <= QCache.mx c /\ QCache.total c <= QCache.mx c.

(** One use of the shared cache by some tile: the tile, the settings and
    the pool it comes with are those of [w], the cache is the shared one. *)
Inductive CacheUse : Type :=
| UseCreate (parentItem : PageItem.t) (fresh : RenderParam) (settings : Settings.t)
| UseRefresh (w : TileItem.World) (keepObsoletePixmaps : bool)
| UseStartRender (w : TileItem.World) (prefetch : bool)
| UseImageReady (w : TileItem.World) (renderParam : RenderParam) (rect : QRect.t)
    (prefetch : bool) (image : QImage.t)
| UsePaint (w : TileItem.World) (topLeft : QPointF.t).

Definition use_cache (qt : QtVersion) (c : QCache.t) (u : CacheUse) : QCache.t :=
  match u with
  | UseCreate parentItem fresh settings =>
      TileItem.s_cache (TileItem.create parentItem fresh c settings [])
  | UseRefresh w keep =>
      TileItem.s_cache (TileItem.refresh qt keep (TileItem.with_cache w c))
  | UseStartRender w prefetch =>
      TileItem.s_cache (snd (TileItem.startRender qt prefetch (TileItem.with_cache w c)))
  | UseImageReady w renderParam rect prefetch image =>
      TileItem.s_cache
        (TileItem.on_renderTask_imageReady renderParam rect prefetch image
           (TileItem.with_cache w c))
  | UsePaint w topLeft =>
      TileItem.s_cache (snd (TileItem.paint qt topLeft (TileItem.with_cache w c)))
  end.

(** The buffers a use brings along fit an [int]; a configured cache size
    is not negative. *)
Definition well_sized (u : CacheUse) : Prop :=
  match u with
  | UseCreate _ _ settings => 0 <= Settings.cacheSize settings
  | UseImageReady _ _ _ _ image =>
      fits_int (QImage.width image) (QImage.height image) (QImage.depth image)
  | UsePaint w _ =>
      let p := TileItem.m_pixmap (TileItem.tile w) in
      fits_int (QPixmap.width p) (QPixmap.height p) (QPixmap.depth p)
  | _ => True
  end.

(** ** Further notions *)

(** The four bounds that [trimMargins] scans for, in the order of the
    source: [left], [right], [top], [bottom]. *)
Definition scannedLeft (paperColor : QColor.t) (image : QImage.t) : Z :=
  scan_up (Z.to_nat (QImage.width image)) 0 (QImage.width image)
    (fun x => columnHasPaperColor x paperColor image).

Definition scannedRight (paperColor : QColor.t) (image : QImage.t) : Z :=
  scan_down (Z.to_nat (QImage.width image - scannedLeft paperColor image))
    (QImage.width image - 1) (scannedLeft paperColor image)
    (fun x => columnHasPaperColor x paperColor image).

Definition scannedTop (paperColor : QColor.t) (image : QImage.t) : Z :=
  scan_up (Z.to_nat (QImage.height image)) 0 (QImage.height image)
    (fun y => rowHasPaperColor y paperColor image).

Definition scannedBottom (paperColor : QColor.t) (image : QImage.t) : Z :=
  scan_down (Z.to_nat (QImage.height image - scannedTop paperColor image))
    (QImage.height image - 1) (scannedTop paperColor image)
    (fun y => rowHasPaperColor y paperColor image).

(** The crop box of an image that has no margin to trim, and the crop box
    of an absent image. *)
Definition untrimmed_cropBox : QRectF.t :=
  QRectF.make (qreal_of_int 0) (qreal_of_int 0) (literal 105 100) (literal 105 100).

Definition unit_cropBox : QRectF.t :=
  QRectF.make (qreal_of_int 0) (qreal_of_int 0) (qreal_of_int 1) (qreal_of_int 1).

(** No object of the cache is a null pixmap. *)
Definition no_null_object (c : QCache.t) : Prop :=
  Forall (fun n => QPixmap.isNull (QCache.object_ n) = false) (QCache.nodes c).

(** The cost the tile computes for a pixmap. *)
Definition pixmap_cost (p : QPixmap.t) : Z :=
  int_div (int_mul (int_mul (QPixmap.width p) (QPixmap.height p)) (QPixmap.depth p)) 8.

(** Where [paint] puts a pixmap: [m_rect.topLeft() + topLeft]. *)
Definition paint_position (w : TileItem.World) (topLeft : QPointF.t) : QPointF.t :=
  QPointF.make
    (qadd (qreal_of_int (QRect.x (TileItem.m_rect (TileItem.tile w)))) (QPointF.x topLeft))
    (qadd (qreal_of_int (QRect.y (TileItem.m_rect (TileItem.tile w)))) (QPointF.y topLeft)).

(** The worker thread, seen from the event loop: by the time of a turn
    the run may have finished and cleared the running flag. *)
Definition worker_progress (idleNow : bool) (w : TileItem.World) : TileItem.World :=
  if idleNow then
    TileItem.with_tile w
      (TileItem.set_renderTask (TileItem.tile w)
         (RenderTask.set_isRunning (TileItem.m_renderTask (TileItem.tile w)) false))
  else w.

(** [deleteAfterRender()] over the turns of the event loop: each turn
    runs the slot once, which either deletes the tile or arms the timer
    for the next turn.  [turns] tells for each turn whether the worker has
    finished by then. *)
Fixpoint teardown (qt : QtVersion) (cancelDefault : bool) (turns : list bool)
    (w : TileItem.World) : TileItem.Teardown :=
  match turns with
  | [] => TileItem.Rearmed w
  | idleNow :: later =>
      match TileItem.deleteAfterRender qt cancelDefault (worker_progress idleNow w) with
      | TileItem.Deleted c p => TileItem.Deleted c p
      | TileItem.Rearmed w' => teardown qt cancelDefault later w'
      end
  end.

(** The bytes of pixel data behind a pixmap, [width * height * depth / 8]
    in exact arithmetic, and the bytes resident in a cache. *)
Definition pixmap_bytes (p : QPixmap.t) : Z :=
  QPixmap.width p * QPixmap.height p * QPixmap.depth p / 8.

Definition resident_bytes (c : QCache.t) : Z :=
  fold_right (fun n s => pixmap_bytes (QCache.object_ n) + s) 0 (QCache.nodes c).


(** ** Sample data *)

Module Samples.
Definition blankPage : Page.t := Page.make 1 (fun _ _ _ _ => QImage.Null).

Definition param (ratio scale : qreal) : RenderParam :=
  {| resolution := {| resolutionX := 72; resolutionY := 72; devicePixelRatio := ratio |};
     scaleFactor := scale; rotation := RotateBy0; invertColors := false |}.

Definition idleTask (p : RenderParam) : RenderTask.t :=
  RenderTask.make false NotCanceled blankPage p (QRect.make 0 0 256 256) false.

(** A tile of page item 4096 covering (0, 0, 256, 256). *)
Definition tileWith (p : RenderParam) : TileItem.t :=
  TileItem.make (PageItem.make 4096 blankPage p) (QRect.make 0 0 256 256)
    false QPixmap.Null QPixmap.Null (idleTask p).

(** The same tile on a screen of ratio 1 and on one of ratio 2. *)
Definition tileRatio1 : TileItem.t := tileWith (param (qreal_of_int 1) (qreal_of_int 1)).
Definition tileRatio2 : TileItem.t := tileWith (param (qreal_of_int 2) (qreal_of_int 1)).

(** The same tile at scale 1 and at scale 1.0000001. *)
Definition tileScaleNear1 : TileItem.t :=
  tileWith (param (qreal_of_int 1) (literal 10000001 10000000)).

(** 100 x 100 pixels: a white frame 10 pixels wide around a black
    square. *)
Definition framed : QImage.t :=
  QImage.Data 100 100 32 (qreal_of_int 1)
    (fun x y =>
       if (x <? 10) || (90 <=? x) || (y <? 10) || (90 <=? y) then 4294967295
       else 4278190080).

(** 100 x 100 pixels, white but for one black pixel in the middle. *)
Definition dotted : QImage.t :=
  QImage.Data 100 100 32 (qreal_of_int 1)
    (fun x y => if (x =? 50) && (y =? 50) then 4278190080 else 4294967295).

(** 64 x 48 pixels, all of one grey. *)
Definition grey : QImage.t :=
  QImage.Data 64 48 32 (qreal_of_int 1) (fun _ _ => 4286611584).

(** A prefetch of the sample tile, and the same task on demand. *)
Definition prefetchTask : RenderTask.t :=
  RenderTask.make true NotCanceled blankPage (param (qreal_of_int 1) (qreal_of_int 1))
    (QRect.make 0 0 256 256) true.

Definition demandTask : RenderTask.t :=
  RenderTask.make true NotCanceled blankPage (param (qreal_of_int 1) (qreal_of_int 1))
    (QRect.make 0 0 256 256) false.

(** The world of a tile of the sample page at scale 1 whose rectangle
    starts at column [left]; the shared cache is supplied by the user. *)
Definition settings : Settings.t := Settings.make 10485760 true.

Definition worldAt (left : Z) : TileItem.World :=
  let p := param (qreal_of_int 1) (qreal_of_int 1) in
  TileItem.mkWorld
    (TileItem.make (PageItem.make 4096 blankPage p) (QRect.make left 0 1024 1024)
       false QPixmap.Null QPixmap.Null
       (RenderTask.make false NotCanceled blankPage p (QRect.make left 0 1024 1024) true))
    (QCache.empty 10485760) settings [].

(** A rendered tile of 1024 x 1024 pixels of 32 bits: 4 MB. *)
Definition rendered : QImage.t :=
  QImage.Data 1024 1024 32 (qreal_of_int 1) (fun _ _ => 4294967295).

Definition prefetched (left : Z) : CacheUse :=
  UseImageReady (worldAt left) (param (qreal_of_int 1) (qreal_of_int 1))
    (QRect.make left 0 1024 1024) true rendered.

(** Three prefetched tiles in a row arrive at a cache of 10 MB. *)
Definition threeTiles : list CacheUse :=
  [prefetched 0; prefetched 1024; prefetched 2048].

(** A tile that kept an obsolete pixmap, is idle and has neither a
    cache entry nor a pixmap of its own. *)
Definition staleWorld : TileItem.World :=
  let p := param (qreal_of_int 1) (qreal_of_int 2) in
  TileItem.mkWorld
    (TileItem.make (PageItem.make 4096 blankPage p) (QRect.make 0 0 1024 1024)
       false QPixmap.Null (QPixmap.fromImage rendered)
       (RenderTask.make false CanceledForcibly blankPage
          (param (qreal_of_int 1) (qreal_of_int 1)) (QRect.make 0 0 1024 1024) false))
    (QCache.empty 10485760) settings [].

Definition origin : QPointF.t := QPointF.make (qreal_of_int 0) (qreal_of_int 0).

(** A page that renders to the white sample image, and a task that
    renders it with inverted colours. *)
Definition whitePage : Page.t := Page.make 2 (fun _ _ _ _ => rendered).

Definition invertedParam : RenderParam :=
  {| resolution := {| resolutionX := 72; resolutionY := 72;
                      devicePixelRatio := qreal_of_int 1 |};
     scaleFactor := qreal_of_int 1; rotation := RotateBy0; invertColors := true |}.

Definition invertedTask : RenderTask.t :=
  RenderTask.make true NotCanceled whitePage invertedParam (QRect.make 0 0 1024 1024) false.

(** A tile that holds the rendered sample as its own pixmap, with a cache
    of the given maximum cost that does not know the tile. *)
Definition heldWorld (maxCost : Z) : TileItem.World :=
  let p := param (qreal_of_int 1) (qreal_of_int 1) in
  TileItem.mkWorld
    (TileItem.make (PageItem.make 4096 blankPage p) (QRect.make 0 0 1024 1024)
       false (QPixmap.fromImage rendered) QPixmap.Null
       (RenderTask.make false NotCanceled blankPage p (QRect.make 0 0 1024 1024) false))
    (QCache.empty maxCost) settings [].

(** The sample tile while its task is running. *)
Definition busyWorld : TileItem.World :=
  let p := param (qreal_of_int 1) (qreal_of_int 1) in
  TileItem.mkWorld
    (TileItem.make (PageItem.make 4096 blankPage p) (QRect.make 0 0 1024 1024)
       false QPixmap.Null QPixmap.Null
       (RenderTask.make true NotCanceled blankPage p (QRect.make 0 0 1024 1024) false))
    (QCache.empty 10485760) settings [].

(** The sample tile once its prefetched image has arrived. *)
Definition cachedWorld : TileItem.World :=
  TileItem.on_renderTask_imageReady (param (qreal_of_int 1) (qreal_of_int 1))
    (QRect.make 0 0 1024 1024) true rendered (worldAt 0).

(** A tile of 8192 x 8192 pixels of 32 bits, 256 MiB of pixel data, as a
    page rendered in one piece at a high zoom gives; and a shared cache
    of 32 MiB. *)
Definition hugeImage : QImage.t :=
  QImage.Data 8192 8192 32 (qreal_of_int 1) (fun _ _ => 4294967295).

Definition hugeCache : QCache.t := QCache.empty 33554432.

Definition hugeTile (held : QPixmap.t) (prefetch : bool) : TileItem.World :=
  let p := param (qreal_of_int 1) (qreal_of_int 1) in
  TileItem.mkWorld
    (TileItem.make (PageItem.make 4096 blankPage p) (QRect.make 0 0 8192 8192)
       false held QPixmap.Null
       (RenderTask.make false NotCanceled blankPage p (QRect.make 0 0 8192 8192) prefetch))
    hugeCache settings [].

(** The prefetch of the huge tile completes. *)
Definition hugePrefetched : CacheUse :=
  UseImageReady (hugeTile QPixmap.Null true) (param (qreal_of_int 1) (qreal_of_int 1))
    (QRect.make 0 0 8192 8192) true hugeImage.

(** The huge tile, rendered on demand, is painted. *)
Definition hugePainted : CacheUse :=
  UsePaint (hugeTile (QPixmap.fromImage hugeImage) false) origin.
End Samples.

(* ================================================================== *)
(** * Part II: properties *)
(* ================================================================== *)

(** ** The model at sample values *)

Lemma literal_samples :
  cropBoxTolerance = S754_finite false 7205759403792794 (-57)
  /\ cropBoxPrecision = S754_finite false 7036874417766400 (-46)
  /\ literal 5 10 = S754_finite false 4503599627370496 (-53).
Proof. repeat split. Qed.

Lemma qRound_samples :
  qRound (qreal_of_int 0) = 0 /\ qRound (qreal_of_int 256) = 256
  /\ qRound (qreal_of_int (-7)) = -7 /\ qRound (qreal_of_int 2147483647) = 2147483647
  /\ qRound (literal 25 10) = 3 /\ qRound (literal (-25) 10) = -2.
Proof. vm_compute. repeat split. Qed.

Lemma format_samples :
  format_d 0 = "0" /\ format_d (-15) = "-15"
  /\ format_f (qreal_of_int 1) = "1.000000" /\ format_f (literal 125 100) = "1.250000"
  /\ format_f (literal (-1) 3) = "-0.333333" /\ format_f (literal 1 128) = "0.007812".
Proof. vm_compute. repeat split. Qed.

Lemma pixmapKey_sample :
  TileItem.pixmapKey Samples.tileRatio1 = (4096, "72,72,1.000000,0,0,0,0,256,256").
Proof. vm_compute. reflexivity. Qed.

(** ** Texts without a comma *)

Lemma no_comma_app (a b : string) :
  no_comma (a ++ b) = no_comma a && no_comma b.
Proof.
  induction a as [|c a IH]; simpl.
  - reflexivity.
  - rewrite IH. now rewrite andb_assoc.
Qed.

Lemma string_of_uint_no_comma (d : Decimal.uint) :
  no_comma (NilEmpty.string_of_uint d) = true.
Proof. induction d; simpl; auto. Qed.

Lemma format_d_no_comma (n : Z) : no_comma (format_d n) = true.
Proof.
  unfold format_d. destruct (Z.to_int n); simpl; apply string_of_uint_no_comma.
Qed.

Lemma zeros_no_comma (n : nat) : no_comma (zeros n) = true.
Proof. induction n; simpl; auto. Qed.

Lemma format_f_no_comma (x : qreal) : no_comma (format_f x) = true.
Proof.
  destruct x as [s|s| |s m e]; cbn [format_f].
  - now destruct s.
  - now destruct s.
  - reflexivity.
  - unfold pad6. rewrite !no_comma_app.
    rewrite !format_d_no_comma, zeros_no_comma. now destruct s.
Qed.

(** Two texts cut at their first comma agree piece by piece. *)
Lemma comma_split (a a' b b' : string) :
  no_comma a = true -> no_comma a' = true ->
  a ++ String "," b = a' ++ String "," b' -> a = a' /\ b = b'.
Proof.
  revert a'. induction a as [|c a IH]; intros [|c' a'] Ha Ha' E; simpl in *.
  - now injection E.
  - injection E as <- _. now rewrite Ascii.eqb_refl in Ha'.
  - injection E as -> _. now rewrite Ascii.eqb_refl in Ha.
  - injection E as -> E.
    apply andb_prop in Ha as [_ Ha]. apply andb_prop in Ha' as [_ Ha'].
    destruct (IH a' Ha Ha' E) as [-> ->]. now split.
Qed.

Lemma format_d_inj (n n' : Z) : format_d n = format_d n' -> n = n'.
Proof.
  unfold format_d. intros E. apply DecimalZ.to_int_inj.
  assert (H : Some (Z.to_int n) = Some (Z.to_int n'))
    by (rewrite <- !NilEmpty.isi; now rewrite E).
  now injection H.
Qed.

(** ** The cache key *)

(** The key text is the comma-separated list of its nine fields. *)
Lemma keystr_fields (a b : Z) (c : qreal) (d e f g h i : Z) :
  sprintf "%d,%d,%f,%d,%d,%d,%d,%d,%d"
    [ArgInt a; ArgInt b; ArgDouble c; ArgInt d; ArgInt e; ArgInt f; ArgInt g; ArgInt h;
     ArgInt i]
  = format_d a ++ String "," (format_d b ++ String "," (format_f c ++ String ","
      (format_d d ++ String "," (format_d e ++ String "," (format_d f ++ String ","
        (format_d g ++ String "," (format_d h ++ String "," (format_d i ++ "")))))))).
Proof. reflexivity. Qed.

Lemma append_empty_r (s : string) : s ++ "" = s.
Proof. induction s; simpl; congruence. Qed.

Lemma int_of_Rotation_inj (a b : Rotation) : int_of_Rotation a = int_of_Rotation b -> a = b.
Proof. destruct a, b; simpl; congruence. Qed.

Lemma int_of_bool_inj (a b : bool) : int_of_bool a = int_of_bool b -> a = b.
Proof. destruct a, b; simpl; congruence. Qed.

Ltac split_field H :=
  apply comma_split in H;
  [ destruct H as [? H]
  | first [apply format_d_no_comma | apply format_f_no_comma]
  | first [apply format_d_no_comma | apply format_f_no_comma] ].

(** C1, as the code has it: two tiles have the same cache key exactly when
    they belong to the same page item and agree on the horizontal and the
    vertical resolution, on the six-decimal text of the scale factor, on
    the rotation, on the invert-colors flag and on the four rounded
    coordinates of the rectangle.  The device pixel ratio takes no part. *)
Theorem pixmapKey_eq_iff (a b : TileItem.t) :
  let pa := PageItem.m_renderParam (TileItem.parentPage a) in
  let pb := PageItem.m_renderParam (TileItem.parentPage b) in
  let ra := TileItem.m_rect a in
  let rb := TileItem.m_rect b in
  TileItem.pixmapKey a = TileItem.pixmapKey b <->
  PageItem.address (TileItem.parentPage a) = PageItem.address (TileItem.parentPage b)
  /\ resolutionX (resolution pa) = resolutionX (resolution pb)
  /\ resolutionY (resolution pa) = resolutionY (resolution pb)
  /\ format_f (scaleFactor pa) = format_f (scaleFactor pb)
  /\ rotation pa = rotation pb
  /\ invertColors pa = invertColors pb
  /\ qRound (qreal_of_int (QRect.x ra)) = qRound (qreal_of_int (QRect.x rb))
  /\ qRound (qreal_of_int (QRect.y ra)) = qRound (qreal_of_int (QRect.y rb))
  /\ qRound (qreal_of_int (QRect.width ra)) = qRound (qreal_of_int (QRect.width rb))
  /\ qRound (qreal_of_int (QRect.height ra)) = qRound (qreal_of_int (QRect.height rb)).
Proof.
  intros pa pb ra rb. unfold TileItem.pixmapKey. fold pa pb ra rb.
  rewrite !keystr_fields. split.
  - intros E. injection E as Eaddr E.
    split_field E. split_field E. split_field E. split_field E.
    split_field E. split_field E. split_field E. split_field E.
    rewrite !append_empty_r in E.
    repeat match goal with
           | H : format_d _ = format_d _ |- _ => apply format_d_inj in H
           end.
    repeat split; auto using int_of_Rotation_inj, int_of_bool_inj.
  - intros (E0 & E1 & E2 & E3 & E4 & E5 & E6 & E7 & E8 & E9).
    now rewrite E0, E1, E2, E3, E4, E5, E6, E7, E8, E9.
Qed.

(** The ratio of the screen does not reach the key: the sample tile has
    one key on both screens although its parameters differ. *)
Lemma pixmapKey_same_on_both_screens :
  TileItem.pixmapKey Samples.tileRatio1 = TileItem.pixmapKey Samples.tileRatio2
  /\ RenderParam_eqb (PageItem.m_renderParam (TileItem.parentPage Samples.tileRatio1))
                     (PageItem.m_renderParam (TileItem.parentPage Samples.tileRatio2))
     = false.
Proof. split; vm_compute; reflexivity. Qed.

(** Scale factors that agree to six decimals share a key as well. *)
Lemma pixmapKey_same_for_near_scales :
  TileItem.pixmapKey Samples.tileRatio1 = TileItem.pixmapKey Samples.tileScaleNear1
  /\ qeqb (scaleFactor (PageItem.m_renderParam (TileItem.parentPage Samples.tileRatio1)))
          (scaleFactor (PageItem.m_renderParam (TileItem.parentPage Samples.tileScaleNear1)))
     = false.
Proof. split; vm_compute; reflexivity. Qed.

(** C1 as stated does not hold: equality of the keys is not equivalent to
    equality of the page, of all render parameters and of the rounded
    rectangle, because tiles that differ in the device pixel ratio alone
    have equal keys. *)
Lemma pixmapKey_not_all_fields :
  ~ (forall a b : TileItem.t,
        TileItem.pixmapKey a = TileItem.pixmapKey b <->
        PageItem.address (TileItem.parentPage a) = PageItem.address (TileItem.parentPage b)
        /\ RenderParam_eqb (PageItem.m_renderParam (TileItem.parentPage a))
                           (PageItem.m_renderParam (TileItem.parentPage b)) = true
        /\ qRound (qreal_of_int (QRect.x (TileItem.m_rect a)))
           = qRound (qreal_of_int (QRect.x (TileItem.m_rect b)))
        /\ qRound (qreal_of_int (QRect.y (TileItem.m_rect a)))
           = qRound (qreal_of_int (QRect.y (TileItem.m_rect b)))
        /\ qRound (qreal_of_int (QRect.width (TileItem.m_rect a)))
           = qRound (qreal_of_int (QRect.width (TileItem.m_rect b)))
        /\ qRound (qreal_of_int (QRect.height (TileItem.m_rect a)))
           = qRound (qreal_of_int (QRect.height (TileItem.m_rect b)))).
Proof.
  intros claim.
  destruct (claim Samples.tileRatio1 Samples.tileRatio2) as [to_fields _].
  destruct (to_fields (proj1 pixmapKey_same_on_both_screens)) as (_ & same & _).
  rewrite (proj2 pixmapKey_same_on_both_screens) in same. discriminate.
Qed.

(** ** Cancellation checkpoints *)

(** Both variants of [testCancellation] give one answer and leave the
    atomic as it was. *)
Lemma testCancellation_answer (qt : QtVersion) (flag : Z) (prefetch : bool) :
  testCancellation qt flag prefetch
  = (if prefetch then flag =? CanceledForcibly else negb (flag =? NotCanceled), flag).
Proof.
  destruct qt, prefetch; unfold testCancellation, QAtomicInt.testAndSetRelaxed,
    QAtomicInt.load; try reflexivity.
  - destruct (Z.eqb_spec flag CanceledForcibly) as [->|]; reflexivity.
  - destruct (Z.eqb_spec flag NotCanceled) as [->|]; reflexivity.
Qed.

Lemma checkpoint_iff (qt : QtVersion) (flag : Z) (prefetch : bool) :
  fst (testCancellation qt flag prefetch) = true <->
  (prefetch = false /\ flag <> NotCanceled) \/ (prefetch = true /\ flag = CanceledForcibly).
Proof.
  rewrite testCancellation_answer. cbn [fst]. destruct prefetch.
  - rewrite Z.eqb_eq. intuition congruence.
  - rewrite negb_true_iff, Z.eqb_neq. intuition congruence.
Qed.

Lemma checkpoint_passes_iff (qt : QtVersion) (flag : Z) (prefetch : bool) :
  fst (testCancellation qt flag prefetch) = false <->
  (prefetch = false /\ flag = NotCanceled) \/ (prefetch = true /\ flag <> CanceledForcibly).
Proof.
  rewrite testCancellation_answer. cbn [fst]. destruct prefetch.
  - rewrite Z.eqb_neq. intuition congruence.
  - rewrite negb_false_iff, Z.eqb_eq. intuition congruence.
Qed.

(** ** The run of a task *)

(** The four traces a run can leave. *)
Lemma run_trace (qt : QtVersion) (canceledAt : nat -> QAtomicInt.t) (task : RenderTask.t) :
  fst (RenderTask.run qt canceledAt task) =
  if canceled_at_checkpoint qt canceledAt task 0 then [finished]
  else if canceled_at_checkpoint qt canceledAt task 1 then [finished]
  else if canceled_at_checkpoint qt canceledAt task 2 then [imageReady_of qt task; finished]
  else [imageReady_of qt task; cropBoxReady_of qt task; finished].
Proof.
  unfold RenderTask.run, canceled_at_checkpoint, RenderTask.trimMargins_requested.
  destruct (fst (testCancellation qt (canceledAt 0%nat) _)); [reflexivity|].
  destruct (fst (testCancellation qt (canceledAt 1%nat) _)); [reflexivity|].
  destruct (fst (testCancellation qt (canceledAt 2%nat) _)); reflexivity.
Qed.

(** A run always leaves the task idle. *)
Lemma run_clears_running (qt : QtVersion) (canceledAt : nat -> QAtomicInt.t)
    (task : RenderTask.t) :
  RenderTask.isRunning (snd (RenderTask.run qt canceledAt task)) = false.
Proof.
  unfold RenderTask.run, RenderTask.trimMargins_requested.
  repeat match goal with
         | |- context [if ?c then _ else _] => destruct c
         end; reflexivity.
Qed.

(** C2: a checkpoint of [run] reports the task canceled exactly when the
    task is no prefetch and the flag is anything but [NotCanceled], or the
    task is a prefetch and the flag is [CanceledForcibly].  Hence a
    prefetch run whose checkpoints see no forced cancellation delivers both
    results, and an on-demand run stops at the first checkpoint that sees
    any cancellation: nothing but [finished] is emitted after it. *)
Theorem checkpoints_of_run (qt : QtVersion) (canceledAt : nat -> QAtomicInt.t)
    (task : RenderTask.t) :
  (forall k : nat,
      canceled_at_checkpoint qt canceledAt task k = true <->
      (RenderTask.m_prefetch task = false /\ canceledAt k <> NotCanceled)
      \/ (RenderTask.m_prefetch task = true /\ canceledAt k = CanceledForcibly))
  /\ (RenderTask.m_prefetch task = true ->
      (forall k : nat, canceledAt k = NotCanceled \/ canceledAt k = CanceledNormally) ->
      fst (RenderTask.run qt canceledAt task)
      = [imageReady_of qt task; cropBoxReady_of qt task; finished])
  /\ (RenderTask.m_prefetch task = false ->
      (canceledAt 0%nat <> NotCanceled ->
       fst (RenderTask.run qt canceledAt task) = [finished])
      /\ (canceledAt 0%nat = NotCanceled -> canceledAt 1%nat <> NotCanceled ->
          fst (RenderTask.run qt canceledAt task) = [finished])
      /\ (canceledAt 0%nat = NotCanceled -> canceledAt 1%nat = NotCanceled ->
          canceledAt 2%nat <> NotCanceled ->
          fst (RenderTask.run qt canceledAt task) = [imageReady_of qt task; finished])).
Proof.
  assert (report : forall k : nat,
             canceled_at_checkpoint qt canceledAt task k = true <->
             (RenderTask.m_prefetch task = false /\ canceledAt k <> NotCanceled)
             \/ (RenderTask.m_prefetch task = true /\ canceledAt k = CanceledForcibly))
    by (intros k; apply checkpoint_iff).
  assert (pass : forall k : nat,
             canceled_at_checkpoint qt canceledAt task k = false <->
             (RenderTask.m_prefetch task = false /\ canceledAt k = NotCanceled)
             \/ (RenderTask.m_prefetch task = true /\ canceledAt k <> CanceledForcibly))
    by (intros k; apply checkpoint_passes_iff).
  split; [exact report|]. rewrite run_trace. split.
  - intros Hpre soft.
    assert (go : forall k, canceled_at_checkpoint qt canceledAt task k = false).
    { intros k. apply pass. right. split; [assumption|].
      unfold NotCanceled, CanceledNormally, CanceledForcibly in *.
      destruct (soft k) as [-> | ->]; discriminate. }
    now rewrite !go.
  - intros Hdemand. repeat split.
    + intros H0. assert (E : canceled_at_checkpoint qt canceledAt task 0 = true)
        by (apply report; auto).
      now rewrite E.
    + intros H0 H1.
      assert (E0 : canceled_at_checkpoint qt canceledAt task 0 = false)
        by (apply pass; auto).
      assert (E1 : canceled_at_checkpoint qt canceledAt task 1 = true)
        by (apply report; auto).
      now rewrite E0, E1.
    + intros H0 H1 H2.
      assert (E0 : canceled_at_checkpoint qt canceledAt task 0 = false)
        by (apply pass; auto).
      assert (E1 : canceled_at_checkpoint qt canceledAt task 1 = false)
        by (apply pass; auto).
      assert (E2 : canceled_at_checkpoint qt canceledAt task 2 = true)
        by (apply report; auto).
      now rewrite E0, E1, E2.
Qed.

Lemma checkpoints_of_run_witness :
  fst (RenderTask.run Qt5_1 (fun _ => CanceledNormally) Samples.prefetchTask)
  = [imageReady_of Qt5_1 Samples.prefetchTask; cropBoxReady_of Qt5_1 Samples.prefetchTask;
     finished].
Proof.
  apply (proj1 (proj2 (checkpoints_of_run Qt5_1 (fun _ => CanceledNormally)
                         Samples.prefetchTask))).
  - reflexivity.
  - intros k. right. reflexivity.
Defined.

(** C6: every run ends with [finished], emitted once and last, on the
    canceled paths too.  A run that passes the first two checkpoints emits
    [imageReady] first, then possibly [cropBoxReady], then [finished]; the
    crop box is emitted exactly when trimming is requested and the
    checkpoint between the two emissions finds no cancellation.  A run
    stopped earlier emits [finished] alone. *)
Theorem signals_of_run (qt : QtVersion) (canceledAt : nat -> QAtomicInt.t)
    (task : RenderTask.t) :
  let trace := fst (RenderTask.run qt canceledAt task) in
  (exists before, trace = (before ++ [finished])%list /\ existsb is_finished before = false)
  /\ (canceled_at_checkpoint qt canceledAt task 0 = false ->
      canceled_at_checkpoint qt canceledAt task 1 = false ->
      (trace = [imageReady_of qt task; finished]
       \/ trace = [imageReady_of qt task; cropBoxReady_of qt task; finished])
      /\ (existsb is_cropBoxReady trace = true <->
          RenderTask.trimMargins_requested = true
          /\ canceled_at_checkpoint qt canceledAt task 2 = false))
  /\ (canceled_at_checkpoint qt canceledAt task 0 = true
      \/ canceled_at_checkpoint qt canceledAt task 1 = true ->
      trace = [finished]).
Proof.
  cbv zeta. rewrite run_trace.
  destruct (canceled_at_checkpoint qt canceledAt task 0) eqn:E0;
    destruct (canceled_at_checkpoint qt canceledAt task 1) eqn:E1;
    destruct (canceled_at_checkpoint qt canceledAt task 2) eqn:E2;
    (split; [|split]);
    try (intros; discriminate);
    try (intros [?|?]; discriminate);
    try (intros; reflexivity);
    try (exists []; split; reflexivity);
    try (exists [imageReady_of qt task]; split; reflexivity);
    try (exists [imageReady_of qt task; cropBoxReady_of qt task]; split; reflexivity).
  - intros _ _. split; [now left|]. cbn. intuition discriminate.
  - intros _ _. split; [now right|]. cbn. intuition reflexivity.
Qed.

Lemma signals_of_run_witness :
  existsb is_cropBoxReady (fst (RenderTask.run Qt5_1 (fun _ => NotCanceled) Samples.demandTask))
  = true.
Proof.
  apply (proj1 (proj2 (signals_of_run Qt5_1 (fun _ => NotCanceled) Samples.demandTask)));
    try reflexivity.
  split; reflexivity.
Defined.

(** ** Facts of binary64 arithmetic *)

Lemma digits2_pos_lower (p : positive) :
  2 ^ (Z.pos (digits2_pos p) - 1) <= Z.pos p.
Proof.
  induction p as [p IH|p IH|]; cbn [digits2_pos].
  - rewrite Pos2Z.inj_succ. replace (Z.succ (Z.pos (digits2_pos p)) - 1)
      with (Z.succ (Z.pos (digits2_pos p) - 1)) by lia.
    rewrite Z.pow_succ_r by lia. lia.
  - rewrite Pos2Z.inj_succ. replace (Z.succ (Z.pos (digits2_pos p)) - 1)
      with (Z.succ (Z.pos (digits2_pos p) - 1)) by lia.
    rewrite Z.pow_succ_r by lia. lia.
  - simpl. lia.
Qed.

Lemma digits2_pos_le (p : positive) (n : Z) :
  0 <= n -> Z.pos p < 2 ^ n -> Z.pos (digits2_pos p) <= n.
Proof.
  intros Hn Hp. destruct (Z_le_gt_dec (Z.pos (digits2_pos p)) n) as [|Hgt]; [assumption|].
  exfalso. pose proof (digits2_pos_lower p) as Hlow.
  assert (2 ^ n <= 2 ^ (Z.pos (digits2_pos p) - 1)) by (apply Z.pow_le_mono_r; lia).
  lia.
Qed.

Lemma digits2_pos_shift (p k : positive) :
  digits2_pos (Pos.iter xO p k) = (digits2_pos p + k)%positive.
Proof.
  induction k as [|k IH] using Pos.peano_ind.
  - simpl. lia.
  - rewrite Pos.iter_succ. cbn [digits2_pos]. rewrite IH. lia.
Qed.

(** A mantissa of full width with an exponent in range is not rounded. *)
Lemma binary_round_aux_exact (m : positive) (e : Z) :
  Z.pos (digits2_pos m) = 53 -> -1074 <= e <= 971 ->
  binary_round_aux prec emax false (Z.pos m) e loc_Exact = S754_finite false m e.
Proof.
  intros Hd He.
  assert (Hshr : shr_fexp prec emax (Z.pos m) e loc_Exact
                 = ({| shr_m := Z.pos m; shr_r := false; shr_s := false |}, e)).
  { unfold shr_fexp, Zdigits2, shr_record_of_loc. rewrite Hd.
    replace (fexp prec emax (53 + e) - e) with 0; [reflexivity|].
    unfold fexp, emin, prec, emax. lia. }
  unfold binary_round_aux. rewrite Hshr. cbn [shr_m loc_of_shr_record round_nearest_even].
  rewrite Hshr. cbn [shr_m].
  replace (e <=? emax - prec) with true; [reflexivity|].
  symmetry. apply Z.leb_le. unfold emax, prec. lia.
Qed.

(** A positive [int] converts to a positive finite value. *)
Lemma qreal_of_int_finite (n : Z) :
  0 < n < 2 ^ 53 -> exists m e, qreal_of_int n = S754_finite false m e.
Proof.
  intros [Hpos Hlt]. destruct n as [|p|p]; try lia.
  pose proof (digits2_pos_le p 53 ltac:(lia) Hlt) as Hd.
  unfold qreal_of_int, binary_normalize, binary_round, shl_align.
  replace (fexp prec emax (Z.pos (digits2_pos p) + 0)) with (Z.pos (digits2_pos p) - 53)
    by (unfold fexp, emin, prec, emax; lia).
  destruct (Z.pos (digits2_pos p) - 53 - 0) as [|k|k] eqn:Ek; try lia.
  - exists p, 0. apply binary_round_aux_exact; lia.
  - eexists _, _. apply binary_round_aux_exact.
    + rewrite digits2_pos_shift. lia.
    + lia.
Qed.

(** A finite value divided by itself is exactly 1. *)
Lemma qdiv_self (m : positive) (e : Z) :
  qdiv (S754_finite false m e) (S754_finite false m e) = qreal_of_int 1.
Proof.
  unfold qdiv, SFdiv, SFdiv_core_binary.
  replace (Zdigits2 (Z.pos m) + e - (Zdigits2 (Z.pos m) + e)) with 0 by lia.
  replace (e - e) with 0 by lia.
  change (Z.min (fexp prec emax 0) 0) with (-53).
  change (0 - -53) with 53.
  cbv beta iota zeta.
  rewrite Z.shiftl_mul_pow2 by lia.
  assert (Hdiv : Z.div_eucl (Z.pos m * 2 ^ 53) (Z.pos m) = (2 ^ 53, 0)).
  { pose proof (Z_div_mod (Z.pos m * 2 ^ 53) (Z.pos m) ltac:(lia)) as H.
    destruct (Z.div_eucl (Z.pos m * 2 ^ 53) (Z.pos m)) as [q r].
    destruct H as [H1 H2]. assert (q = 2 ^ 53) by nia. f_equal; lia. }
  rewrite Hdiv.
  replace (new_location (Z.pos m) 0) with loc_Exact
    by (unfold new_location, new_location_even, new_location_odd;
        destruct (Z.even (Z.pos m)); reflexivity).
  reflexivity.
Qed.

Lemma qdiv_int_self (n : Z) :
  0 < n < 2 ^ 53 -> qdiv (qreal_of_int n) (qreal_of_int n) = qreal_of_int 1.
Proof.
  intros H. destruct (qreal_of_int_finite n H) as (m & e & ->). apply qdiv_self.
Qed.

Lemma qdiv_zero_int (n : Z) :
  0 < n < 2 ^ 53 -> qdiv (qreal_of_int 0) (qreal_of_int n) = qreal_of_int 0.
Proof.
  intros H. destruct (qreal_of_int_finite n H) as (m & e & ->). reflexivity.
Qed.

(** ** The loops of the margin trimmer *)

Lemma all_below_true (fuel : nat) (i bound : Z) (keep : Z -> bool) :
  (forall j, i <= j < bound -> keep j = true) -> all_below fuel i bound keep = true.
Proof.
  revert i. induction fuel as [|fuel IH]; intros i Hall; cbn [all_below].
  - reflexivity.
  - destruct (Z.ltb_spec i bound) as [Hlt|]; [|reflexivity].
    rewrite (Hall i) by lia. apply IH. intros j Hj. apply Hall. lia.
Qed.

(** With fuel for the whole range the loop is the universal test. *)
Lemma all_below_iff (fuel : nat) (i bound : Z) (keep : Z -> bool) :
  (Z.to_nat (bound - i) <= fuel)%nat ->
  all_below fuel i bound keep = true <-> (forall j, i <= j < bound -> keep j = true).
Proof.
  intros Hfuel. split; [|apply all_below_true].
  revert i Hfuel. induction fuel as [|fuel IH]; intros i Hfuel Hloop j Hj.
  - lia.
  - cbn [all_below] in Hloop.
    destruct (Z.ltb_spec i bound) as [Hlt|]; [|lia].
    destruct (keep i) eqn:Hi; [|discriminate].
    destruct (Z.eq_dec j i) as [->|]; [assumption|].
    apply (IH (i + 1)); [lia|assumption|lia].
Qed.

Lemma scan_up_stops (fuel : nat) (i k bound : Z) (margin : Z -> bool) :
  i <= k < bound -> (forall j, i <= j < k -> margin j = true) -> margin k = false ->
  (Z.to_nat (k - i) < fuel)%nat ->
  scan_up fuel i bound margin = k.
Proof.
  revert i. induction fuel as [|fuel IH]; intros i Hk Hbefore Hstop Hfuel; [lia|].
  cbn [scan_up]. destruct (Z.ltb_spec i bound) as [_|]; [|lia].
  destruct (Z.eq_dec i k) as [->|Hne].
  - now rewrite Hstop.
  - rewrite Hbefore by lia. apply IH; try lia; [|assumption].
    intros j Hj. apply Hbefore. lia.
Qed.

Lemma scan_up_runs_out (fuel : nat) (i bound : Z) (margin : Z -> bool) :
  i <= bound -> (forall j, i <= j < bound -> margin j = true) ->
  (Z.to_nat (bound - i) <= fuel)%nat ->
  scan_up fuel i bound margin = bound.
Proof.
  revert i. induction fuel as [|fuel IH]; intros i Hle Hall Hfuel; cbn [scan_up].
  - lia.
  - destruct (Z.ltb_spec i bound) as [Hlt|]; [|lia].
    rewrite Hall by lia. apply IH; try lia. intros j Hj. apply Hall. lia.
Qed.

Lemma scan_down_stops (fuel : nat) (i k bound : Z) (margin : Z -> bool) :
  bound <= k <= i -> (forall j, k < j <= i -> margin j = true) -> margin k = false ->
  (Z.to_nat (i - k) < fuel)%nat ->
  scan_down fuel i bound margin = k.
Proof.
  revert i. induction fuel as [|fuel IH]; intros i Hk Hafter Hstop Hfuel; [lia|].
  cbn [scan_down]. destruct (Z.geb_spec i bound) as [_|]; [|lia].
  destruct (Z.eq_dec i k) as [->|Hne].
  - now rewrite Hstop.
  - rewrite Hafter by lia. apply IH; try lia; [|assumption].
    intros j Hj. apply Hafter. lia.
Qed.

Lemma scan_down_at_once (fuel : nat) (i bound : Z) (margin : Z -> bool) :
  i < bound -> scan_down fuel i bound margin = i.
Proof.
  intros Hlt. destruct fuel; cbn [scan_down]; [reflexivity|].
  destruct (Z.geb_spec i bound); [lia|reflexivity].
Qed.

Lemma columnHasPaperColor_iff (x : Z) (paperColor : QColor.t) (image : QImage.t) :
  columnHasPaperColor x paperColor image = true <->
  (forall y, 0 <= y < QImage.height image -> paper_at paperColor image x y = true).
Proof. unfold columnHasPaperColor. apply all_below_iff. lia. Qed.

Lemma rowHasPaperColor_iff (y : Z) (paperColor : QColor.t) (image : QImage.t) :
  rowHasPaperColor y paperColor image = true <->
  (forall x, 0 <= x < QImage.width image -> paper_at paperColor image x y = true).
Proof. unfold rowHasPaperColor. apply all_below_iff. lia. Qed.

Lemma columnHasPaperColor_false (x y : Z) (paperColor : QColor.t) (image : QImage.t) :
  0 <= y < QImage.height image -> paper_at paperColor image x y = false ->
  columnHasPaperColor x paperColor image = false.
Proof.
  intros Hy Hpx. apply not_true_is_false. intros Hcol.
  rewrite columnHasPaperColor_iff in Hcol. rewrite (Hcol y Hy) in Hpx. discriminate.
Qed.

Lemma rowHasPaperColor_false (x y : Z) (paperColor : QColor.t) (image : QImage.t) :
  0 <= x < QImage.width image -> paper_at paperColor image x y = false ->
  rowHasPaperColor y paperColor image = false.
Proof.
  intros Hx Hpx. apply not_true_is_false. intros Hrow.
  rewrite rowHasPaperColor_iff in Hrow. rewrite (Hrow x Hx) in Hpx. discriminate.
Qed.

(** ** Crop boxes *)

(** The roundings met below, evaluated in binary64. *)
Lemma roundDown_one :
  roundDown (qreal_of_int 1) cropBoxPrecision cropBoxTolerance = literal 95 100.
Proof. vm_compute. reflexivity. Qed.

Lemma roundUp_zero :
  roundUp (qreal_of_int 0) cropBoxPrecision cropBoxTolerance = qreal_of_int 0.
Proof. vm_compute. reflexivity. Qed.

Lemma roundDown_tenth :
  roundDown (qdiv (qreal_of_int 10) (qreal_of_int 100)) cropBoxPrecision cropBoxTolerance
  = literal 9 100.
Proof. vm_compute. reflexivity. Qed.

(** The product [(1.0 + 0.05) * 0.8 * 100.0] is the binary64 value next
    above 84, so its ceiling is 85. *)
Lemma roundUp_product_above_84 :
  qmul (qmul (qadd (qreal_of_int 1) cropBoxTolerance)
             (qdiv (qreal_of_int 80) (qreal_of_int 100)))
       cropBoxPrecision
  = S754_finite false 5910974510923777 (-46)
  /\ qreal_of_int 84 = S754_finite false 5910974510923776 (-46).
Proof. split; vm_compute; reflexivity. Qed.

Lemma roundUp_four_fifths :
  roundUp (qdiv (qreal_of_int 80) (qreal_of_int 100)) cropBoxPrecision cropBoxTolerance
  = literal 85 100.
Proof. vm_compute. reflexivity. Qed.

(** C9: for a non-empty image all of whose pixels pass for paper the crop
    box is (0.95, 0.95, 0, 0): the scans from the left and from the top run
    to the width and the height, those from the right and from the bottom
    stop at once. *)
Theorem trimMargins_uniform (paperColor : QColor.t) (image : QImage.t) :
  QImage.isNull image = false ->
  0 < QImage.width image < 2 ^ 31 ->
  0 < QImage.height image < 2 ^ 31 ->
  (forall x y, 0 <= x < QImage.width image -> 0 <= y < QImage.height image ->
               paper_at paperColor image x y = true) ->
  trimMargins paperColor image
  = QRectF.make (literal 95 100) (literal 95 100) (qreal_of_int 0) (qreal_of_int 0).
Proof.
  intros Hnull Hw Hh Hpaper. unfold trimMargins. rewrite Hnull.
  set (w := QImage.width image) in *. set (h := QImage.height image) in *.
  assert (Hcol : forall x, 0 <= x < w -> columnHasPaperColor x paperColor image = true).
  { intros x Hx. apply columnHasPaperColor_iff. intros y Hy. now apply Hpaper. }
  assert (Hrow : forall y, 0 <= y < h -> rowHasPaperColor y paperColor image = true).
  { intros y Hy. apply rowHasPaperColor_iff. intros x Hx. now apply Hpaper. }
  rewrite (scan_up_runs_out (Z.to_nat w) 0 w) by (try assumption; lia).
  rewrite (scan_up_runs_out (Z.to_nat h) 0 h) by (try assumption; lia).
  rewrite !scan_down_at_once by lia.
  replace (w - 1 - w + 1) with 0 by lia. replace (h - 1 - h + 1) with 0 by lia.
  assert (2 ^ 31 < 2 ^ 53) by (apply Z.pow_lt_mono_r; lia).
  rewrite !qdiv_int_self, !qdiv_zero_int by lia.
  now rewrite roundDown_one, roundUp_zero.
Qed.

Lemma trimMargins_uniform_witness :
  trimMargins (QColor.make 255 128 128 128) Samples.grey
  = QRectF.make (literal 95 100) (literal 95 100) (qreal_of_int 0) (qreal_of_int 0).
Proof.
  apply trimMargins_uniform.
  - reflexivity.
  - simpl. lia.
  - simpl. lia.
  - intros x y _ _. reflexivity.
Defined.

(** C7, as the code has it: for a 100 x 100 image whose 10-pixel frame is
    white and whose columns 10 and 89 and rows 10 and 89 each hold a pixel
    that is not white, the crop box is (0.09, 0.09, 0.85, 0.85): the left
    and top numerators are floor (0.95 * 10) = 9, the width and height
    numerators are 85, the ceiling of the binary64 product
    (1.0 + 0.05) * 0.8 * 100.0, which lies just above 84. *)
Theorem trimMargins_framed (image : QImage.t) :
  QImage.isNull image = false ->
  QImage.width image = 100 -> QImage.height image = 100 ->
  (forall x y, 0 <= x < 100 -> 0 <= y < 100 ->
               x < 10 \/ 90 <= x \/ y < 10 \/ 90 <= y ->
               paper_at QColor.white image x y = true) ->
  (exists y, 0 <= y < 100 /\ paper_at QColor.white image 10 y = false) ->
  (exists y, 0 <= y < 100 /\ paper_at QColor.white image 89 y = false) ->
  (exists x, 0 <= x < 100 /\ paper_at QColor.white image x 10 = false) ->
  (exists x, 0 <= x < 100 /\ paper_at QColor.white image x 89 = false) ->
  trimMargins QColor.white image
  = QRectF.make (literal 9 100) (literal 9 100) (literal 85 100) (literal 85 100).
Proof.
  intros Hnull Hw Hh Hframe (yl & Hyl & Hleft) (yr & Hyr & Hright)
    (xt & Hxt & Htop) (xb & Hxb & Hbottom).
  unfold trimMargins. rewrite Hnull, Hw, Hh.
  rewrite (scan_up_stops _ 0 10 100); try lia.
  2:{ intros x Hx. apply columnHasPaperColor_iff. rewrite Hh. intros y Hy.
      apply Hframe; lia. }
  2:{ apply (columnHasPaperColor_false 10 yl); [rewrite Hh|]; assumption. }
  rewrite (scan_down_stops _ (100 - 1) 89 10); try lia.
  2:{ intros x Hx. apply columnHasPaperColor_iff. rewrite Hh. intros y Hy.
      apply Hframe; lia. }
  2:{ apply (columnHasPaperColor_false 89 yr); [rewrite Hh|]; assumption. }
  rewrite (scan_up_stops _ 0 10 100); try lia.
  2:{ intros y Hy. apply rowHasPaperColor_iff. rewrite Hw. intros x Hx.
      apply Hframe; lia. }
  2:{ apply (rowHasPaperColor_false xt 10); [rewrite Hw|]; assumption. }
  rewrite (scan_down_stops _ (100 - 1) 89 10); try lia.
  2:{ intros y Hy. apply rowHasPaperColor_iff. rewrite Hw. intros x Hx.
      apply Hframe; lia. }
  2:{ apply (rowHasPaperColor_false xb 89); [rewrite Hw|]; assumption. }
  change (89 - 10 + 1) with 80.
  now rewrite roundDown_tenth, roundUp_four_fifths.
Qed.

Lemma framed_frame_is_white (x y : Z) :
  x < 10 \/ 90 <= x \/ y < 10 \/ 90 <= y ->
  paper_at QColor.white Samples.framed x y = true.
Proof.
  intros H. unfold paper_at, Samples.framed, QImage.pixel.
  replace ((x <? 10) || (90 <=? x) || (y <? 10) || (90 <=? y)) with true; [reflexivity|].
  symmetry. rewrite !orb_true_iff, !Z.ltb_lt, !Z.leb_le. tauto.
Qed.

Lemma trimMargins_framed_witness :
  trimMargins QColor.white Samples.framed
  = QRectF.make (literal 9 100) (literal 9 100) (literal 85 100) (literal 85 100).
Proof.
  apply trimMargins_framed.
  - reflexivity.
  - reflexivity.
  - reflexivity.
  - intros x y _ _ H. apply framed_frame_is_white, H.
  - exists 50. split; [lia|reflexivity].
  - exists 50. split; [lia|reflexivity].
  - exists 50. split; [lia|reflexivity].
  - exists 50. split; [lia|reflexivity].
Defined.

(** C7 as stated does not hold: on the framed sample the crop box is not
    (floor (0.95 * 10) / 100, floor (0.95 * 10) / 100,
     ceil (1.05 * 80) / 100, ceil (1.05 * 80) / 100) = (0.09, 0.09, 0.84, 0.84);
    its width and height are 0.85. *)
Lemma trimMargins_framed_not_as_claimed :
  floor_frac (95 * 10) 100 = 9 /\ ceil_frac (105 * 80) 100 = 84
  /\ trimMargins QColor.white Samples.framed
     <> QRectF.make (literal (floor_frac (95 * 10) 100) 100)
                    (literal (floor_frac (95 * 10) 100) 100)
                    (literal (ceil_frac (105 * 80) 100) 100)
                    (literal (ceil_frac (105 * 80) 100) 100)
  /\ QRectF.width (trimMargins QColor.white Samples.framed) = literal 85 100.
Proof.
  split; [reflexivity|]. split; [reflexivity|]. split.
  - vm_compute. intros H. discriminate H.
  - vm_compute. reflexivity.
Qed.

(** A white frame alone does not fix the crop box: with a single dark
    pixel in the middle the box shrinks to that pixel. *)
Lemma trimMargins_dotted :
  trimMargins QColor.white Samples.dotted
  = QRectF.make (literal 47 100) (literal 47 100) (literal 2 100) (literal 2 100).
Proof. vm_compute. reflexivity. Qed.

(** ** The cost-bounded cache *)

Lemma int32_small (z : Z) : - 2 ^ 31 <= z < 2 ^ 31 -> int32 z = z.
Proof.
  intros H. unfold int32. rewrite Z.mod_small; [lia|].
  change (2 ^ 32) with (2 ^ 31 + 2 ^ 31). lia.
Qed.

(** Without overflow the cost is the byte size, and not negative. *)
Lemma cost_of_fitting (wd ht dp : Z) :
  fits_int wd ht dp ->
  int_div (int_mul (int_mul wd ht) dp) 8 = wd * ht * dp / 8
  /\ 0 <= int_div (int_mul (int_mul wd ht) dp) 8.
Proof.
  intros (Hw & Hh & Hd & Hwh & Hwhd). unfold int_mul, int_div.
  assert (0 <= wd * ht) by nia. assert (0 <= wd * ht * dp) by nia.
  rewrite (int32_small (wd * ht)) by lia. rewrite int32_small by lia.
  rewrite Z.quot_div_nonneg by lia. split; [reflexivity|]. apply Z.div_pos; lia.
Qed.

Lemma sum_costs_app (a b : list QCache.node) :
  QCache.sum_costs (a ++ b)%list = QCache.sum_costs a + QCache.sum_costs b.
Proof. induction a as [|n a IH]; simpl; [reflexivity|]. rewrite IH. lia. Qed.

Lemma sum_costs_rev (a : list QCache.node) :
  QCache.sum_costs (rev a) = QCache.sum_costs a.
Proof.
  induction a as [|n a IH]; simpl; [reflexivity|].
  rewrite sum_costs_app, IH. simpl. lia.
Qed.

Lemma sum_costs_nonneg (ns : list QCache.node) :
  Forall (fun n => 0 <= QCache.cost n) ns -> 0 <= QCache.sum_costs ns.
Proof. induction 1; simpl; lia. Qed.

(** Unlinking a key keeps the total in step with the nodes. *)
Lemma unlink_key_sum (k : CacheKey) (tot : Z) (ns : list QCache.node) :
  Forall (fun n => 0 <= QCache.cost n) ns ->
  fst (QCache.unlink_key k tot ns) - QCache.sum_costs (snd (QCache.unlink_key k tot ns))
  = tot - QCache.sum_costs ns
  /\ Forall (fun n => 0 <= QCache.cost n) (snd (QCache.unlink_key k tot ns))
  /\ fst (QCache.unlink_key k tot ns) <= tot.
Proof.
  induction 1 as [|n ns Hn Hns IH]; cbn [QCache.unlink_key].
  - simpl. repeat split; try lia; constructor.
  - destruct (QCache.has_key k n).
    + cbn [fst snd QCache.sum_costs fold_right]. repeat split; try lia; assumption.
    + destruct (QCache.unlink_key k tot ns) as [t' rest'].
      cbn [fst snd] in *. destruct IH as (IH1 & IH2 & IH3).
      cbn [QCache.sum_costs fold_right]. fold (QCache.sum_costs rest').
      fold (QCache.sum_costs ns). repeat split; try lia; now constructor.
Qed.

(** The node [object] moves is the one [unlink_key] takes out. *)
Lemma unlink_key_found (k : CacheKey) (tot : Z) (ns : list QCache.node) (n : QCache.node) :
  find (QCache.has_key k) ns = Some n ->
  QCache.sum_costs (snd (QCache.unlink_key k tot ns)) = QCache.sum_costs ns - QCache.cost n.
Proof.
  induction ns as [|n0 ns IH]; cbn [find QCache.unlink_key]; [discriminate|].
  destruct (QCache.has_key k n0).
  - intros [= ->]. simpl. lia.
  - intros Hfind. specialize (IH Hfind).
    destruct (QCache.unlink_key k tot ns) as [t' rest']. cbn [snd] in *.
    cbn [QCache.sum_costs fold_right]. fold (QCache.sum_costs rest').
    fold (QCache.sum_costs ns). lia.
Qed.

(** Trimming stops below the mark or with nothing left. *)
Lemma trim_from_last_sum (m tot : Z) (backwards : list QCache.node) :
  tot = QCache.sum_costs backwards ->
  Forall (fun n => 0 <= QCache.cost n) backwards ->
  let r := QCache.trim_from_last m tot backwards in
  fst r = QCache.sum_costs (snd r)
  /\ Forall (fun n => 0 <= QCache.cost n) (snd r)
  /\ (fst r <= m \/ snd r = [])
  /\ fst r <= tot.
Proof.
  intros Htot Hall. revert tot Htot.
  induction Hall as [|n before Hn Hbefore IH]; intros tot Htot; cbn [QCache.trim_from_last].
  - cbn. split; [assumption|]. split; [constructor|]. split; [now right|lia].
  - destruct (Z.gtb_spec tot m) as [Hgt|Hle].
    + simpl in Htot. fold (QCache.sum_costs before) in Htot.
      destruct (IH (tot - QCache.cost n) ltac:(lia)) as (H1 & H2 & H3 & H4).
      repeat split; try assumption. lia.
    + cbn [fst snd]. split; [assumption|]. split; [now constructor|].
      split; [now left|lia].
Qed.

Lemma consistent_remove (c : QCache.t) (k : CacheKey) :
  cache_consistent c ->
  cache_consistent (QCache.remove c k)
  /\ QCache.mx (QCache.remove c k) = QCache.mx c
  /\ QCache.total (QCache.remove c k) <= QCache.total c.
Proof.
  intros [Htot Hall]. unfold QCache.remove, cache_consistent, QCache.resident_cost in *.
  pose proof (unlink_key_sum k (QCache.total c) (QCache.nodes c) Hall) as (H1 & H2 & H3).
  destruct (QCache.unlink_key k (QCache.total c) (QCache.nodes c)) as [t' ns'].
  cbn [fst snd QCache.total QCache.nodes QCache.mx] in *.
  repeat split; try lia; assumption.
Qed.

Lemma consistent_trim (c : QCache.t) (m : Z) :
  cache_consistent c ->
  cache_consistent (QCache.trim c m)
  /\ QCache.mx (QCache.trim c m) = QCache.mx c
  /\ (0 <= m -> QCache.total (QCache.trim c m) <= m)
  /\ QCache.total (QCache.trim c m) <= QCache.total c.
Proof.
  intros [Htot Hall]. unfold QCache.trim, cache_consistent, QCache.resident_cost in *.
  pose proof (trim_from_last_sum m (QCache.total c) (rev (QCache.nodes c))) as H.
  rewrite sum_costs_rev in H. specialize (H Htot).
  specialize (H (Forall_rev Hall)). cbv zeta in H.
  destruct (QCache.trim_from_last m (QCache.total c) (rev (QCache.nodes c))) as [t' back'].
  cbn [fst snd QCache.total QCache.nodes QCache.mx] in *.
  destruct H as (H1 & H2 & H3 & H4).
  repeat split.
  - now rewrite sum_costs_rev.
  - now apply Forall_rev.
  - intros Hm. destruct H3 as [H3 | ->]; [assumption|]. simpl in H1. lia.
  - assumption.
Qed.

Lemma consistent_setMaxCost (c : QCache.t) (m : Z) :
  cache_consistent c -> 0 <= m ->
  cache_consistent (QCache.setMaxCost c m)
  /\ QCache.mx (QCache.setMaxCost c m) = m
  /\ QCache.total (QCache.setMaxCost c m) <= m.
Proof.
  intros Hc Hm. unfold QCache.setMaxCost.
  destruct (consistent_trim (QCache.make m (QCache.total c) (QCache.nodes c)) m)
    as (H1 & H2 & H3 & _); [exact Hc|].
  repeat split; try apply H1; [exact H2|now apply H3].
Qed.

Lemma consistent_object (c : QCache.t) (k : CacheKey) :
  cache_consistent c ->
  cache_consistent (snd (QCache.object c k))
  /\ QCache.mx (snd (QCache.object c k)) = QCache.mx c
  /\ QCache.total (snd (QCache.object c k)) = QCache.total c.
Proof.
  intros [Htot Hall]. unfold QCache.object.
  destruct (find (QCache.has_key k) (QCache.nodes c)) as [n|] eqn:Hfind;
    cbn [snd]; [|repeat split; assumption].
  unfold cache_consistent, QCache.resident_cost in *.
  cbn [QCache.total QCache.nodes QCache.mx QCache.sum_costs fold_right].
  fold (QCache.sum_costs (snd (QCache.unlink_key k (QCache.total c) (QCache.nodes c)))).
  rewrite (unlink_key_found k _ _ n Hfind).
  repeat split; try lia.
  constructor.
  - apply find_some in Hfind as [Hin _]. rewrite Forall_forall in Hall. now apply Hall.
  - now apply (unlink_key_sum k (QCache.total c) (QCache.nodes c) Hall).
Qed.

(** After an insertion with a cost that is not negative the total is
    within the maximum, whatever it was before. *)
Lemma consistent_insert (c : QCache.t) (k : CacheKey) (o : QPixmap.t) (acost : Z) :
  cache_consistent c -> 0 <= acost -> QCache.total c <= QCache.mx c ->
  cache_consistent (snd (QCache.insert c k o acost))
  /\ QCache.mx (snd (QCache.insert c k o acost)) = QCache.mx c
  /\ QCache.total (snd (QCache.insert c k o acost)) <= QCache.mx c.
Proof.
  intros Hc Hcost Hbound. unfold QCache.insert.
  destruct (consistent_remove c k Hc) as (Hr & Hrmx & Hrtot).
  destruct (Z.gtb_spec acost (QCache.mx (QCache.remove c k))) as [Hgt|Hle]; cbn [snd].
  - repeat split; try apply Hr; [assumption|lia].
  - destruct (consistent_trim (QCache.remove c k) (QCache.mx (QCache.remove c k) - acost) Hr)
      as ((Ht1 & Ht2) & Htmx & Htle & _).
    unfold cache_consistent, QCache.resident_cost in *.
    cbn [QCache.total QCache.nodes QCache.mx QCache.sum_costs fold_right].
    fold (QCache.sum_costs
            (QCache.nodes (QCache.trim (QCache.remove c k)
                             (QCache.mx (QCache.remove c k) - acost)))).
    specialize (Htle ltac:(lia)). cbn [QCache.cost].
    split; [split|split]; [lia|now constructor|congruence|lia].
Qed.

(** An object that is not dearer than the maximum is resident after its
    insertion. *)
Lemma insert_contains (c : QCache.t) (k : CacheKey) (o : QPixmap.t) (acost : Z) :
  acost <= QCache.mx c -> QCache.contains (snd (QCache.insert c k o acost)) k = true.
Proof.
  intros Hle. unfold QCache.insert, QCache.remove.
  destruct (QCache.unlink_key k (QCache.total c) (QCache.nodes c)) as [t' ns'].
  cbn [QCache.mx]. destruct (Z.gtb_spec acost (QCache.mx c)); [lia|].
  cbn [snd]. unfold QCache.contains. cbn [QCache.nodes existsb].
  unfold QCache.has_key at 1, CacheKey_eqb. cbn [QCache.key].
  now rewrite Z.eqb_refl, String.eqb_refl.
Qed.

(** ** The tile and the shared cache *)

Lemma bounded_object (c : QCache.t) (k : CacheKey) :
  cache_bounded c -> cache_bounded (snd (QCache.object c k)).
Proof.
  intros (Hc & Hmx & Hb). destruct (consistent_object c k Hc) as (H1 & H2 & H3).
  unfold cache_bounded. rewrite H2, H3. auto.
Qed.

Lemma bounded_insert (c : QCache.t) (k : CacheKey) (o : QPixmap.t) (acost : Z) :
  cache_bounded c -> 0 <= acost -> cache_bounded (snd (QCache.insert c k o acost)).
Proof.
  intros (Hc & Hmx & Hb) Hcost.
  destruct (consistent_insert c k o acost Hc Hcost Hb) as (H1 & H2 & H3).
  unfold cache_bounded. rewrite H2. auto.
Qed.

Lemma bounded_setMaxCost (c : QCache.t) (m : Z) :
  cache_bounded c -> 0 <= m -> cache_bounded (QCache.setMaxCost c m).
Proof.
  intros (Hc & _ & _) Hm. destruct (consistent_setMaxCost c m Hc Hm) as (H1 & H2 & H3).
  unfold cache_bounded. rewrite H2. auto.
Qed.

Lemma startRender_cache (qt : QtVersion) (prefetch : bool) (w : TileItem.World) :
  TileItem.s_cache (snd (TileItem.startRender qt prefetch w)) = TileItem.s_cache w.
Proof.
  unfold TileItem.startRender.
  destruct (_ || _ || _); reflexivity.
Qed.

Lemma refresh_bounded (qt : QtVersion) (keep : bool) (w : TileItem.World) :
  cache_bounded (TileItem.s_cache w) ->
  cache_bounded (TileItem.s_cache (TileItem.refresh qt keep w)).
Proof.
  intros Hb. unfold TileItem.refresh.
  destruct (keep && _); [|exact Hb].
  destruct (QCache.contains _ _); [|exact Hb].
  pose proof (bounded_object (TileItem.s_cache w) (TileItem.pixmapKey (TileItem.tile w)) Hb)
    as Hobj.
  destruct (QCache.object _ _) as [[p|] c']; exact Hobj.
Qed.

Lemma imageReady_bounded (renderParam : RenderParam) (rect : QRect.t) (prefetch : bool)
    (image : QImage.t) (w : TileItem.World) :
  cache_bounded (TileItem.s_cache w) ->
  fits_int (QImage.width image) (QImage.height image) (QImage.depth image) ->
  cache_bounded
    (TileItem.s_cache (TileItem.on_renderTask_imageReady renderParam rect prefetch image w)).
Proof.
  intros Hb Hfit. unfold TileItem.on_renderTask_imageReady.
  destruct (_ || _); [exact Hb|].
  destruct (QImage.isNull image); [exact Hb|].
  destruct (prefetch && _).
  - cbn [TileItem.s_cache TileItem.with_cache TileItem.with_tile TileItem.tile].
    apply bounded_insert; [exact Hb|]. now apply cost_of_fitting.
  - destruct (negb _); exact Hb.
Qed.

Lemma takePixmap_bounded (qt : QtVersion) (w : TileItem.World) :
  cache_bounded (TileItem.s_cache w) ->
  fits_int (QPixmap.width (TileItem.m_pixmap (TileItem.tile w)))
           (QPixmap.height (TileItem.m_pixmap (TileItem.tile w)))
           (QPixmap.depth (TileItem.m_pixmap (TileItem.tile w))) ->
  cache_bounded (TileItem.s_cache (snd (TileItem.takePixmap qt w))).
Proof.
  intros Hb Hfit. unfold TileItem.takePixmap.
  destruct (QCache.contains _ _).
  - pose proof (bounded_object (TileItem.s_cache w) (TileItem.pixmapKey (TileItem.tile w))
                  Hb) as Hobj.
    destruct (QCache.object _ _) as [o c']. exact Hobj.
  - destruct (negb _).
    + cbn [snd TileItem.s_cache TileItem.with_cache TileItem.with_tile TileItem.tile].
      apply bounded_insert; [exact Hb|]. now apply cost_of_fitting.
    + cbn [snd]. now rewrite startRender_cache.
Qed.

Lemma paint_world (qt : QtVersion) (topLeft : QPointF.t) (w : TileItem.World) :
  snd (TileItem.paint qt topLeft w) = snd (TileItem.takePixmap qt w).
Proof.
  unfold TileItem.paint. destruct (TileItem.takePixmap qt w) as [pixmap w'].
  cbn [snd].
  repeat match goal with
         | |- context [if ?c then _ else _] => destruct c
         end; reflexivity.
Qed.

Lemma use_cache_bounded (qt : QtVersion) (c : QCache.t) (u : CacheUse) :
  cache_bounded c -> well_sized u -> cache_bounded (use_cache qt c u).
Proof.
  intros Hb Hu. destruct u as [p fresh settings|w keep|w prefetch|w rp rect prefetch image
                              |w topLeft]; cbn [use_cache well_sized] in *.
  - now apply bounded_setMaxCost.
  - now apply refresh_bounded.
  - now rewrite startRender_cache.
  - now apply imageReady_bounded.
  - rewrite paint_world. now apply takePixmap_bounded.
Qed.

(** As long as the cost expression does not overflow: whatever tiles use
    the shared cache and in whatever order (construction, refresh, start
    of a render, completion of a prefetch or of an on-demand render, paint
    with its lazy promotion), the sum of the costs booked in the cache
    never exceeds the configured maximum, and the running total is that
    sum.  The maximum is not negative and the buffers fit an [int]. *)
Theorem cache_cost_bounded (qt : QtVersion) (maxCost : Z) (uses : list CacheUse) :
  0 <= maxCost -> Forall well_sized uses ->
  let c := fold_left (use_cache qt) uses (QCache.empty maxCost) in
  QCache.resident_cost c <= QCache.maxCost c
  /\ QCache.totalCost c = QCache.resident_cost c.
Proof.
  intros Hmax Huses.
  assert (Hinit : cache_bounded (QCache.empty maxCost)).
  { unfold cache_bounded, cache_consistent, QCache.empty. cbn.
    repeat split; try lia; constructor. }
  assert (Hend : cache_bounded (fold_left (use_cache qt) uses (QCache.empty maxCost))).
  { revert Hinit. generalize (QCache.empty maxCost).
    induction Huses as [|u uses Hu _ IH]; intros c Hc; cbn [fold_left].
    - exact Hc.
    - apply IH. now apply use_cache_bounded. }
  cbv zeta. destruct Hend as ((Htot & _) & _ & Hb).
  unfold QCache.maxCost, QCache.totalCost. rewrite <- Htot. auto.
Qed.

Lemma cache_cost_bounded_witness :
  let c := fold_left (use_cache Qt5_1) Samples.threeTiles (QCache.empty 10485760) in
  QCache.resident_cost c <= QCache.maxCost c
  /\ QCache.totalCost c = QCache.resident_cost c.
Proof.
  apply cache_cost_bounded.
  - lia.
  - repeat constructor; simpl; lia.
Defined.

(** Scenario A: a maximum of 10 MB and three entries of 4 MB each; the
    third insertion evicts the first entry, 8 MB stay resident. *)
Lemma three_tiles_evict_the_first :
  let c := fold_left (use_cache Qt5_1) Samples.threeTiles (QCache.empty 10485760) in
  QCache.contains c (TileItem.pixmapKey (TileItem.tile (Samples.worldAt 0))) = false
  /\ QCache.contains c (TileItem.pixmapKey (TileItem.tile (Samples.worldAt 1024))) = true
  /\ QCache.contains c (TileItem.pixmapKey (TileItem.tile (Samples.worldAt 2048))) = true
  /\ QCache.totalCost c = 8388608.
Proof. vm_compute. repeat split. Qed.

Lemma resetCancellation_value (qt : QtVersion) (a : QAtomicInt.t) :
  resetCancellation qt a = NotCanceled.
Proof. destruct qt; reflexivity. Qed.

Lemma setCancellation_value (qt : QtVersion) (a : QAtomicInt.t) (force : bool) :
  setCancellation qt a force = if force then CanceledForcibly else CanceledNormally.
Proof. destruct qt; reflexivity. Qed.

(** A key the cache contains has an object to hand out. *)
Lemma object_of_contained (c : QCache.t) (k : CacheKey) :
  QCache.contains c k = true -> exists p, fst (QCache.object c k) = Some p.
Proof.
  unfold QCache.contains, QCache.object. intros H.
  apply existsb_exists in H as (n & Hin & Hn).
  destruct (find (QCache.has_key k) (QCache.nodes c)) as [n'|] eqn:Hfind.
  - eexists. reflexivity.
  - exfalso. pose proof (find_none _ _ Hfind n Hin) as Hnone. congruence.
Qed.

(** After [refresh] the tile is dirty: no error, no pixmap of its own, its
    task canceled forcibly. *)
Lemma refresh_outcome (qt : QtVersion) (keep : bool) (w : TileItem.World) :
  let tl := TileItem.tile (TileItem.refresh qt keep w) in
  TileItem.m_pixmapError tl = false
  /\ TileItem.m_pixmap tl = QPixmap.Null
  /\ RenderTask.wasCanceledForcibly (TileItem.m_renderTask tl) = true.
Proof.
  cbv zeta. unfold TileItem.refresh.
  cbn [TileItem.tile TileItem.with_tile TileItem.m_pixmapError TileItem.m_pixmap
       TileItem.set_pixmap TileItem.set_pixmapError TileItem.set_renderTask
       TileItem.m_renderTask].
  unfold RenderTask.wasCanceledForcibly, RenderTask.cancel, RenderTask.set_wasCanceled.
  cbn [RenderTask.m_wasCanceled]. rewrite setCancellation_value. repeat split.
Qed.

(** ** Completion events *)

(** C3: a completion event that matches the tile and carries an image.
    If it is a prefetch, the image is inserted into the shared cache under
    the key of the tile unless the task was canceled forcibly (a normal
    cancellation does not prevent it), and an image within the maximum
    cost is resident afterwards; after a forced cancellation the cache is
    left alone.  If it is no prefetch, the image becomes the pixmap of the
    tile unless the task was canceled in either way.  In every case the
    other of the two stays as it was. *)
Theorem imageReady_delivery (renderParam : RenderParam) (rect : QRect.t) (prefetch : bool)
    (image : QImage.t) (w : TileItem.World) :
  event_is_stale w renderParam rect = false ->
  QImage.isNull image = false ->
  let task := TileItem.m_renderTask (TileItem.tile w) in
  let key := TileItem.pixmapKey (TileItem.tile w) in
  let w' := TileItem.on_renderTask_imageReady renderParam rect prefetch image w in
  (prefetch = true ->
   TileItem.m_pixmap (TileItem.tile w') = TileItem.m_pixmap (TileItem.tile w)
   /\ (RenderTask.wasCanceledForcibly task = false ->
       TileItem.s_cache w'
       = snd (QCache.insert (TileItem.s_cache w) key (QPixmap.fromImage image)
                (image_cost image))
       /\ (image_cost image <= QCache.maxCost (TileItem.s_cache w) ->
           QCache.contains (TileItem.s_cache w') key = true))
   /\ (RenderTask.m_wasCanceled task = CanceledNormally ->
       RenderTask.wasCanceledForcibly task = false)
   /\ (RenderTask.wasCanceledForcibly task = true ->
       TileItem.s_cache w' = TileItem.s_cache w))
  /\ (prefetch = false ->
      TileItem.s_cache w' = TileItem.s_cache w
      /\ (RenderTask.wasCanceled task = false ->
          TileItem.m_pixmap (TileItem.tile w') = QPixmap.fromImage image)
      /\ (RenderTask.wasCanceled task = true ->
          TileItem.m_pixmap (TileItem.tile w') = TileItem.m_pixmap (TileItem.tile w))).
Proof.
  intros Hmatch Hnull. cbv zeta. unfold TileItem.on_renderTask_imageReady.
  unfold event_is_stale in Hmatch. rewrite Hmatch, Hnull.
  cbn [TileItem.tile TileItem.with_tile TileItem.m_renderTask TileItem.set_obsoletePixmap
       TileItem.pixmapKey TileItem.parentPage TileItem.parent TileItem.m_rect
       TileItem.s_cache].
  split; intros ->; cbn [andb].
  - destruct (RenderTask.wasCanceledForcibly _) eqn:Hforced; cbn [negb].
    + assert (Hcanceled : RenderTask.wasCanceled (TileItem.m_renderTask (TileItem.tile w))
                          = true).
      { unfold RenderTask.wasCanceledForcibly, RenderTask.wasCanceled in *.
        apply Z.eqb_eq in Hforced. rewrite Hforced. reflexivity. }
      rewrite Hcanceled. cbn. repeat split; try discriminate.
      unfold RenderTask.wasCanceledForcibly, loadWasCanceled, QAtomicInt.load in Hforced.
      intros E. rewrite E in Hforced. discriminate.
    + cbn. split; [reflexivity|]. split; [|split]; try discriminate.
      * intros _. split; [reflexivity|]. intros Hle. now apply insert_contains.
      * reflexivity.
  - destruct (RenderTask.wasCanceled _); cbn; repeat split; try discriminate; reflexivity.
Qed.

Lemma imageReady_delivery_witness :
  QCache.contains
    (TileItem.s_cache
       (TileItem.on_renderTask_imageReady (Samples.param (qreal_of_int 1) (qreal_of_int 1))
          (QRect.make 0 0 1024 1024) true Samples.rendered (Samples.worldAt 0)))
    (TileItem.pixmapKey (TileItem.tile (Samples.worldAt 0))) = true.
Proof.
  refine (proj2 (proj1 (proj2 (proj1
            (imageReady_delivery (Samples.param (qreal_of_int 1) (qreal_of_int 1))
               (QRect.make 0 0 1024 1024) true Samples.rendered (Samples.worldAt 0)
               _ _) _)) _) _).
  - reflexivity.
  - reflexivity.
  - reflexivity.
  - reflexivity.
  - vm_compute. discriminate.
Defined.

(** C4: an event whose parameters or region differ from those of the tile
    changes nothing: the pixmap, the obsolete pixmap, the error flag and
    the shared cache are as before, and so is the rest of the world. *)
Theorem stale_event_discarded (renderParam : RenderParam) (rect : QRect.t) (prefetch : bool)
    (image : QImage.t) (w : TileItem.World) :
  RenderParam_neq (PageItem.m_renderParam (TileItem.parentPage (TileItem.tile w)))
                  renderParam = true
  \/ QRect.neq (TileItem.m_rect (TileItem.tile w)) rect = true ->
  let w' := TileItem.on_renderTask_imageReady renderParam rect prefetch image w in
  w' = w
  /\ TileItem.m_pixmap (TileItem.tile w') = TileItem.m_pixmap (TileItem.tile w)
  /\ TileItem.m_obsoletePixmap (TileItem.tile w') = TileItem.m_obsoletePixmap (TileItem.tile w)
  /\ TileItem.m_pixmapError (TileItem.tile w') = TileItem.m_pixmapError (TileItem.tile w)
  /\ TileItem.s_cache w' = TileItem.s_cache w.
Proof.
  intros Hstale. cbv zeta.
  assert (E : TileItem.on_renderTask_imageReady renderParam rect prefetch image w = w).
  { unfold TileItem.on_renderTask_imageReady.
    replace (_ || _) with true; [reflexivity|].
    symmetry. apply orb_true_iff. exact Hstale. }
  rewrite E. repeat split.
Qed.

Lemma stale_event_discarded_witness :
  TileItem.on_renderTask_imageReady (Samples.param (qreal_of_int 1) (qreal_of_int 1))
    (QRect.make 0 0 1024 1024) true Samples.rendered Samples.staleWorld
  = Samples.staleWorld.
Proof.
  refine (proj1 (stale_event_discarded (Samples.param (qreal_of_int 1) (qreal_of_int 1))
                   (QRect.make 0 0 1024 1024) true Samples.rendered Samples.staleWorld _)).
  left. vm_compute. reflexivity.
Defined.

(** ** Starting a render *)

Lemma render_declined_iff (w : TileItem.World) (prefetch : bool) :
  render_declined w prefetch = true <->
  (TileItem.m_pixmapError (TileItem.tile w) = true
   \/ RenderTask.isRunning (TileItem.m_renderTask (TileItem.tile w)) = true
   \/ (prefetch = true
       /\ QCache.contains (TileItem.s_cache w) (TileItem.pixmapKey (TileItem.tile w)) = true)).
Proof. unfold render_declined. rewrite !orb_true_iff, andb_true_iff. tauto. Qed.

Lemma startRender_declines (qt : QtVersion) (prefetch : bool) (w : TileItem.World) :
  render_declined w prefetch = true -> TileItem.startRender qt prefetch w = (0, w).
Proof.
  intros H. unfold TileItem.startRender. fold (render_declined w prefetch).
  now rewrite H.
Qed.

Lemma startRender_starts (qt : QtVersion) (prefetch : bool) (w : TileItem.World) :
  render_declined w prefetch = false ->
  TileItem.startRender qt prefetch w
  = (1, TileItem.mkWorld
          (TileItem.set_renderTask (TileItem.tile w) (launched_task w prefetch))
          (TileItem.s_cache w) (TileItem.s_settings w)
          (TileItem.threadPool w ++ [launched_task w prefetch])%list).
Proof.
  intros H. unfold TileItem.startRender. fold (render_declined w prefetch).
  rewrite H. unfold RenderTask.start, launched_task.
  now rewrite resetCancellation_value.
Qed.

(** C8: [startRender] answers 0 and leaves the world as it is, no task
    launched, when the tile has its error flag set, or its task is running,
    or the call is a prefetch and the cache holds an entry under the key of
    the tile.  Otherwise it answers 1 and hands exactly one task to the
    thread pool: the task of the tile, running, not canceled, with the
    page, the parameters and the rectangle of the tile and the prefetch
    flag of the call; nothing else changes. *)
Theorem startRender_outcome (qt : QtVersion) (prefetch : bool) (w : TileItem.World) :
  (TileItem.m_pixmapError (TileItem.tile w) = true
   \/ RenderTask.isRunning (TileItem.m_renderTask (TileItem.tile w)) = true
   \/ (prefetch = true
       /\ QCache.contains (TileItem.s_cache w) (TileItem.pixmapKey (TileItem.tile w)) = true) ->
   TileItem.startRender qt prefetch w = (0, w))
  /\ (~ (TileItem.m_pixmapError (TileItem.tile w) = true
         \/ RenderTask.isRunning (TileItem.m_renderTask (TileItem.tile w)) = true
         \/ (prefetch = true
             /\ QCache.contains (TileItem.s_cache w) (TileItem.pixmapKey (TileItem.tile w))
                = true)) ->
      TileItem.startRender qt prefetch w
      = (1, TileItem.mkWorld
              (TileItem.set_renderTask (TileItem.tile w) (launched_task w prefetch))
              (TileItem.s_cache w) (TileItem.s_settings w)
              (TileItem.threadPool w ++ [launched_task w prefetch])%list)).
Proof.
  split.
  - intros Hyes. apply startRender_declines, render_declined_iff, Hyes.
  - intros Hno. apply startRender_starts.
    destruct (render_declined w prefetch) eqn:E; [|reflexivity].
    exfalso. apply Hno, render_declined_iff, E.
Qed.

Lemma startRender_outcome_witness :
  TileItem.startRender Qt5_1 false Samples.staleWorld
  = (1, TileItem.mkWorld
          (TileItem.set_renderTask (TileItem.tile Samples.staleWorld)
             (launched_task Samples.staleWorld false))
          (TileItem.s_cache Samples.staleWorld) (TileItem.s_settings Samples.staleWorld)
          (TileItem.threadPool Samples.staleWorld ++ [launched_task Samples.staleWorld false])%list).
Proof.
  apply (proj2 (startRender_outcome Qt5_1 false Samples.staleWorld)).
  vm_compute. intros [H|[H|[H _]]]; discriminate H.
Defined.

(** ** Painting *)

(** C10, as the code has it: when the cache holds no entry under the key
    of the tile and the tile holds no pixmap of its own, [paint] leaves the
    world as [startRender(false)] leaves it, so a tile that is neither in
    error nor rendering has a running on-demand task afterwards, handed to
    the thread pool.  Meanwhile [paint] draws the obsolete pixmap if the
    tile retains one; only without it the progress icon (or, for a tile in
    error, the error icon) is drawn. *)
Theorem paint_starts_render (qt : QtVersion) (topLeft : QPointF.t) (w : TileItem.World) :
  QCache.contains (TileItem.s_cache w) (TileItem.pixmapKey (TileItem.tile w)) = false ->
  QPixmap.isNull (TileItem.m_pixmap (TileItem.tile w)) = true ->
  let ops := fst (TileItem.paint qt topLeft w) in
  let w' := snd (TileItem.paint qt topLeft w) in
  w' = snd (TileItem.startRender qt false w)
  /\ (TileItem.m_pixmapError (TileItem.tile w) = false ->
      RenderTask.isRunning (TileItem.m_renderTask (TileItem.tile w)) = false ->
      TileItem.m_renderTask (TileItem.tile w') = launched_task w false
      /\ TileItem.threadPool w' = (TileItem.threadPool w ++ [launched_task w false])%list)
  /\ (QPixmap.isNull (TileItem.m_obsoletePixmap (TileItem.tile w)) = false ->
      exists op, ops = [op] /\ is_obsolete_drawing w op)
  /\ (QPixmap.isNull (TileItem.m_obsoletePixmap (TileItem.tile w)) = true ->
      exists iconRect,
        ops = [paintIcon (if TileItem.m_pixmapError (TileItem.tile w) then errorIcon
                          else progressIcon) iconRect]).
Proof.
  intros Hmiss Hnone. cbv zeta.
  assert (Htake : TileItem.takePixmap qt w
                  = (QPixmap.Null, snd (TileItem.startRender qt false w))).
  { unfold TileItem.takePixmap. now rewrite Hmiss, Hnone. }
  assert (Hobsolete :
            TileItem.m_obsoletePixmap (TileItem.tile (snd (TileItem.startRender qt false w)))
            = TileItem.m_obsoletePixmap (TileItem.tile w)).
  { unfold TileItem.startRender. destruct (_ || _ || _); reflexivity. }
  assert (Herr : TileItem.m_pixmapError (TileItem.tile (snd (TileItem.startRender qt false w)))
                 = TileItem.m_pixmapError (TileItem.tile w)).
  { unfold TileItem.startRender. destruct (_ || _ || _); reflexivity. }
  split; [now rewrite paint_world, Htake|]. split.
  - intros Herror Hidle. rewrite paint_world, Htake. cbn [snd].
    rewrite startRender_starts; [split; reflexivity|].
    unfold render_declined. now rewrite Herror, Hidle.
  - unfold TileItem.paint. rewrite Htake. cbn [QPixmap.isNull negb].
    rewrite Hobsolete, Herr. split.
    + intros Hobs. rewrite Hobs. cbn [negb fst]. eexists. split; [reflexivity|].
      unfold is_obsolete_drawing. eauto.
    + intros Hobs. rewrite Hobs. cbn [negb].
      destruct (TileItem.m_pixmapError (TileItem.tile w)); cbn [negb fst]; eauto.
Qed.

Lemma paint_starts_render_witness :
  snd (TileItem.paint Qt5_1 Samples.origin Samples.staleWorld)
  = snd (TileItem.startRender Qt5_1 false Samples.staleWorld).
Proof.
  apply (paint_starts_render Qt5_1 Samples.origin Samples.staleWorld); reflexivity.
Defined.

(** C10 as stated does not hold: the sample tile is neither in error nor
    rendering, has no cache entry and no pixmap of its own, and [paint]
    starts its render, yet what is drawn is the obsolete pixmap, not the
    progress icon. *)
Lemma paint_draws_obsolete_not_progress :
  QCache.contains (TileItem.s_cache Samples.staleWorld)
    (TileItem.pixmapKey (TileItem.tile Samples.staleWorld)) = false
  /\ QPixmap.isNull (TileItem.m_pixmap (TileItem.tile Samples.staleWorld)) = true
  /\ TileItem.m_pixmapError (TileItem.tile Samples.staleWorld) = false
  /\ RenderTask.isRunning (TileItem.m_renderTask (TileItem.tile Samples.staleWorld)) = false
  /\ RenderTask.isRunning
       (TileItem.m_renderTask
          (TileItem.tile (snd (TileItem.paint Qt5_1 Samples.origin Samples.staleWorld))))
     = true
  /\ existsb is_progressIcon (fst (TileItem.paint Qt5_1 Samples.origin Samples.staleWorld))
     = false
  /\ fst (TileItem.paint Qt5_1 Samples.origin Samples.staleWorld)
     = [drawPixmap_in
          (QRectF.translated (QRectF.ofRect (QRect.make 0 0 1024 1024)) Samples.origin)
          (QPixmap.fromImage Samples.rendered) QRectF.null].
Proof. repeat split. Qed.

(* ================================================================== *)
(** * Part III: further properties of the two files *)
(* ================================================================== *)

(** ** The scans of the margin trimmer *)

Lemma all_below_false (fuel : nat) (i bound : Z) (keep : Z -> bool) :
  (Z.to_nat (bound - i) <= fuel)%nat ->
  all_below fuel i bound keep = false <-> (exists j, i <= j < bound /\ keep j = false).
Proof.
  revert i. induction fuel as [|fuel IH]; intros i Hfuel; cbn [all_below].
  - split; [discriminate|]. intros (j & Hj & _). lia.
  - destruct (Z.ltb_spec i bound) as [Hlt|Hge].
    + destruct (keep i) eqn:Hi.
      * rewrite IH by lia. split.
        -- intros (j & Hj & Hk). exists j. split; [lia|assumption].
        -- intros (j & Hj & Hk). exists j. split; [|assumption].
           destruct (Z.eq_dec j i) as [->|]; [congruence|lia].
      * split; [|reflexivity]. intros _. exists i. split; [lia|assumption].
    + split; [discriminate|]. intros (j & Hj & _). lia.
Qed.

(** Where an upward scan with enough fuel stops. *)
Lemma scan_up_result (fuel : nat) (i bound : Z) (margin : Z -> bool) :
  i <= bound -> (Z.to_nat (bound - i) <= fuel)%nat ->
  let k := scan_up fuel i bound margin in
  i <= k <= bound
  /\ (forall j, i <= j < k -> margin j = true)
  /\ (k < bound -> margin k = false).
Proof.
  revert i. induction fuel as [|fuel IH]; intros i Hle Hfuel; cbn [scan_up]; cbv zeta.
  - split; [lia|]. split; [intros j Hj; lia|lia].
  - destruct (Z.ltb_spec i bound) as [Hlt|Hge].
    + destruct (margin i) eqn:Hi.
      * destruct (IH (i + 1) ltac:(lia) ltac:(lia)) as (H1 & H2 & H3).
        split; [lia|]. split; [|assumption].
        intros j Hj. destruct (Z.eq_dec j i) as [->|]; [assumption|apply H2; lia].
      * split; [lia|]. split; [intros j Hj; lia|intros _; assumption].
    + split; [lia|]. split; [intros j Hj; lia|lia].
Qed.

(** Where a downward scan with enough fuel stops. *)
Lemma scan_down_result (fuel : nat) (i bound : Z) (margin : Z -> bool) :
  bound - 1 <= i -> (Z.to_nat (i - bound + 1) <= fuel)%nat ->
  let k := scan_down fuel i bound margin in
  bound - 1 <= k <= i
  /\ (forall j, k < j <= i -> margin j = true)
  /\ (bound <= k -> margin k = false).
Proof.
  revert i. induction fuel as [|fuel IH]; intros i Hle Hfuel; cbn [scan_down]; cbv zeta.
  - split; [lia|]. split; [intros j Hj; lia|lia].
  - destruct (Z.geb_spec i bound) as [Hge|Hlt].
    + destruct (margin i) eqn:Hi.
      * destruct (IH (i - 1) ltac:(lia) ltac:(lia)) as (H1 & H2 & H3).
        split; [lia|]. split; [|assumption].
        intros j Hj. destruct (Z.eq_dec j i) as [->|]; [assumption|apply H2; lia].
      * split; [lia|]. split; [intros j Hj; lia|intros _; assumption].
    + split; [lia|]. split; [intros j Hj; lia|lia].
Qed.

(** X1: [columnHasPaperColor] answers true exactly when every pixel of
    the column, over the whole height of the image, passes for the paper
    color, and false exactly when some pixel of the column does not. *)
Theorem columnHasPaperColor_correct (x : Z) (paperColor : QColor.t) (image : QImage.t) :
  (columnHasPaperColor x paperColor image = true <->
   forall y, 0 <= y < QImage.height image -> paper_at paperColor image x y = true)
  /\ (columnHasPaperColor x paperColor image = false <->
      exists y, 0 <= y < QImage.height image /\ paper_at paperColor image x y = false).
Proof.
  split; unfold columnHasPaperColor.
  - apply all_below_iff. lia.
  - apply all_below_false. lia.
Qed.

(** X2: [rowHasPaperColor] answers true exactly when every pixel of the
    row, over the whole width of the image, passes for the paper color,
    and false exactly when some pixel of the row does not. *)
Theorem rowHasPaperColor_correct (y : Z) (paperColor : QColor.t) (image : QImage.t) :
  (rowHasPaperColor y paperColor image = true <->
   forall x, 0 <= x < QImage.width image -> paper_at paperColor image x y = true)
  /\ (rowHasPaperColor y paperColor image = false <->
      exists x, 0 <= x < QImage.width image /\ paper_at paperColor image x y = false).
Proof.
  split; unfold rowHasPaperColor.
  - apply all_below_iff. lia.
  - apply all_below_false. lia.
Qed.

(** The crop box is the rounding of the four scanned bounds. *)
Lemma trimMargins_of_scans (paperColor : QColor.t) (image : QImage.t) :
  QImage.isNull image = false ->
  trimMargins paperColor image
  = QRectF.make
      (roundDown (qdiv (qreal_of_int (scannedLeft paperColor image))
                       (qreal_of_int (QImage.width image)))
                 cropBoxPrecision cropBoxTolerance)
      (roundDown (qdiv (qreal_of_int (scannedTop paperColor image))
                       (qreal_of_int (QImage.height image)))
                 cropBoxPrecision cropBoxTolerance)
      (roundUp (qdiv (qreal_of_int (scannedRight paperColor image
                                    - scannedLeft paperColor image + 1))
                     (qreal_of_int (QImage.width image)))
               cropBoxPrecision cropBoxTolerance)
      (roundUp (qdiv (qreal_of_int (scannedBottom paperColor image
                                    - scannedTop paperColor image + 1))
                     (qreal_of_int (QImage.height image)))
               cropBoxPrecision cropBoxTolerance).
Proof. intros Hnull. unfold trimMargins. rewrite Hnull. reflexivity. Qed.

(** X3: the columns [trimMargins] scans for.  [left] lies in
    [0 .. width], all columns before it are paper and, unless it reached
    the width, the column [left] holds a pixel that is not; [right] lies in
    [left - 1 .. width - 1], all columns after it are paper and, unless it
    fell below [left], the column [right] holds a pixel that is not.  So
    the number of columns kept, [right - left + 1], is never negative and
    never more than the width. *)
Theorem scanned_columns (paperColor : QColor.t) (image : QImage.t) :
  0 <= QImage.width image ->
  let width := QImage.width image in
  let left := scannedLeft paperColor image in
  let right := scannedRight paperColor image in
  0 <= left <= width
  /\ left - 1 <= right <= width - 1
  /\ (forall x, 0 <= x < left -> columnHasPaperColor x paperColor image = true)
  /\ (left < width -> columnHasPaperColor left paperColor image = false)
  /\ (forall x, right < x < width -> columnHasPaperColor x paperColor image = true)
  /\ (left <= right -> columnHasPaperColor right paperColor image = false)
  /\ 0 <= right - left + 1 <= width.
Proof.
  intros Hw. cbv zeta.
  pose proof (scan_up_result (Z.to_nat (QImage.width image)) 0 (QImage.width image)
                (fun x => columnHasPaperColor x paperColor image) Hw ltac:(lia)) as Hup.
  cbv zeta in Hup. fold (scannedLeft paperColor image) in Hup.
  destruct Hup as (Hl1 & Hl2 & Hl3).
  pose proof (scan_down_result
                (Z.to_nat (QImage.width image - scannedLeft paperColor image))
                (QImage.width image - 1) (scannedLeft paperColor image)
                (fun x => columnHasPaperColor x paperColor image)
                ltac:(lia) ltac:(lia)) as Hdown.
  cbv zeta in Hdown. fold (scannedRight paperColor image) in Hdown.
  destruct Hdown as (Hr1 & Hr2 & Hr3).
  split; [assumption|]. split; [assumption|]. split; [assumption|].
  split; [assumption|]. split; [intros x Hx; apply Hr2; lia|].
  split; [assumption|lia].
Qed.

Lemma scanned_columns_witness :
  0 <= scannedRight QColor.white Samples.framed - scannedLeft QColor.white Samples.framed + 1
    <= QImage.width Samples.framed.
Proof.
  apply (scanned_columns QColor.white Samples.framed). simpl. lia.
Defined.

(** X4: the rows [trimMargins] scans for: the same for [top] and
    [bottom] against the height. *)
Theorem scanned_rows (paperColor : QColor.t) (image : QImage.t) :
  0 <= QImage.height image ->
  let height := QImage.height image in
  let top := scannedTop paperColor image in
  let bottom := scannedBottom paperColor image in
  0 <= top <= height
  /\ top - 1 <= bottom <= height - 1
  /\ (forall y, 0 <= y < top -> rowHasPaperColor y paperColor image = true)
  /\ (top < height -> rowHasPaperColor top paperColor image = false)
  /\ (forall y, bottom < y < height -> rowHasPaperColor y paperColor image = true)
  /\ (top <= bottom -> rowHasPaperColor bottom paperColor image = false)
  /\ 0 <= bottom - top + 1 <= height.
Proof.
  intros Hh. cbv zeta.
  pose proof (scan_up_result (Z.to_nat (QImage.height image)) 0 (QImage.height image)
                (fun y => rowHasPaperColor y paperColor image) Hh ltac:(lia)) as Hup.
  cbv zeta in Hup. fold (scannedTop paperColor image) in Hup.
  destruct Hup as (Ht1 & Ht2 & Ht3).
  pose proof (scan_down_result
                (Z.to_nat (QImage.height image - scannedTop paperColor image))
                (QImage.height image - 1) (scannedTop paperColor image)
                (fun y => rowHasPaperColor y paperColor image)
                ltac:(lia) ltac:(lia)) as Hdown.
  cbv zeta in Hdown. fold (scannedBottom paperColor image) in Hdown.
  destruct Hdown as (Hb1 & Hb2 & Hb3).
  split; [assumption|]. split; [assumption|]. split; [assumption|].
  split; [assumption|]. split; [intros y Hy; apply Hb2; lia|].
  split; [assumption|lia].
Qed.

Lemma scanned_rows_witness :
  0 <= scannedBottom QColor.white Samples.dotted - scannedTop QColor.white Samples.dotted + 1
    <= QImage.height Samples.dotted.
Proof.
  apply (scanned_rows QColor.white Samples.dotted). simpl. lia.
Defined.

(** ** Crop boxes at the edges *)

Lemma roundDown_zero :
  roundDown (qreal_of_int 0) cropBoxPrecision cropBoxTolerance = qreal_of_int 0.
Proof. vm_compute. reflexivity. Qed.

Lemma roundUp_one :
  roundUp (qreal_of_int 1) cropBoxPrecision cropBoxTolerance = literal 105 100.
Proof. vm_compute. reflexivity. Qed.

(** An image whose outermost columns and rows are not paper. *)
Lemma trimMargins_outermost (paperColor : QColor.t) (image : QImage.t) :
  QImage.isNull image = false ->
  0 < QImage.width image < 2 ^ 31 ->
  0 < QImage.height image < 2 ^ 31 ->
  columnHasPaperColor 0 paperColor image = false ->
  columnHasPaperColor (QImage.width image - 1) paperColor image = false ->
  rowHasPaperColor 0 paperColor image = false ->
  rowHasPaperColor (QImage.height image - 1) paperColor image = false ->
  trimMargins paperColor image = untrimmed_cropBox.
Proof.
  intros Hnull Hw Hh Hc0 Hc1 Hr0 Hr1. unfold trimMargins. rewrite Hnull.
  set (w := QImage.width image) in *. set (h := QImage.height image) in *.
  rewrite (scan_up_stops (Z.to_nat w) 0 0 w) by (try assumption; lia).
  rewrite (scan_up_stops (Z.to_nat h) 0 0 h) by (try assumption; lia).
  rewrite (scan_down_stops _ (w - 1) (w - 1) 0) by (try assumption; lia).
  rewrite (scan_down_stops _ (h - 1) (h - 1) 0) by (try assumption; lia).
  replace (w - 1 - 0 + 1) with w by lia. replace (h - 1 - 0 + 1) with h by lia.
  assert (2 ^ 31 < 2 ^ 53) by (apply Z.pow_lt_mono_r; lia).
  rewrite !qdiv_int_self, !qdiv_zero_int by lia.
  now rewrite roundDown_zero, roundUp_one.
Qed.

(** X5: an image without margins is not reported as the unit rectangle:
    when the first and the last column and the first and the last row each
    hold a pixel that is not paper, the crop box is (0, 0, 1.05, 1.05),
    the tolerance of [roundUp] widening it beyond the image. *)
Theorem trimMargins_without_margins (paperColor : QColor.t) (image : QImage.t) :
  QImage.isNull image = false ->
  0 < QImage.width image < 2 ^ 31 ->
  0 < QImage.height image < 2 ^ 31 ->
  (exists y, 0 <= y < QImage.height image /\ paper_at paperColor image 0 y = false) ->
  (exists y, 0 <= y < QImage.height image
             /\ paper_at paperColor image (QImage.width image - 1) y = false) ->
  (exists x, 0 <= x < QImage.width image /\ paper_at paperColor image x 0 = false) ->
  (exists x, 0 <= x < QImage.width image
             /\ paper_at paperColor image x (QImage.height image - 1) = false) ->
  trimMargins paperColor image
  = QRectF.make (qreal_of_int 0) (qreal_of_int 0) (literal 105 100) (literal 105 100).
Proof.
  intros Hnull Hw Hh (y0 & Hy0 & H0) (y1 & Hy1 & H1) (x0 & Hx0 & H2) (x1 & Hx1 & H3).
  apply trimMargins_outermost; try assumption.
  - now apply (columnHasPaperColor_false 0 y0).
  - now apply (columnHasPaperColor_false _ y1).
  - now apply (rowHasPaperColor_false x0 0).
  - now apply (rowHasPaperColor_false x1).
Qed.

Lemma trimMargins_without_margins_witness :
  trimMargins QColor.white Samples.grey
  = QRectF.make (qreal_of_int 0) (qreal_of_int 0) (literal 105 100) (literal 105 100).
Proof.
  apply trimMargins_without_margins.
  - reflexivity.
  - simpl. lia.
  - simpl. lia.
  - exists 0. split; [simpl; lia|reflexivity].
  - exists 0. split; [simpl; lia|reflexivity].
  - exists 0. split; [simpl; lia|reflexivity].
  - exists 0. split; [simpl; lia|reflexivity].
Defined.

(** Inversion flips the lowest bit of the blue channel, so no pixel keeps
    its colour. *)
Lemma inverted_blue_differs (p : Z) :
  Z.land (Z.lxor p 16777215) 255 <> Z.land p 255.
Proof.
  intros E. assert (B : Z.testbit (Z.land (Z.lxor p 16777215) 255) 0
                        = Z.testbit (Z.land p 255) 0) by now rewrite E.
  rewrite !Z.land_spec, Z.lxor_spec in B.
  change (Z.testbit 16777215 0) with true in B. change (Z.testbit 255 0) with true in B.
  destruct (Z.testbit p 0); discriminate B.
Qed.

Lemma inverted_is_not_paper (paperColor : QColor.t) (image : QImage.t) (x y : Z) :
  QImage.isNull image = false ->
  paper_at paperColor image x y = true ->
  paper_at paperColor (QImage.invertPixels image) x y = false.
Proof.
  destruct image as [|w h d r px]; [discriminate|]. intros _.
  unfold paper_at, QColor.neq, QColor.eqb, QColor.fromRgb. cbn.
  rewrite !negb_involutive, !andb_true_iff, !Z.eqb_eq.
  intros (_ & Hblue).
  rewrite !andb_false_iff, !Z.eqb_neq. right.
  rewrite Hblue. intros E. symmetry in E. now apply inverted_blue_differs in E.
Qed.

Lemma setDevicePixelRatio_pixels (image : QImage.t) (r : qreal) :
  QImage.isNull (QImage.setDevicePixelRatio image r) = QImage.isNull image
  /\ QImage.width (QImage.setDevicePixelRatio image r) = QImage.width image
  /\ QImage.height (QImage.setDevicePixelRatio image r) = QImage.height image
  /\ (forall c x y, paper_at c (QImage.setDevicePixelRatio image r) x y = paper_at c image x y).
Proof. destruct image; repeat split. Qed.

Lemma invertPixels_geometry (image : QImage.t) :
  QImage.isNull (QImage.invertPixels image) = QImage.isNull image
  /\ QImage.width (QImage.invertPixels image) = QImage.width image
  /\ QImage.height (QImage.invertPixels image) = QImage.height image.
Proof. destruct image; repeat split. Qed.

(** An image all of paper has, once inverted, nothing of paper left. *)
Lemma trimMargins_inverted (paperColor : QColor.t) (image : QImage.t) :
  QImage.isNull image = false ->
  0 < QImage.width image < 2 ^ 31 ->
  0 < QImage.height image < 2 ^ 31 ->
  (forall x y, 0 <= x < QImage.width image -> 0 <= y < QImage.height image ->
               paper_at paperColor image x y = true) ->
  trimMargins paperColor (QImage.invertPixels image) = untrimmed_cropBox.
Proof.
  intros Hnull Hw Hh Hpaper.
  destruct (invertPixels_geometry image) as (Einull & Eiw & Eih).
  assert (Hnot : forall x y, 0 <= x < QImage.width image -> 0 <= y < QImage.height image ->
                   paper_at paperColor (QImage.invertPixels image) x y = false).
  { intros x y Hx Hy. apply inverted_is_not_paper; auto. }
  apply trimMargins_outermost; rewrite ?Einull, ?Eiw, ?Eih; try assumption.
  - apply (columnHasPaperColor_false 0 0); [rewrite Eih; lia|apply Hnot; lia].
  - apply (columnHasPaperColor_false _ 0); [rewrite Eih; lia|apply Hnot; lia].
  - apply (rowHasPaperColor_false 0 0); [rewrite Eiw; lia|apply Hnot; lia].
  - apply (rowHasPaperColor_false 0); [rewrite Eiw; lia|apply Hnot; lia].
Qed.

(** X6: a run with [invertColors] computes the crop box from the
    inverted image, still against white: for a page that renders to a
    non-empty image all white, a run that is not canceled delivers the
    inverted image and the crop box (0, 0, 1.05, 1.05), no margin
    trimmed (without inversion the same page gives (0.95, 0.95, 0, 0)). *)
Theorem inverted_run_trims_nothing (qt : QtVersion) (canceledAt : nat -> QAtomicInt.t)
    (task : RenderTask.t) (image : QImage.t) :
  Page.render (RenderTask.m_page task)
    (scaledResolutionX (RenderTask.m_renderParam task))
    (scaledResolutionY (RenderTask.m_renderParam task))
    (rotation (RenderTask.m_renderParam task)) (RenderTask.m_rect task) = image ->
  invertColors (RenderTask.m_renderParam task) = true ->
  QImage.isNull image = false ->
  0 < QImage.width image < 2 ^ 31 ->
  0 < QImage.height image < 2 ^ 31 ->
  (forall x y, 0 <= x < QImage.width image -> 0 <= y < QImage.height image ->
               paper_at QColor.white image x y = true) ->
  (forall k, canceled_at_checkpoint qt canceledAt task k = false) ->
  fst (RenderTask.run qt canceledAt task)
  = [imageReady_of qt task;
     cropBoxReady (RenderTask.m_renderParam task) (RenderTask.m_rect task)
       (QRectF.make (qreal_of_int 0) (qreal_of_int 0) (literal 105 100) (literal 105 100));
     finished].
Proof.
  intros Hrender Hinv Hnull Hw Hh Hpaper Hgo.
  rewrite run_trace, !Hgo. unfold cropBoxReady_of. do 3 f_equal.
  unfold delivered_image. rewrite Hrender, Hinv.
  set (tagged := match qt with
                 | Qt5_1 => QImage.setDevicePixelRatio image _
                 | _ => image
                 end).
  assert (Htag : QImage.isNull tagged = false
                 /\ QImage.width tagged = QImage.width image
                 /\ QImage.height tagged = QImage.height image
                 /\ (forall x y, paper_at QColor.white tagged x y
                                 = paper_at QColor.white image x y)).
  { subst tagged. destruct qt; try (repeat split; assumption).
    destruct (setDevicePixelRatio_pixels image
                (devicePixelRatio (resolution (RenderTask.m_renderParam task))))
      as (E1 & E2 & E3 & E4).
    rewrite E1, E2, E3. repeat split; auto. }
  destruct Htag as (T1 & T2 & T3 & T4).
  apply trimMargins_inverted; rewrite ?T2, ?T3; try assumption.
  intros x y Hx Hy. rewrite T4. now apply Hpaper.
Qed.

Lemma inverted_run_trims_nothing_witness :
  fst (RenderTask.run Qt5_1 (fun _ => NotCanceled) Samples.invertedTask)
  = [imageReady_of Qt5_1 Samples.invertedTask;
     cropBoxReady Samples.invertedParam (QRect.make 0 0 1024 1024)
       (QRectF.make (qreal_of_int 0) (qreal_of_int 0) (literal 105 100) (literal 105 100));
     finished].
Proof.
  apply (inverted_run_trims_nothing Qt5_1 (fun _ => NotCanceled) Samples.invertedTask
           Samples.rendered).
  - reflexivity.
  - reflexivity.
  - reflexivity.
  - simpl. lia.
  - simpl. lia.
  - intros x y _ _. reflexivity.
  - intros k. reflexivity.
Defined.

(** X7: a render that fails.  When the page hands back a null image and
    no checkpoint sees a cancellation, the run still emits all three
    signals: [imageReady] with the null image, [cropBoxReady] with the
    unit rectangle (0, 0, 1, 1), then [finished]. *)
Theorem failed_render_trace (qt : QtVersion) (canceledAt : nat -> QAtomicInt.t)
    (task : RenderTask.t) :
  Page.render (RenderTask.m_page task)
    (scaledResolutionX (RenderTask.m_renderParam task))
    (scaledResolutionY (RenderTask.m_renderParam task))
    (rotation (RenderTask.m_renderParam task)) (RenderTask.m_rect task) = QImage.Null ->
  (forall k, canceled_at_checkpoint qt canceledAt task k = false) ->
  fst (RenderTask.run qt canceledAt task)
  = [imageReady (RenderTask.m_renderParam task) (RenderTask.m_rect task)
       (RenderTask.m_prefetch task) QImage.Null;
     cropBoxReady (RenderTask.m_renderParam task) (RenderTask.m_rect task)
       (QRectF.make (qreal_of_int 0) (qreal_of_int 0) (qreal_of_int 1) (qreal_of_int 1));
     finished].
Proof.
  intros Hrender Hgo. rewrite run_trace, !Hgo.
  assert (Himage : delivered_image qt task = QImage.Null).
  { unfold delivered_image. rewrite Hrender.
    destruct qt, (invertColors (RenderTask.m_renderParam task)); reflexivity. }
  unfold imageReady_of, cropBoxReady_of. now rewrite Himage.
Qed.

Lemma failed_render_trace_witness :
  fst (RenderTask.run Qt4 (fun _ => NotCanceled) Samples.demandTask)
  = [imageReady (Samples.param (qreal_of_int 1) (qreal_of_int 1)) (QRect.make 0 0 256 256)
       false QImage.Null;
     cropBoxReady (Samples.param (qreal_of_int 1) (qreal_of_int 1)) (QRect.make 0 0 256 256)
       (QRectF.make (qreal_of_int 0) (qreal_of_int 0) (qreal_of_int 1) (qreal_of_int 1));
     finished].
Proof.
  apply (failed_render_trace Qt4 (fun _ => NotCanceled) Samples.demandTask).
  - reflexivity.
  - intros k. reflexivity.
Defined.

(** ** The cancellation flag *)

(** X8: the two variants of [testCancellation] behind [#if QT_VERSION]
    agree: the test-and-set of Qt 4 gives the answer of the plain load of
    Qt 5 for every value of the flag, and it leaves the flag as it was. *)
Theorem testCancellation_versions_agree (wasCanceled : QAtomicInt.t) (prefetch : bool) :
  testCancellation Qt4 wasCanceled prefetch = testCancellation Qt5_0 wasCanceled prefetch
  /\ testCancellation Qt5_0 wasCanceled prefetch = testCancellation Qt5_1 wasCanceled prefetch
  /\ snd (testCancellation Qt4 wasCanceled prefetch) = wasCanceled.
Proof. rewrite !testCancellation_answer. repeat split. Qed.

(** X9: [cancel] and the three queries.  After [cancel(force)] the task
    reports [wasCanceled], and [wasCanceledForcibly] exactly when [force],
    [wasCanceledNormally] exactly when not; of two cancellations the later
    one decides, so a normal cancellation after a forced one leaves the
    task canceled normally; [start] resets the flag and marks the task
    running; [cancel] does not touch the running flag. *)
Theorem cancel_and_queries (qt : QtVersion) (task : RenderTask.t) (force again : bool)
    (page : Page.t) (renderParam : RenderParam) (rect : QRect.t) (prefetch : bool) :
  let canceled := RenderTask.cancel qt task force in
  let started := RenderTask.start qt canceled page renderParam rect prefetch in
  RenderTask.wasCanceled canceled = true
  /\ RenderTask.wasCanceledForcibly canceled = force
  /\ RenderTask.wasCanceledNormally canceled = negb force
  /\ RenderTask.cancel qt canceled again = RenderTask.cancel qt task again
  /\ RenderTask.isRunning canceled = RenderTask.isRunning task
  /\ RenderTask.wasCanceled started = false
  /\ RenderTask.isRunning started = true.
Proof.
  cbv zeta. unfold RenderTask.wasCanceled, RenderTask.wasCanceledForcibly,
    RenderTask.wasCanceledNormally, RenderTask.cancel, RenderTask.start,
    RenderTask.set_wasCanceled, RenderTask.isRunning.
  cbn [RenderTask.m_wasCanceled RenderTask.m_isRunning RenderTask.m_page
       RenderTask.m_renderParam RenderTask.m_rect RenderTask.m_prefetch].
  rewrite !setCancellation_value, resetCancellation_value.
  destruct force; repeat split.
Qed.

(** X10: a run writes nothing but the running flag: whatever the
    checkpoints see, the task it leaves is the task it found with
    [m_isRunning] cleared, so the cancellation flag and the parameters of
    the request are still there for the handlers of its signals. *)
Theorem run_only_clears_running (qt : QtVersion) (canceledAt : nat -> QAtomicInt.t)
    (task : RenderTask.t) :
  snd (RenderTask.run qt canceledAt task) = RenderTask.set_isRunning task false.
Proof.
  unfold RenderTask.run, RenderTask.trimMargins_requested.
  repeat match goal with
         | |- context [if ?c then _ else _] => destruct c
         end; reflexivity.
Qed.

(** ** More of the cache *)

Lemma unlink_key_absent (k : CacheKey) (tot : Z) (ns : list QCache.node) :
  existsb (QCache.has_key k) ns = false -> QCache.unlink_key k tot ns = (tot, ns).
Proof.
  induction ns as [|n ns IH]; cbn [existsb QCache.unlink_key]; [reflexivity|].
  intros H. apply orb_false_iff in H as [Hn Hns]. rewrite Hn, (IH Hns). reflexivity.
Qed.

Lemma remove_absent (c : QCache.t) (k : CacheKey) :
  QCache.contains c k = false -> QCache.remove c k = c.
Proof.
  intros H. unfold QCache.remove. rewrite (unlink_key_absent k _ _ H). now destruct c.
Qed.

(** An object dearer than the maximum, under a key that is not there,
    leaves the cache as it was. *)
Lemma insert_rejected (c : QCache.t) (k : CacheKey) (o : QPixmap.t) (acost : Z) :
  QCache.contains c k = false -> QCache.mx c < acost ->
  QCache.insert c k o acost = (false, c).
Proof.
  intros Habsent Hcost. unfold QCache.insert. rewrite (remove_absent c k Habsent).
  destruct (Z.gtb_spec acost (QCache.mx c)); [reflexivity|lia].
Qed.

Lemma has_key_refl (k : CacheKey) (o : QPixmap.t) (acost : Z) :
  QCache.has_key k (QCache.mkNode k o acost) = true.
Proof.
  unfold QCache.has_key, CacheKey_eqb. cbn [QCache.key].
  now rewrite Z.eqb_refl, String.eqb_refl.
Qed.

(** What was just inserted is handed out again, and the cache stays as
    it is: the node is at the front already. *)
Lemma object_after_insert (c : QCache.t) (k : CacheKey) (o : QPixmap.t) (acost : Z) :
  acost <= QCache.mx c ->
  QCache.object (snd (QCache.insert c k o acost)) k
  = (Some o, snd (QCache.insert c k o acost)).
Proof.
  intros Hle. unfold QCache.insert.
  assert (Hmx : QCache.mx (QCache.remove c k) = QCache.mx c).
  { unfold QCache.remove. now destruct (QCache.unlink_key _ _ _). }
  rewrite Hmx. destruct (Z.gtb_spec acost (QCache.mx c)); [lia|].
  cbn [snd]. unfold QCache.object.
  cbn [QCache.nodes find QCache.unlink_key QCache.mx QCache.total].
  rewrite has_key_refl. cbn [QCache.object_ snd]. reflexivity.
Qed.

Lemma unlink_key_contains (k k' : CacheKey) (tot : Z) (ns : list QCache.node)
    (n : QCache.node) :
  find (QCache.has_key k) ns = Some n ->
  existsb (QCache.has_key k') (n :: snd (QCache.unlink_key k tot ns))
  = existsb (QCache.has_key k') ns.
Proof.
  induction ns as [|n0 ns IH]; cbn [find QCache.unlink_key]; [discriminate|].
  destruct (QCache.has_key k n0).
  - intros [= ->]. reflexivity.
  - intros Hfind. specialize (IH Hfind).
    destruct (QCache.unlink_key k tot ns) as [t' rest']. cbn [snd existsb] in *.
    rewrite <- IH. destruct (QCache.has_key k' n0), (QCache.has_key k' n); reflexivity.
Qed.

(** Handing out an object changes the order of the nodes only. *)
Lemma object_keeps_content (c : QCache.t) (k : CacheKey) :
  QCache.mx (snd (QCache.object c k)) = QCache.mx c
  /\ QCache.total (snd (QCache.object c k)) = QCache.total c
  /\ (forall k', QCache.contains (snd (QCache.object c k)) k' = QCache.contains c k').
Proof.
  unfold QCache.object.
  destruct (find (QCache.has_key k) (QCache.nodes c)) as [n|] eqn:Hfind; cbn [snd].
  - repeat split. intros k'. unfold QCache.contains. cbn [QCache.nodes].
    now apply unlink_key_contains.
  - repeat split.
Qed.

Lemma no_null_unlink (k : CacheKey) (tot : Z) (ns : list QCache.node) :
  Forall (fun n => QPixmap.isNull (QCache.object_ n) = false) ns ->
  Forall (fun n => QPixmap.isNull (QCache.object_ n) = false)
         (snd (QCache.unlink_key k tot ns)).
Proof.
  induction 1 as [|n ns Hn Hns IH]; cbn [QCache.unlink_key]; [constructor|].
  destruct (QCache.has_key k n); [assumption|].
  destruct (QCache.unlink_key k tot ns). cbn [snd] in *. now constructor.
Qed.

Lemma no_null_trim_from_last (m tot : Z) (backwards : list QCache.node) :
  Forall (fun n => QPixmap.isNull (QCache.object_ n) = false) backwards ->
  Forall (fun n => QPixmap.isNull (QCache.object_ n) = false)
         (snd (QCache.trim_from_last m tot backwards)).
Proof.
  intros H. revert tot. induction H as [|n before Hn Hbefore IH]; intros tot;
    cbn [QCache.trim_from_last]; [constructor|].
  destruct (tot >? m); [apply IH|now constructor].
Qed.

Lemma no_null_trim (c : QCache.t) (m : Z) :
  no_null_object c -> no_null_object (QCache.trim c m).
Proof.
  unfold no_null_object, QCache.trim. intros H.
  pose proof (no_null_trim_from_last m (QCache.total c) (rev (QCache.nodes c))
                (Forall_rev H)) as Ht.
  destruct (QCache.trim_from_last _ _ _). cbn [snd QCache.nodes] in *. now apply Forall_rev.
Qed.

Lemma no_null_remove (c : QCache.t) (k : CacheKey) :
  no_null_object c -> no_null_object (QCache.remove c k).
Proof.
  unfold no_null_object, QCache.remove. intros H.
  pose proof (no_null_unlink k (QCache.total c) (QCache.nodes c) H) as Hu.
  destruct (QCache.unlink_key _ _ _). exact Hu.
Qed.

Lemma no_null_insert (c : QCache.t) (k : CacheKey) (o : QPixmap.t) (acost : Z) :
  no_null_object c -> QPixmap.isNull o = false ->
  no_null_object (snd (QCache.insert c k o acost)).
Proof.
  intros Hc Ho. unfold QCache.insert.
  destruct (acost >? QCache.mx (QCache.remove c k)); cbn [snd].
  - now apply no_null_remove.
  - unfold no_null_object. cbn [QCache.nodes]. constructor; [exact Ho|].
    now apply no_null_trim, no_null_remove.
Qed.

Lemma no_null_object_handed (c : QCache.t) (k : CacheKey) :
  no_null_object c ->
  no_null_object (snd (QCache.object c k))
  /\ (forall p, fst (QCache.object c k) = Some p -> QPixmap.isNull p = false).
Proof.
  unfold no_null_object, QCache.object. intros H.
  destruct (find (QCache.has_key k) (QCache.nodes c)) as [n|] eqn:Hfind; cbn [fst snd].
  - assert (Hn : QPixmap.isNull (QCache.object_ n) = false).
    { apply find_some in Hfind as [Hin _]. rewrite Forall_forall in H. now apply H. }
    split.
    + cbn [QCache.nodes]. constructor; [exact Hn|]. now apply no_null_unlink.
    + intros p [= <-]. exact Hn.
  - split; [assumption|discriminate].
Qed.

Lemma fromImage_not_null (image : QImage.t) :
  QImage.isNull image = false -> QPixmap.isNull (QPixmap.fromImage image) = false.
Proof. destruct image; [discriminate|reflexivity]. Qed.

(** ** Failed renders *)

(** X11: a completion event that matches the tile and carries a null
    image marks the tile as failed, whatever the prefetch flag and
    whatever the cancellation state of the task: the error flag is set and
    the obsolete pixmap dropped, while the pixmap, the cache and the thread
    pool stay as they were.  From then on [startRender] declines, for a
    prefetch and on demand alike. *)
Theorem null_image_marks_failure (qt : QtVersion) (renderParam : RenderParam)
    (rect : QRect.t) (prefetch again : bool) (image : QImage.t) (w : TileItem.World) :
  event_is_stale w renderParam rect = false ->
  QImage.isNull image = true ->
  let w' := TileItem.on_renderTask_imageReady renderParam rect prefetch image w in
  TileItem.m_pixmapError (TileItem.tile w') = true
  /\ TileItem.m_obsoletePixmap (TileItem.tile w') = QPixmap.Null
  /\ TileItem.m_pixmap (TileItem.tile w') = TileItem.m_pixmap (TileItem.tile w)
  /\ TileItem.m_renderTask (TileItem.tile w') = TileItem.m_renderTask (TileItem.tile w)
  /\ TileItem.s_cache w' = TileItem.s_cache w
  /\ TileItem.threadPool w' = TileItem.threadPool w
  /\ TileItem.startRender qt again w' = (0, w').
Proof.
  intros Hmatch Hnull. cbv zeta. unfold TileItem.on_renderTask_imageReady.
  unfold event_is_stale in Hmatch. rewrite Hmatch, Hnull.
  repeat split.
Qed.

Lemma null_image_marks_failure_witness :
  TileItem.startRender Qt5_1 false
    (TileItem.on_renderTask_imageReady (Samples.param (qreal_of_int 1) (qreal_of_int 1))
       (QRect.make 0 0 1024 1024) false QImage.Null (Samples.worldAt 0))
  = (0, TileItem.on_renderTask_imageReady (Samples.param (qreal_of_int 1) (qreal_of_int 1))
          (QRect.make 0 0 1024 1024) false QImage.Null (Samples.worldAt 0)).
Proof.
  apply (null_image_marks_failure Qt5_1 (Samples.param (qreal_of_int 1) (qreal_of_int 1))
           (QRect.make 0 0 1024 1024) false false QImage.Null (Samples.worldAt 0));
    reflexivity.
Defined.

Lemma pixmapKey_of_parent_rect (a b : TileItem.t) :
  TileItem.parent a = TileItem.parent b -> TileItem.m_rect a = TileItem.m_rect b ->
  TileItem.pixmapKey a = TileItem.pixmapKey b.
Proof. intros Hp Hr. unfold TileItem.pixmapKey, TileItem.parentPage. now rewrite Hp, Hr. Qed.

(** A tile in error, with nothing to show, is painted as the error icon
    and left alone. *)
Lemma paint_error_icon (qt : QtVersion) (topLeft : QPointF.t) (w : TileItem.World) :
  QCache.contains (TileItem.s_cache w) (TileItem.pixmapKey (TileItem.tile w)) = false ->
  QPixmap.isNull (TileItem.m_pixmap (TileItem.tile w)) = true ->
  QPixmap.isNull (TileItem.m_obsoletePixmap (TileItem.tile w)) = true ->
  TileItem.m_pixmapError (TileItem.tile w) = true ->
  exists iconRect, TileItem.paint qt topLeft w = ([paintIcon errorIcon iconRect], w).
Proof.
  intros Hmiss Hnone Hobs Herr.
  unfold TileItem.paint, TileItem.takePixmap, TileItem.startRender.
  rewrite Hmiss, Hnone, Herr. cbn [negb orb snd QPixmap.isNull].
  rewrite Hobs, Herr. cbn [negb]. eexists. reflexivity.
Qed.

(** X12: a failed tile shows the error icon and is left alone.  After a
    matching event with a null image, on a tile without a pixmap of its
    own and without a cache entry, [paint] draws the error icon and
    nothing else, and changes nothing: no render is started again. *)
Theorem failed_tile_paints_error_icon (qt : QtVersion) (renderParam : RenderParam)
    (rect : QRect.t) (prefetch : bool) (image : QImage.t) (topLeft : QPointF.t)
    (w : TileItem.World) :
  event_is_stale w renderParam rect = false ->
  QImage.isNull image = true ->
  QCache.contains (TileItem.s_cache w) (TileItem.pixmapKey (TileItem.tile w)) = false ->
  QPixmap.isNull (TileItem.m_pixmap (TileItem.tile w)) = true ->
  let w' := TileItem.on_renderTask_imageReady renderParam rect prefetch image w in
  exists iconRect, TileItem.paint qt topLeft w' = ([paintIcon errorIcon iconRect], w').
Proof.
  intros Hmatch Hnull Hmiss Hnone. cbv zeta.
  assert (E : TileItem.on_renderTask_imageReady renderParam rect prefetch image w
              = TileItem.with_tile w
                  (TileItem.set_pixmapError
                     (TileItem.set_obsoletePixmap (TileItem.tile w) QPixmap.Null) true)).
  { unfold TileItem.on_renderTask_imageReady. unfold event_is_stale in Hmatch.
    now rewrite Hmatch, Hnull. }
  rewrite E. apply paint_error_icon; try reflexivity.
  - cbn [TileItem.s_cache TileItem.with_tile TileItem.tile].
    rewrite <- Hmiss. reflexivity.
  - exact Hnone.
Qed.

Lemma failed_tile_paints_error_icon_witness :
  exists iconRect,
    TileItem.paint Qt5_1 Samples.origin
      (TileItem.on_renderTask_imageReady (Samples.param (qreal_of_int 1) (qreal_of_int 1))
         (QRect.make 0 0 1024 1024) false QImage.Null (Samples.worldAt 0))
    = ([paintIcon errorIcon iconRect],
       TileItem.on_renderTask_imageReady (Samples.param (qreal_of_int 1) (qreal_of_int 1))
         (QRect.make 0 0 1024 1024) false QImage.Null (Samples.worldAt 0)).
Proof.
  apply (failed_tile_paints_error_icon Qt5_1 (Samples.param (qreal_of_int 1) (qreal_of_int 1))
           (QRect.make 0 0 1024 1024) false QImage.Null Samples.origin (Samples.worldAt 0));
    reflexivity.
Defined.

(** ** One render at a time *)

(** X13: once [startRender] has started a render, every further call,
    for a prefetch or on demand, answers 0 and leaves the world as it is:
    the thread pool has received the one task and no second one. *)
Theorem startRender_twice (qt : QtVersion) (prefetch again : bool) (w : TileItem.World) :
  fst (TileItem.startRender qt prefetch w) = 1 ->
  let w1 := snd (TileItem.startRender qt prefetch w) in
  TileItem.startRender qt again w1 = (0, w1)
  /\ TileItem.threadPool w1 = (TileItem.threadPool w ++ [launched_task w prefetch])%list.
Proof.
  intros Hstarted. cbv zeta.
  destruct (render_declined w prefetch) eqn:Hdecl.
  - rewrite (startRender_declines qt prefetch w Hdecl) in Hstarted. discriminate.
  - rewrite (startRender_starts qt prefetch w Hdecl). cbn [snd]. split; [|reflexivity].
    apply startRender_declines. unfold render_declined.
    cbn [TileItem.tile TileItem.set_renderTask TileItem.m_renderTask launched_task
         RenderTask.isRunning RenderTask.m_isRunning].
    now rewrite orb_true_r.
Qed.

Lemma startRender_twice_witness :
  TileItem.startRender Qt5_1 true (snd (TileItem.startRender Qt5_1 false Samples.staleWorld))
  = (0, snd (TileItem.startRender Qt5_1 false Samples.staleWorld)).
Proof.
  apply (startRender_twice Qt5_1 false true Samples.staleWorld). reflexivity.
Defined.

(** ** Refresh *)

(** X14: [refresh] always leaves the tile dirty and the cache content
    alone: the error flag is cleared, the pixmap of the tile dropped, the
    task canceled forcibly (its running flag untouched), the thread pool
    unchanged; the cache keeps its maximum, its total cost and its keys,
    only the order of recency may change. *)
Theorem refresh_leaves_dirty (qt : QtVersion) (keep : bool) (w : TileItem.World) :
  let w' := TileItem.refresh qt keep w in
  TileItem.m_pixmapError (TileItem.tile w') = false
  /\ TileItem.m_pixmap (TileItem.tile w') = QPixmap.Null
  /\ RenderTask.wasCanceledForcibly (TileItem.m_renderTask (TileItem.tile w')) = true
  /\ RenderTask.isRunning (TileItem.m_renderTask (TileItem.tile w'))
     = RenderTask.isRunning (TileItem.m_renderTask (TileItem.tile w))
  /\ TileItem.threadPool w' = TileItem.threadPool w
  /\ QCache.maxCost (TileItem.s_cache w') = QCache.maxCost (TileItem.s_cache w)
  /\ QCache.totalCost (TileItem.s_cache w') = QCache.totalCost (TileItem.s_cache w)
  /\ (forall k, QCache.contains (TileItem.s_cache w') k
                = QCache.contains (TileItem.s_cache w) k).
Proof.
  cbv zeta.
  destruct (refresh_outcome qt keep w) as (Herr & Hpix & Hforced). cbv zeta in *.
  split; [exact Herr|]. split; [exact Hpix|]. split; [exact Hforced|].
  destruct (object_keeps_content (TileItem.s_cache w) (TileItem.pixmapKey (TileItem.tile w)))
    as (Hmx & Htot & Hkeys).
  unfold TileItem.refresh, QCache.maxCost, QCache.totalCost.
  destruct (keep && _).
  - destruct (QCache.contains _ _).
    + destruct (QCache.object _ _) as [[p|] c']; cbn [snd] in *;
        (split; [reflexivity|]); (split; [reflexivity|]);
        (split; [exact Hmx|]); (split; [exact Htot|exact Hkeys]).
    + repeat split.
  - repeat split.
Qed.

(** X15: what [refresh] keeps as obsolete pixmap.  Unless both the
    argument and the setting ask for it, the obsolete pixmap is dropped.
    If they do and the cache holds an entry under the key of the tile, the
    cached pixmap becomes the obsolete one; if they do and the cache holds
    none, the obsolete pixmap the tile had stays. *)
Theorem refresh_obsolete_pixmap (qt : QtVersion) (keep : bool) (w : TileItem.World) :
  let key := TileItem.pixmapKey (TileItem.tile w) in
  let asked := keep && Settings.keepObsoletePixmaps (TileItem.s_settings w) in
  let obsolete := TileItem.m_obsoletePixmap (TileItem.tile (TileItem.refresh qt keep w)) in
  (asked = false -> obsolete = QPixmap.Null)
  /\ (asked = true -> QCache.contains (TileItem.s_cache w) key = false ->
      obsolete = TileItem.m_obsoletePixmap (TileItem.tile w))
  /\ (asked = true -> QCache.contains (TileItem.s_cache w) key = true ->
      fst (QCache.object (TileItem.s_cache w) key) = Some obsolete).
Proof.
  cbv zeta. unfold TileItem.refresh.
  destruct (keep && _).
  - split; [discriminate|]. split.
    + intros _ Hmiss. rewrite Hmiss. reflexivity.
    + intros _ Hhit. rewrite Hhit.
      destruct (object_of_contained _ _ Hhit) as (p & Hp).
      destruct (QCache.object _ _) as [o c']. cbn [fst] in *. subst o. reflexivity.
  - split; [reflexivity|]. split; discriminate.
Qed.

(** X16: after [refresh] a result that still matches is dropped.  A
    completion event with the parameters and the rectangle of the tile and
    an image, arriving after [refresh], is neither cached (prefetch) nor
    kept (on demand), since the task is canceled forcibly; it only drops
    the obsolete pixmap. *)
Theorem refresh_suppresses_late_result (qt : QtVersion) (keep : bool)
    (renderParam : RenderParam) (rect : QRect.t) (prefetch : bool) (image : QImage.t)
    (w : TileItem.World) :
  event_is_stale w renderParam rect = false ->
  QImage.isNull image = false ->
  let refreshed := TileItem.refresh qt keep w in
  let w' := TileItem.on_renderTask_imageReady renderParam rect prefetch image refreshed in
  TileItem.s_cache w' = TileItem.s_cache refreshed
  /\ TileItem.m_pixmap (TileItem.tile w') = QPixmap.Null
  /\ TileItem.m_obsoletePixmap (TileItem.tile w') = QPixmap.Null
  /\ TileItem.m_pixmapError (TileItem.tile w') = false.
Proof.
  intros Hmatch Hnull. cbv zeta.
  destruct (refresh_outcome qt keep w) as (Herr & Hpix & Hforced). cbv zeta in *.
  assert (Hstale : event_is_stale (TileItem.refresh qt keep w) renderParam rect = false).
  { rewrite <- Hmatch. unfold event_is_stale, TileItem.refresh.
    destruct (keep && _); [|reflexivity].
    destruct (QCache.contains _ _); [|reflexivity].
    destruct (QCache.object _ _) as [[p|] c']; reflexivity. }
  assert (Hcanceled : RenderTask.wasCanceled
                        (TileItem.m_renderTask (TileItem.tile (TileItem.refresh qt keep w)))
                      = true).
  { unfold RenderTask.wasCanceledForcibly, RenderTask.wasCanceled in *.
    apply Z.eqb_eq in Hforced. now rewrite Hforced. }
  unfold TileItem.on_renderTask_imageReady. unfold event_is_stale in Hstale.
  rewrite Hstale, Hnull.
  cbn [TileItem.tile TileItem.with_tile TileItem.m_renderTask TileItem.set_obsoletePixmap].
  rewrite Hforced, Hcanceled. cbn [negb andb].
  rewrite andb_false_r.
  cbn [TileItem.s_cache TileItem.with_tile TileItem.tile TileItem.m_pixmap
       TileItem.m_obsoletePixmap TileItem.m_pixmapError TileItem.set_obsoletePixmap].
  repeat split; assumption.
Qed.

Lemma refresh_suppresses_late_result_witness :
  TileItem.m_pixmap
    (TileItem.tile
       (TileItem.on_renderTask_imageReady (Samples.param (qreal_of_int 1) (qreal_of_int 1))
          (QRect.make 0 0 1024 1024) false Samples.rendered
          (TileItem.refresh Qt5_1 true (Samples.worldAt 0))))
  = QPixmap.Null.
Proof.
  apply (refresh_suppresses_late_result Qt5_1 true
           (Samples.param (qreal_of_int 1) (qreal_of_int 1)) (QRect.make 0 0 1024 1024)
           false Samples.rendered (Samples.worldAt 0)); reflexivity.
Defined.

Lemma refresh_obsolete_pixmap_witness :
  TileItem.m_obsoletePixmap (TileItem.tile (TileItem.refresh Qt5_1 true Samples.staleWorld))
  = TileItem.m_obsoletePixmap (TileItem.tile Samples.staleWorld).
Proof.
  apply (proj1 (proj2 (refresh_obsolete_pixmap Qt5_1 true Samples.staleWorld)));
    reflexivity.
Defined.

(** ** Promotion of the pixmap of a tile *)

(** X17: lazy promotion.  When the cache holds no entry for the tile and
    the tile holds a pixmap whose cost is within the maximum, [takePixmap]
    returns that pixmap, moves it into the cache under the key of the tile
    and clears the reference of the tile, without starting a render; the
    next [takePixmap] returns the same pixmap, now from the cache, and
    changes nothing. *)
Theorem takePixmap_promotes (qt : QtVersion) (w : TileItem.World) :
  QCache.contains (TileItem.s_cache w) (TileItem.pixmapKey (TileItem.tile w)) = false ->
  QPixmap.isNull (TileItem.m_pixmap (TileItem.tile w)) = false ->
  pixmap_cost (TileItem.m_pixmap (TileItem.tile w)) <= QCache.maxCost (TileItem.s_cache w) ->
  let pixmap := TileItem.m_pixmap (TileItem.tile w) in
  let w1 := snd (TileItem.takePixmap qt w) in
  fst (TileItem.takePixmap qt w) = pixmap
  /\ TileItem.m_pixmap (TileItem.tile w1) = QPixmap.Null
  /\ QCache.contains (TileItem.s_cache w1) (TileItem.pixmapKey (TileItem.tile w)) = true
  /\ TileItem.threadPool w1 = TileItem.threadPool w
  /\ TileItem.m_renderTask (TileItem.tile w1) = TileItem.m_renderTask (TileItem.tile w)
  /\ TileItem.takePixmap qt w1 = (pixmap, w1).
Proof.
  intros Hmiss Hpix Hcost. cbv zeta.
  set (key := TileItem.pixmapKey (TileItem.tile w)) in *.
  set (pixmap := TileItem.m_pixmap (TileItem.tile w)) in *.
  set (cache1 := snd (QCache.insert (TileItem.s_cache w) key pixmap (pixmap_cost pixmap))).
  set (w1 := TileItem.mkWorld (TileItem.set_pixmap (TileItem.tile w) QPixmap.Null) cache1
               (TileItem.s_settings w) (TileItem.threadPool w)).
  assert (E : TileItem.takePixmap qt w = (pixmap, w1)).
  { unfold TileItem.takePixmap. fold key. fold pixmap. rewrite Hmiss, Hpix. reflexivity. }
  assert (Hhit : QCache.contains cache1 key = true) by now apply insert_contains.
  rewrite E. cbn [fst snd]. repeat split; try assumption.
  unfold TileItem.takePixmap.
  change (TileItem.pixmapKey (TileItem.tile w1)) with key.
  change (TileItem.s_cache w1) with cache1. rewrite Hhit.
  unfold cache1 at 1. rewrite object_after_insert by assumption. reflexivity.
Qed.

(** X18: a pixmap dearer than the maximum is handed out once and lost.
    When the cache holds no entry for the tile and the cost of the pixmap
    of the tile exceeds the maximum, [takePixmap] returns the pixmap and
    clears the reference of the tile, but the cache stays as it was; so
    the next [takePixmap] finds nothing and asks for a render again. *)
Theorem takePixmap_oversized (qt : QtVersion) (w : TileItem.World) :
  QCache.contains (TileItem.s_cache w) (TileItem.pixmapKey (TileItem.tile w)) = false ->
  QPixmap.isNull (TileItem.m_pixmap (TileItem.tile w)) = false ->
  QCache.maxCost (TileItem.s_cache w) < pixmap_cost (TileItem.m_pixmap (TileItem.tile w)) ->
  let w1 := TileItem.with_tile w (TileItem.set_pixmap (TileItem.tile w) QPixmap.Null) in
  TileItem.takePixmap qt w = (TileItem.m_pixmap (TileItem.tile w), w1)
  /\ TileItem.takePixmap qt w1 = (QPixmap.Null, snd (TileItem.startRender qt false w1)).
Proof.
  intros Hmiss Hpix Hcost. cbv zeta. split.
  - unfold TileItem.takePixmap. rewrite Hmiss, Hpix. cbn [negb].
    cbn [TileItem.tile TileItem.with_tile TileItem.s_cache].
    fold (pixmap_cost (TileItem.m_pixmap (TileItem.tile w))).
    change (TileItem.pixmapKey
              (TileItem.set_pixmap (TileItem.tile w) QPixmap.Null))
      with (TileItem.pixmapKey (TileItem.tile w)).
    rewrite insert_rejected by assumption. cbn [snd]. now destruct w.
  - unfold TileItem.takePixmap at 1.
    cbn [TileItem.tile TileItem.with_tile TileItem.s_cache TileItem.m_pixmap
         TileItem.set_pixmap].
    change (TileItem.pixmapKey
              (TileItem.set_pixmap (TileItem.tile w) QPixmap.Null))
      with (TileItem.pixmapKey (TileItem.tile w)).
    rewrite Hmiss. reflexivity.
Qed.

Lemma takePixmap_promotes_witness :
  TileItem.takePixmap Qt5_1 (snd (TileItem.takePixmap Qt5_1 (Samples.heldWorld 10485760)))
  = (TileItem.m_pixmap (TileItem.tile (Samples.heldWorld 10485760)),
     snd (TileItem.takePixmap Qt5_1 (Samples.heldWorld 10485760))).
Proof.
  apply (takePixmap_promotes Qt5_1 (Samples.heldWorld 10485760)).
  - reflexivity.
  - reflexivity.
  - vm_compute. discriminate.
Defined.

Lemma takePixmap_oversized_witness :
  TileItem.takePixmap Qt5_1 (Samples.heldWorld 1048576)
  = (TileItem.m_pixmap (TileItem.tile (Samples.heldWorld 1048576)),
     TileItem.with_tile (Samples.heldWorld 1048576)
       (TileItem.set_pixmap (TileItem.tile (Samples.heldWorld 1048576)) QPixmap.Null)).
Proof.
  apply (takePixmap_oversized Qt5_1 (Samples.heldWorld 1048576)).
  - reflexivity.
  - reflexivity.
  - vm_compute. reflexivity.
Defined.

(** ** What the tile never changes *)

Lemma startRender_identity (qt : QtVersion) (prefetch : bool) (w : TileItem.World) :
  TileItem.parent (TileItem.tile (snd (TileItem.startRender qt prefetch w)))
  = TileItem.parent (TileItem.tile w)
  /\ TileItem.m_rect (TileItem.tile (snd (TileItem.startRender qt prefetch w)))
     = TileItem.m_rect (TileItem.tile w).
Proof. unfold TileItem.startRender. destruct (_ || _ || _); split; reflexivity. Qed.

Lemma takePixmap_identity (qt : QtVersion) (w : TileItem.World) :
  TileItem.parent (TileItem.tile (snd (TileItem.takePixmap qt w)))
  = TileItem.parent (TileItem.tile w)
  /\ TileItem.m_rect (TileItem.tile (snd (TileItem.takePixmap qt w)))
     = TileItem.m_rect (TileItem.tile w).
Proof.
  unfold TileItem.takePixmap. destruct (QCache.contains _ _).
  - destruct (QCache.object _ _); split; reflexivity.
  - destruct (negb _); [split; reflexivity|]. cbn [snd]. apply startRender_identity.
Qed.

(** X19: no operation of the tile changes what its cache key is made of:
    the parent page item and the rectangle, hence the key, are the same
    after [refresh], [startRender], [cancelRender], a completion event,
    [takePixmap] and [paint]. *)
Theorem pixmapKey_stable (qt : QtVersion) (w : TileItem.World) (flag : bool)
    (renderParam : RenderParam) (rect : QRect.t) (image : QImage.t) (topLeft : QPointF.t) :
  let same (w' : TileItem.World) :=
    TileItem.parent (TileItem.tile w') = TileItem.parent (TileItem.tile w)
    /\ TileItem.m_rect (TileItem.tile w') = TileItem.m_rect (TileItem.tile w)
    /\ TileItem.pixmapKey (TileItem.tile w') = TileItem.pixmapKey (TileItem.tile w) in
  same (TileItem.refresh qt flag w)
  /\ same (snd (TileItem.startRender qt flag w))
  /\ same (TileItem.cancelRender qt flag w)
  /\ same (TileItem.on_renderTask_imageReady renderParam rect flag image w)
  /\ same (snd (TileItem.takePixmap qt w))
  /\ same (snd (TileItem.paint qt topLeft w)).
Proof.
  cbv zeta.
  assert (Hkey : forall w' : TileItem.World,
             TileItem.parent (TileItem.tile w') = TileItem.parent (TileItem.tile w)
             /\ TileItem.m_rect (TileItem.tile w') = TileItem.m_rect (TileItem.tile w) ->
             TileItem.parent (TileItem.tile w') = TileItem.parent (TileItem.tile w)
             /\ TileItem.m_rect (TileItem.tile w') = TileItem.m_rect (TileItem.tile w)
             /\ TileItem.pixmapKey (TileItem.tile w') = TileItem.pixmapKey (TileItem.tile w)).
  { intros w' [Hp Hr]. repeat split; try assumption. now apply pixmapKey_of_parent_rect. }
  split; [apply Hkey|split; [apply Hkey|split; [apply Hkey|split; [apply Hkey|
    split; apply Hkey]]]].
  - unfold TileItem.refresh. destruct (flag && _); [|split; reflexivity].
    destruct (QCache.contains _ _); [|split; reflexivity].
    destruct (QCache.object _ _) as [[p|] c']; split; reflexivity.
  - apply startRender_identity.
  - split; reflexivity.
  - unfold TileItem.on_renderTask_imageReady.
    destruct (_ || _); [split; reflexivity|].
    destruct (QImage.isNull image); [split; reflexivity|].
    destruct (flag && _); [split; reflexivity|].
    destruct (negb _); split; reflexivity.
  - apply takePixmap_identity.
  - rewrite paint_world. apply takePixmap_identity.
Qed.

(** ** The cache holds pixmaps only *)

Lemma use_cache_no_null (qt : QtVersion) (c : QCache.t) (u : CacheUse) :
  no_null_object c -> no_null_object (use_cache qt c u).
Proof.
  intros Hc. destruct u as [p fresh settings|w keep|w prefetch|w rp rect prefetch image
                           |w topLeft]; cbn [use_cache].
  - unfold TileItem.create. cbn [TileItem.s_cache]. unfold QCache.setMaxCost.
    now apply no_null_trim.
  - unfold TileItem.refresh. cbn [TileItem.s_cache TileItem.with_cache TileItem.tile].
    destruct (keep && _); [|exact Hc].
    destruct (QCache.contains c _); [|exact Hc].
    pose proof (proj1 (no_null_object_handed c (TileItem.pixmapKey (TileItem.tile w)) Hc))
      as Hobj.
    destruct (QCache.object c _) as [[p|] c']; exact Hobj.
  - rewrite startRender_cache. exact Hc.
  - unfold TileItem.on_renderTask_imageReady.
    destruct (_ || _); [exact Hc|].
    destruct (QImage.isNull image) eqn:Hnull; [exact Hc|].
    destruct (prefetch && _).
    + cbn [TileItem.s_cache TileItem.with_cache TileItem.with_tile TileItem.tile].
      apply no_null_insert; [exact Hc|]. now apply fromImage_not_null.
    + destruct (negb _); exact Hc.
  - rewrite paint_world. unfold TileItem.takePixmap.
    cbn [TileItem.s_cache TileItem.with_cache TileItem.tile].
    destruct (QCache.contains c _).
    + pose proof (proj1 (no_null_object_handed c (TileItem.pixmapKey (TileItem.tile w)) Hc))
        as Hobj.
      destruct (QCache.object c _) as [o c']. exact Hobj.
    + destruct (negb _) eqn:Hpix.
      * cbn [snd TileItem.s_cache TileItem.with_cache TileItem.with_tile TileItem.tile].
        apply no_null_insert; [exact Hc|]. now apply negb_true_iff in Hpix.
      * cbn [snd]. rewrite startRender_cache. exact Hc.
Qed.

(** X20: the tiles never put a null pixmap into the shared cache:
    whatever tiles use the cache and in whatever order (construction,
    refresh, start of a render, completion events, paint), every object
    resident in it is a pixmap with content. *)
Theorem cache_never_holds_null (qt : QtVersion) (maxCost : Z) (uses : list CacheUse) :
  no_null_object (fold_left (use_cache qt) uses (QCache.empty maxCost)).
Proof.
  assert (Hinit : no_null_object (QCache.empty maxCost)) by constructor.
  revert Hinit. generalize (QCache.empty maxCost).
  induction uses as [|u uses IH]; intros c Hc; cbn [fold_left]; [exact Hc|].
  apply IH. now apply use_cache_no_null.
Qed.

(** ** Painting what is there *)

(** Paint with a pixmap in the cache. *)
Lemma paint_hit (qt : QtVersion) (topLeft : QPointF.t) (w : TileItem.World) (p : QPixmap.t)
    (c' : QCache.t) :
  QCache.contains (TileItem.s_cache w) (TileItem.pixmapKey (TileItem.tile w)) = true ->
  QCache.object (TileItem.s_cache w) (TileItem.pixmapKey (TileItem.tile w)) = (Some p, c') ->
  QPixmap.isNull p = false ->
  TileItem.paint qt topLeft w
  = ([drawPixmap_at (paint_position w topLeft) p], TileItem.with_cache w c').
Proof.
  intros Hhit Hobj Hp. unfold TileItem.paint, TileItem.takePixmap.
  rewrite Hhit, Hobj, Hp. reflexivity.
Qed.

(** X21: a cache hit is painted and nothing is started.  When the cache
    holds an entry under the key of the tile (and, as the tiles maintain,
    no null pixmap), [paint] draws the cached pixmap at the top left
    corner of the rectangle, offset by [topLeft], and nothing else; the
    tile and the thread pool stay as they were, the obsolete pixmap and the
    error flag are not consulted; in the cache only the recency changes. *)
Theorem paint_cache_hit (qt : QtVersion) (topLeft : QPointF.t) (w : TileItem.World) :
  QCache.contains (TileItem.s_cache w) (TileItem.pixmapKey (TileItem.tile w)) = true ->
  no_null_object (TileItem.s_cache w) ->
  exists p,
    fst (QCache.object (TileItem.s_cache w) (TileItem.pixmapKey (TileItem.tile w))) = Some p
    /\ fst (TileItem.paint qt topLeft w) = [drawPixmap_at (paint_position w topLeft) p]
    /\ TileItem.tile (snd (TileItem.paint qt topLeft w)) = TileItem.tile w
    /\ TileItem.threadPool (snd (TileItem.paint qt topLeft w)) = TileItem.threadPool w
    /\ (forall k, QCache.contains (TileItem.s_cache (snd (TileItem.paint qt topLeft w))) k
                  = QCache.contains (TileItem.s_cache w) k).
Proof.
  intros Hhit Hnonull.
  destruct (object_of_contained _ _ Hhit) as (p & Hp).
  destruct (no_null_object_handed _ (TileItem.pixmapKey (TileItem.tile w)) Hnonull)
    as (_ & Hnot).
  destruct (object_keeps_content (TileItem.s_cache w) (TileItem.pixmapKey (TileItem.tile w)))
    as (_ & _ & Hkeys).
  destruct (QCache.object (TileItem.s_cache w) (TileItem.pixmapKey (TileItem.tile w)))
    as [o c'] eqn:Hobj.
  cbn [fst snd] in *. subst o. exists p. split; [reflexivity|].
  rewrite (paint_hit qt topLeft w p c' Hhit Hobj (Hnot p eq_refl)).
  cbn [fst snd TileItem.with_cache TileItem.tile TileItem.threadPool TileItem.s_cache].
  repeat split. exact Hkeys.
Qed.

(** X22: an on-demand result reaches the screen and then the cache.
    After a matching event with an image, for a task that is not canceled
    and no prefetch, the next [paint] of a tile without cache entry draws
    exactly that image at the position of the tile, clears the pixmap of
    the tile again and, if the cost of the image is within the maximum,
    leaves it in the cache under the key of the tile. *)
Theorem ondemand_result_is_painted (qt : QtVersion) (renderParam : RenderParam)
    (rect : QRect.t) (image : QImage.t) (topLeft : QPointF.t) (w : TileItem.World) :
  event_is_stale w renderParam rect = false ->
  QImage.isNull image = false ->
  RenderTask.wasCanceled (TileItem.m_renderTask (TileItem.tile w)) = false ->
  QCache.contains (TileItem.s_cache w) (TileItem.pixmapKey (TileItem.tile w)) = false ->
  let w1 := TileItem.on_renderTask_imageReady renderParam rect false image w in
  let w2 := snd (TileItem.paint qt topLeft w1) in
  fst (TileItem.paint qt topLeft w1)
  = [drawPixmap_at (paint_position w topLeft) (QPixmap.fromImage image)]
  /\ TileItem.m_pixmap (TileItem.tile w2) = QPixmap.Null
  /\ TileItem.threadPool w2 = TileItem.threadPool w
  /\ (pixmap_cost (QPixmap.fromImage image) <= QCache.maxCost (TileItem.s_cache w) ->
      QCache.contains (TileItem.s_cache w2) (TileItem.pixmapKey (TileItem.tile w)) = true).
Proof.
  intros Hmatch Hnull Hlive Hmiss. cbv zeta.
  assert (E : TileItem.on_renderTask_imageReady renderParam rect false image w
              = TileItem.with_tile w
                  (TileItem.set_pixmap
                     (TileItem.set_obsoletePixmap (TileItem.tile w) QPixmap.Null)
                     (QPixmap.fromImage image))).
  { unfold TileItem.on_renderTask_imageReady. unfold event_is_stale in Hmatch.
    rewrite Hmatch, Hnull. cbn [andb].
    cbn [TileItem.tile TileItem.with_tile TileItem.m_renderTask TileItem.set_obsoletePixmap].
    now rewrite Hlive. }
  rewrite E. pose proof (fromImage_not_null image Hnull) as Hpix.
  unfold TileItem.paint, TileItem.takePixmap.
  cbn [TileItem.tile TileItem.with_tile TileItem.s_cache TileItem.m_pixmap
       TileItem.set_pixmap].
  change (TileItem.pixmapKey
            (TileItem.set_pixmap
               (TileItem.set_obsoletePixmap (TileItem.tile w) QPixmap.Null)
               (QPixmap.fromImage image)))
    with (TileItem.pixmapKey (TileItem.tile w)).
  rewrite Hmiss, Hpix. cbn [negb]. rewrite Hpix. cbn [negb fst snd].
  cbn [TileItem.tile TileItem.with_tile TileItem.with_cache TileItem.s_cache
       TileItem.m_pixmap TileItem.set_pixmap TileItem.threadPool].
  split; [reflexivity|]. split; [reflexivity|]. split; [reflexivity|].
  intros Hcost. now apply insert_contains.
Qed.

Lemma ondemand_result_is_painted_witness :
  fst (TileItem.paint Qt5_1 Samples.origin
         (TileItem.on_renderTask_imageReady (Samples.param (qreal_of_int 1) (qreal_of_int 1))
            (QRect.make 0 0 1024 1024) false Samples.rendered (Samples.worldAt 0)))
  = [drawPixmap_at (paint_position (Samples.worldAt 0) Samples.origin)
       (QPixmap.fromImage Samples.rendered)].
Proof.
  apply (ondemand_result_is_painted Qt5_1 (Samples.param (qreal_of_int 1) (qreal_of_int 1))
           (QRect.make 0 0 1024 1024) Samples.rendered Samples.origin (Samples.worldAt 0));
    reflexivity.
Defined.

(** X23: a prefetched result is painted from the cache.  After a
    matching prefetch event with an image whose cost is within the
    maximum, for a task that is not canceled forcibly, the next [paint]
    draws exactly that image at the position of the tile and starts no
    render: the task of the tile and the thread pool stay as they were. *)
Theorem prefetch_result_is_painted (qt : QtVersion) (renderParam : RenderParam)
    (rect : QRect.t) (image : QImage.t) (topLeft : QPointF.t) (w : TileItem.World) :
  event_is_stale w renderParam rect = false ->
  QImage.isNull image = false ->
  RenderTask.wasCanceledForcibly (TileItem.m_renderTask (TileItem.tile w)) = false ->
  image_cost image <= QCache.maxCost (TileItem.s_cache w) ->
  let w1 := TileItem.on_renderTask_imageReady renderParam rect true image w in
  let w2 := snd (TileItem.paint qt topLeft w1) in
  fst (TileItem.paint qt topLeft w1)
  = [drawPixmap_at (paint_position w topLeft) (QPixmap.fromImage image)]
  /\ TileItem.m_renderTask (TileItem.tile w2) = TileItem.m_renderTask (TileItem.tile w)
  /\ TileItem.threadPool w2 = TileItem.threadPool w
  /\ TileItem.s_cache w2 = TileItem.s_cache w1.
Proof.
  intros Hmatch Hnull Hlive Hcost. cbv zeta.
  set (key := TileItem.pixmapKey (TileItem.tile w)).
  set (cache1 := snd (QCache.insert (TileItem.s_cache w) key (QPixmap.fromImage image)
                        (image_cost image))).
  assert (E : TileItem.on_renderTask_imageReady renderParam rect true image w
              = TileItem.mkWorld (TileItem.set_obsoletePixmap (TileItem.tile w) QPixmap.Null)
                  cache1 (TileItem.s_settings w) (TileItem.threadPool w)).
  { unfold TileItem.on_renderTask_imageReady. unfold event_is_stale in Hmatch.
    rewrite Hmatch, Hnull.
    cbn [TileItem.tile TileItem.with_tile TileItem.m_renderTask TileItem.set_obsoletePixmap].
    rewrite Hlive. reflexivity. }
  rewrite E.
  set (w1 := TileItem.mkWorld _ cache1 _ _).
  assert (Hhit : QCache.contains (TileItem.s_cache w1) (TileItem.pixmapKey (TileItem.tile w1))
                 = true) by (apply insert_contains; assumption).
  assert (Hobj : QCache.object (TileItem.s_cache w1) (TileItem.pixmapKey (TileItem.tile w1))
                 = (Some (QPixmap.fromImage image), cache1))
    by (apply object_after_insert; assumption).
  rewrite (paint_hit qt topLeft w1 _ _ Hhit Hobj (fromImage_not_null image Hnull)).
  repeat split.
Qed.

Lemma prefetch_result_is_painted_witness :
  fst (TileItem.paint Qt5_1 Samples.origin
         (TileItem.on_renderTask_imageReady (Samples.param (qreal_of_int 1) (qreal_of_int 1))
            (QRect.make 0 0 1024 1024) true Samples.rendered (Samples.worldAt 0)))
  = [drawPixmap_at (paint_position (Samples.worldAt 0) Samples.origin)
       (QPixmap.fromImage Samples.rendered)].
Proof.
  apply (prefetch_result_is_painted Qt5_1 (Samples.param (qreal_of_int 1) (qreal_of_int 1))
           (QRect.make 0 0 1024 1024) Samples.rendered Samples.origin (Samples.worldAt 0));
    try reflexivity.
  vm_compute. discriminate.
Defined.

Lemma paint_cache_hit_witness :
  exists p,
    fst (QCache.object (TileItem.s_cache Samples.cachedWorld)
           (TileItem.pixmapKey (TileItem.tile Samples.cachedWorld))) = Some p
    /\ fst (TileItem.paint Qt5_1 Samples.origin Samples.cachedWorld)
       = [drawPixmap_at (paint_position Samples.cachedWorld Samples.origin) p]
    /\ TileItem.tile (snd (TileItem.paint Qt5_1 Samples.origin Samples.cachedWorld))
       = TileItem.tile Samples.cachedWorld
    /\ TileItem.threadPool (snd (TileItem.paint Qt5_1 Samples.origin Samples.cachedWorld))
       = TileItem.threadPool Samples.cachedWorld
    /\ (forall k,
           QCache.contains
             (TileItem.s_cache (snd (TileItem.paint Qt5_1 Samples.origin Samples.cachedWorld))) k
           = QCache.contains (TileItem.s_cache Samples.cachedWorld) k).
Proof.
  apply (paint_cache_hit Qt5_1 Samples.origin Samples.cachedWorld).
  - vm_compute. reflexivity.
  - unfold no_null_object. vm_compute. repeat constructor.
Defined.

(** ** Cancelling and tearing down *)

(** X24: [cancelRender] blanks the tile and an on-demand result that
    arrives afterwards stays out.  Whatever strength the cancellation has,
    afterwards the tile has neither pixmap nor obsolete pixmap and its task
    reports [wasCanceled]; the cache, the thread pool and the running flag
    are untouched; and a matching on-demand event with an image changes
    neither the pixmap of the tile nor the cache. *)
Theorem cancelRender_blanks (qt : QtVersion) (cancelDefault : bool)
    (renderParam : RenderParam) (rect : QRect.t) (image : QImage.t) (w : TileItem.World) :
  let w1 := TileItem.cancelRender qt cancelDefault w in
  let w2 := TileItem.on_renderTask_imageReady renderParam rect false image w1 in
  TileItem.m_pixmap (TileItem.tile w1) = QPixmap.Null
  /\ TileItem.m_obsoletePixmap (TileItem.tile w1) = QPixmap.Null
  /\ RenderTask.wasCanceled (TileItem.m_renderTask (TileItem.tile w1)) = true
  /\ RenderTask.wasCanceledForcibly (TileItem.m_renderTask (TileItem.tile w1)) = cancelDefault
  /\ RenderTask.isRunning (TileItem.m_renderTask (TileItem.tile w1))
     = RenderTask.isRunning (TileItem.m_renderTask (TileItem.tile w))
  /\ TileItem.s_cache w1 = TileItem.s_cache w
  /\ TileItem.threadPool w1 = TileItem.threadPool w
  /\ TileItem.m_pixmap (TileItem.tile w2) = QPixmap.Null
  /\ TileItem.s_cache w2 = TileItem.s_cache w.
Proof.
  cbv zeta.
  assert (Hc : RenderTask.wasCanceled
                 (TileItem.m_renderTask (TileItem.tile (TileItem.cancelRender qt cancelDefault w)))
               = true).
  { unfold TileItem.cancelRender, RenderTask.wasCanceled, RenderTask.cancel,
      RenderTask.set_wasCanceled.
    cbn [TileItem.tile TileItem.with_tile TileItem.m_renderTask TileItem.set_renderTask
         TileItem.set_pixmap TileItem.set_obsoletePixmap RenderTask.m_wasCanceled].
    rewrite setCancellation_value. now destruct cancelDefault. }
  assert (Hf : RenderTask.wasCanceledForcibly
                 (TileItem.m_renderTask (TileItem.tile (TileItem.cancelRender qt cancelDefault w)))
               = cancelDefault).
  { unfold TileItem.cancelRender, RenderTask.wasCanceledForcibly, RenderTask.cancel,
      RenderTask.set_wasCanceled.
    cbn [TileItem.tile TileItem.with_tile TileItem.m_renderTask TileItem.set_renderTask
         TileItem.set_pixmap TileItem.set_obsoletePixmap RenderTask.m_wasCanceled].
    rewrite setCancellation_value. now destruct cancelDefault. }
  split; [reflexivity|]. split; [reflexivity|]. split; [exact Hc|]. split; [exact Hf|].
  split; [reflexivity|]. split; [reflexivity|]. split; [reflexivity|].
  unfold TileItem.on_renderTask_imageReady.
  destruct (_ || _); [split; reflexivity|].
  destruct (QImage.isNull image); [split; reflexivity|].
  cbn [andb TileItem.tile TileItem.with_tile TileItem.m_renderTask
       TileItem.set_obsoletePixmap].
  rewrite Hc. split; reflexivity.
Qed.

Lemma cancelRender_keeps (qt : QtVersion) (cancelDefault : bool) (w : TileItem.World) :
  RenderTask.isRunning
    (TileItem.m_renderTask (TileItem.tile (TileItem.cancelRender qt cancelDefault w)))
  = RenderTask.isRunning (TileItem.m_renderTask (TileItem.tile w))
  /\ TileItem.s_cache (TileItem.cancelRender qt cancelDefault w) = TileItem.s_cache w
  /\ TileItem.threadPool (TileItem.cancelRender qt cancelDefault w) = TileItem.threadPool w.
Proof. repeat split. Qed.

(** X25: [deleteAfterRender] deletes the tile at the first turn of the
    event loop that finds its task idle, and not before.  If some turn
    finds the task idle, the tile is deleted and the cache and the thread
    pool are left as they were; if the task is running and no turn finds
    it idle, the slot is still armed after all of them and the task still
    running, canceled. *)
Theorem teardown_waits_for_the_task (qt : QtVersion) (cancelDefault : bool)
    (turns : list bool) (w : TileItem.World) :
  (existsb (fun idleNow => idleNow) turns = true ->
   teardown qt cancelDefault turns w
   = TileItem.Deleted (TileItem.s_cache w) (TileItem.threadPool w))
  /\ (RenderTask.isRunning (TileItem.m_renderTask (TileItem.tile w)) = true ->
      existsb (fun idleNow => idleNow) turns = false ->
      exists w',
        teardown qt cancelDefault turns w = TileItem.Rearmed w'
        /\ RenderTask.isRunning (TileItem.m_renderTask (TileItem.tile w')) = true
        /\ TileItem.s_cache w' = TileItem.s_cache w
        /\ TileItem.threadPool w' = TileItem.threadPool w).
Proof.
  revert w. induction turns as [|idleNow later IH]; intros w; cbn [teardown existsb].
  - split; [discriminate|]. intros Hrun _. exists w. repeat split. exact Hrun.
  - unfold TileItem.deleteAfterRender.
    destruct (cancelRender_keeps qt cancelDefault (worker_progress idleNow w))
      as (Hrun1 & Hcache1 & Hpool1).
    rewrite Hrun1, Hcache1, Hpool1.
    destruct idleNow; cbn [orb worker_progress].
    + split; [intros _; reflexivity|discriminate].
    + destruct (RenderTask.isRunning (TileItem.m_renderTask (TileItem.tile w))) eqn:Hrun;
        cbn [negb].
      * destruct (IH (TileItem.cancelRender qt cancelDefault w)) as [IHdel IHarm].
        destruct (cancelRender_keeps qt cancelDefault w) as (Hr & Hc & Hp).
        split.
        -- intros Hsome. rewrite (IHdel Hsome). now rewrite Hc, Hp.
        -- intros _ Hnone. rewrite Hr in IHarm.
           destruct (IHarm Hrun Hnone) as (w' & E & R & C & P).
           exists w'. rewrite E, R, C, P. repeat split; assumption.
      * split; [reflexivity|discriminate].
Qed.

Lemma teardown_waits_for_the_task_witness :
  teardown Qt5_1 false [false; false; true; false] Samples.busyWorld
  = TileItem.Deleted (TileItem.s_cache Samples.busyWorld)
      (TileItem.threadPool Samples.busyWorld).
Proof.
  apply (proj1 (teardown_waits_for_the_task Qt5_1 false [false; false; true; false]
                  Samples.busyWorld)).
  reflexivity.
Defined.

(** ** The alpha channel *)

Lemma channel_of_low_bits (p s : Z) :
  s = 0 \/ s = 8 \/ s = 16 ->
  Z.land (Z.shiftr (p mod 2 ^ 24) s) 255 = Z.land (Z.shiftr p s) 255.
Proof.
  intros Hs. change 255 with (Z.ones 8). rewrite !Z.land_ones by lia.
  rewrite !Z.shiftr_div_pow2 by lia.
  rewrite (Z.div_mod p (2 ^ 24)) at 2 by lia.
  replace (2 ^ 24 * (p / 2 ^ 24) + p mod 2 ^ 24)
    with (p mod 2 ^ 24 + (p / 2 ^ 24 * 2 ^ (24 - s)) * 2 ^ s).
  2:{ rewrite <- Z.mul_assoc, <- Z.pow_add_r by lia.
      replace (24 - s + s) with 24 by lia. lia. }
  rewrite Z.div_add by (apply Z.pow_nonzero; lia).
  replace (2 ^ (24 - s)) with (2 ^ (16 - s) * 2 ^ 8)
    by (rewrite <- Z.pow_add_r by lia; f_equal; lia).
  rewrite Z.mul_assoc. now rewrite Z.mod_add by lia.
Qed.

Lemma fromRgb_low_bits (p : Z) : QColor.fromRgb (p mod 2 ^ 24) = QColor.fromRgb p.
Proof.
  unfold QColor.fromRgb.
  rewrite (channel_of_low_bits p 16), (channel_of_low_bits p 8) by auto.
  pose proof (channel_of_low_bits p 0 ltac:(auto)) as H0.
  rewrite !Z.shiftr_0_r in H0. now rewrite H0.
Qed.

Lemma all_below_ext (fuel : nat) (i bound : Z) (f g : Z -> bool) :
  (forall j, f j = g j) -> all_below fuel i bound f = all_below fuel i bound g.
Proof.
  intros E. revert i. induction fuel as [|fuel IH]; intros i; cbn [all_below];
    [reflexivity|].
  now rewrite E, IH.
Qed.

Lemma scan_up_ext (fuel : nat) (i bound : Z) (f g : Z -> bool) :
  (forall j, f j = g j) -> scan_up fuel i bound f = scan_up fuel i bound g.
Proof.
  intros E. revert i. induction fuel as [|fuel IH]; intros i; cbn [scan_up];
    [reflexivity|].
  now rewrite E, IH.
Qed.

Lemma scan_down_ext (fuel : nat) (i bound : Z) (f g : Z -> bool) :
  (forall j, f j = g j) -> scan_down fuel i bound f = scan_down fuel i bound g.
Proof.
  intros E. revert i. induction fuel as [|fuel IH]; intros i; cbn [scan_down];
    [reflexivity|].
  now rewrite E, IH.
Qed.

(** X26: the margin trimmer does not look at the alpha channel.  Two
    images of the same geometry whose pixels agree in their 24 colour bits
    have the same crop box for every paper color: the pixel is compared as
    an opaque colour, so a transparent pixel passes for paper when its
    colour bits are those of the paper. *)
Theorem trimMargins_ignores_alpha (paperColor : QColor.t) (width height depth : Z)
    (ratio : qreal) (pixels pixels' : Z -> Z -> QRgb) :
  (forall x y, pixels' x y mod 2 ^ 24 = pixels x y mod 2 ^ 24) ->
  trimMargins paperColor (QImage.Data width height depth ratio pixels')
  = trimMargins paperColor (QImage.Data width height depth ratio pixels).
Proof.
  intros Hbits.
  assert (Hpx : forall x y,
             QColor.fromRgb (pixels' x y) = QColor.fromRgb (pixels x y)).
  { intros x y. rewrite <- (fromRgb_low_bits (pixels' x y)), Hbits.
    apply fromRgb_low_bits. }
  assert (Hcol : forall x,
             columnHasPaperColor x paperColor (QImage.Data width height depth ratio pixels')
             = columnHasPaperColor x paperColor (QImage.Data width height depth ratio pixels)).
  { intros x. unfold columnHasPaperColor. cbn [QImage.height QImage.pixel].
    apply all_below_ext. intros y. now rewrite Hpx. }
  assert (Hrow : forall y,
             rowHasPaperColor y paperColor (QImage.Data width height depth ratio pixels')
             = rowHasPaperColor y paperColor (QImage.Data width height depth ratio pixels)).
  { intros y. unfold rowHasPaperColor. cbn [QImage.width QImage.pixel].
    apply all_below_ext. intros x. now rewrite Hpx. }
  unfold trimMargins. cbn [QImage.isNull QImage.width QImage.height].
  rewrite (scan_up_ext _ _ _ _ _ Hcol), (scan_up_ext _ _ _ _ _ Hrow).
  rewrite (scan_down_ext _ _ _ _ _ Hcol), (scan_down_ext _ _ _ _ _ Hrow).
  reflexivity.
Qed.

Lemma trimMargins_ignores_alpha_witness :
  trimMargins QColor.white
    (QImage.Data 64 48 32 (qreal_of_int 1) (fun _ _ => 16777215))
  = trimMargins QColor.white
      (QImage.Data 64 48 32 (qreal_of_int 1) (fun _ _ => 4294967295)).
Proof.
  apply trimMargins_ignores_alpha. intros x y. reflexivity.
Defined.

(** ** Construction *)

(** X27: constructing a tile applies the configured cache size to the
    shared cache at once.  For a consistent cache and a size that is not
    negative, after the constructor the maximum cost is the configured
    size and the resident cost is within it, entries having been evicted
    if need be; the new tile is idle, without error and without pixmaps,
    and the thread pool is untouched. *)
Theorem create_applies_cache_size (parentItem : PageItem.t) (fresh : RenderParam)
    (cache : QCache.t) (settings : Settings.t) (pool : list RenderTask.t) :
  cache_consistent cache -> 0 <= Settings.cacheSize settings ->
  let w := TileItem.create parentItem fresh cache settings pool in
  QCache.maxCost (TileItem.s_cache w) = Settings.cacheSize settings
  /\ QCache.resident_cost (TileItem.s_cache w) <= Settings.cacheSize settings
  /\ QCache.totalCost (TileItem.s_cache w) = QCache.resident_cost (TileItem.s_cache w)
  /\ RenderTask.isRunning (TileItem.m_renderTask (TileItem.tile w)) = false
  /\ RenderTask.wasCanceled (TileItem.m_renderTask (TileItem.tile w)) = false
  /\ TileItem.m_pixmapError (TileItem.tile w) = false
  /\ TileItem.m_pixmap (TileItem.tile w) = QPixmap.Null
  /\ TileItem.m_obsoletePixmap (TileItem.tile w) = QPixmap.Null
  /\ TileItem.threadPool w = pool.
Proof.
  intros Hc Hsize. cbv zeta. unfold TileItem.create.
  cbn [TileItem.s_cache TileItem.tile TileItem.m_renderTask TileItem.m_pixmapError
       TileItem.m_pixmap TileItem.m_obsoletePixmap TileItem.threadPool].
  destruct (consistent_setMaxCost cache (Settings.cacheSize settings) Hc Hsize)
    as ((Htot & _) & Hmx & Hle).
  unfold QCache.maxCost, QCache.totalCost. rewrite <- Htot.
  repeat split; assumption.
Qed.

Lemma create_applies_cache_size_witness :
  QCache.resident_cost
    (TileItem.s_cache
       (TileItem.create (PageItem.make 4096 Samples.blankPage Samples.invertedParam)
          Samples.invertedParam
          (fold_left (use_cache Qt5_1) Samples.threeTiles (QCache.empty 10485760))
          (Settings.make 4194304 true) []))
  <= Settings.cacheSize (Settings.make 4194304 true).
Proof.
  apply (create_applies_cache_size (PageItem.make 4096 Samples.blankPage Samples.invertedParam)
           Samples.invertedParam
           (fold_left (use_cache Qt5_1) Samples.threeTiles (QCache.empty 10485760))
           (Settings.make 4194304 true) []).
  - split; [vm_compute; reflexivity|]. vm_compute. repeat constructor; discriminate.
  - simpl. lia.
Defined.

(** ** The cache bound and the size of the buffers *)

(** C5: the bound of the claim fails on the code for a buffer of 2^31
    bits or more.  For the tile of 8192 x 8192 pixels of 32 bits and a
    cache of 32 MiB, the cost expression [width * height * depth / 8]
    overflows [int] and yields -268435456; [QCache::insert] admits the
    entry, so 256 MiB of pixel data are resident under a maximum of
    32 MiB while the running total is negative.  Both insert sites do so:
    the completion of a prefetch and the promotion during paint. *)
Theorem cache_cost_overflows :
  let key := TileItem.pixmapKey (TileItem.tile (Samples.hugeTile QPixmap.Null true)) in
  let prefetched := use_cache Qt5_1 Samples.hugeCache Samples.hugePrefetched in
  let painted := use_cache Qt5_1 Samples.hugeCache Samples.hugePainted in
  QImage.width Samples.hugeImage * QImage.height Samples.hugeImage
  * QImage.depth Samples.hugeImage = 2 ^ 31
  /\ image_cost Samples.hugeImage = -268435456
  /\ pixmap_cost (QPixmap.fromImage Samples.hugeImage) = -268435456
  /\ QCache.maxCost prefetched = 33554432
  /\ QCache.contains prefetched key = true
  /\ QCache.totalCost prefetched = -268435456
  /\ resident_bytes prefetched = 268435456
  /\ QCache.maxCost painted = 33554432
  /\ QCache.contains painted key = true
  /\ QCache.totalCost painted = -268435456
  /\ resident_bytes painted = 268435456.
Proof.
  cbv zeta. vm_compute. repeat split.
Qed.












